(** * gopu: a filesystem-backed package registry

    Shallow embedding of [lib/storage.js], of [lib/auth.js] and of the
    handlers of [server.js] that publish, upload, list and download.

    Conventions.
    - A JavaScript string is a [string]: a sequence of code units, here
      the code units U+0000..U+00FF.  The regular expressions of the
      source carry no [u] flag, so they work code unit by code unit.
    - An [async] function that can reject is a function into [outcome]:
      [Return v] for a fulfilled promise, [Throw e] for a rejected one.
    - The file system is a tree of directories and files, threaded
      explicitly through every operation. *)

From Stdlib Require Import String Ascii List Bool ZArith NArith Lia Arith DecimalString.
Import ListNotations.
Local Open Scope string_scope.

Set Warnings "-register-all".

(** ** Strings *)

Module Str.

(** [s.startsWith(t)] *)
Fixpoint startsWith (t s : string) : bool :=
  match t, s with
  | EmptyString, _ => true
  | String a t', String b s' => Ascii.eqb a b && startsWith t' s'
  | String _ _, EmptyString => false
  end.

(** [s.includes(t)] *)
Fixpoint includes (t s : string) : bool :=
  if startsWith t s then true
  else match s with
       | EmptyString => false
       | String _ r => includes t r
       end.

(** [s.replace(/[...]/g, f)] for a character class: every code unit is
    rewritten on its own. *)
Fixpoint map (f : ascii -> ascii) (s : string) : string :=
  match s with
  | EmptyString => EmptyString
  | String c r => String (f c) (map f r)
  end.

Definition dot : ascii := "."%char.
Definition underscore : ascii := "_"%char.

Definition is_dot (c : ascii) : bool := Ascii.eqb c dot.

(** [s.replace(/\.\./g, "")]: the matches are found from left to right
    and do not overlap; each is replaced by the empty string. *)
Fixpoint remove_dotdot (s : string) : string :=
  match s with
  | EmptyString => EmptyString
  | String c r =>
      match r with
      | String d r' =>
          if is_dot c && is_dot d then remove_dotdot r'
          else String c (remove_dotdot r)
      | EmptyString => String c EmptyString
      end
  end.

End Str.

(** ** The sanitizers of [lib/storage.js] *)

Definition in_range (lo hi c : ascii) : bool :=
  (nat_of_ascii lo <=? nat_of_ascii c)%nat && (nat_of_ascii c <=? nat_of_ascii hi)%nat.

(** The class [[@\/a-zA-Z0-9\-\_\.]] *)
Definition pkg_char_allowed (c : ascii) : bool :=
  Ascii.eqb c "@" || Ascii.eqb c "/"
  || in_range "a" "z" c || in_range "A" "Z" c || in_range "0" "9" c
  || Ascii.eqb c "-" || Ascii.eqb c "_" || Ascii.eqb c ".".

(** The class [[\/\\]] *)
Definition is_separator (c : ascii) : bool :=
  Ascii.eqb c "/" || Ascii.eqb c "\".

Definition sanitizePkgName (name : string) : string :=
  Str.map (fun c => if pkg_char_allowed c then c else Str.underscore)
          (Str.remove_dotdot name).

Definition sanitizeFilename (name : string) : string :=
  Str.map (fun c => if is_separator c then Str.underscore else c)
          (Str.remove_dotdot name).

(** No two dots in a row: the string has no parent-directory sequence. *)
Fixpoint no_dotdot (s : string) : bool :=
  match s with
  | String c (String d _ as r) => negb (Str.is_dot c && Str.is_dot d) && no_dotdot r
  | _ => true
  end.

(** ** [path.join] and path resolution (POSIX) *)

Module Path.

Definition slash : ascii := "/"%char.

(** [s.split("/")] *)
Fixpoint split (s : string) : list string :=
  match s with
  | EmptyString => [EmptyString]
  | String c r =>
      if Ascii.eqb c slash then EmptyString :: split r
      else match split r with
           | seg :: segs => String c seg :: segs
           | [] => [String c EmptyString]
           end
  end.

(** A string that holds no separator. *)
Fixpoint no_slash (s : string) : bool :=
  match s with
  | EmptyString => true
  | String c r => negb (Ascii.eqb c slash) && no_slash r
  end.

Definition is_blank (seg : string) : bool :=
  String.eqb seg "" || String.eqb seg ".".

(** One round of the loop of Node's [normalizeString]: [res] is the
    stack of the segments kept so far, the last one first. *)
Definition normalize_step (allowAboveRoot : bool) (res : list string) (seg : string)
  : list string :=
  if is_blank seg then res
  else if String.eqb seg ".." then
    match res with
    | last :: res' =>
        if String.eqb last ".." then
          (if allowAboveRoot then ".." :: res else res)
        else res'
    | [] => if allowAboveRoot then [".."] else []
    end
  else seg :: res.

(** The loop, from the stack [res]. *)
Definition run (allowAboveRoot : bool) (res segs : list string) : list string :=
  fold_left (normalize_step allowAboveRoot) segs res.

Definition normalizeString (allowAboveRoot : bool) (segs : list string) : list string :=
  rev (run allowAboveRoot [] segs).

(** A segment the loop can keep. *)
Definition kept (seg : string) : Prop := is_blank seg = false /\ no_slash seg = true.

(** A segment the loop keeps when it may not climb above the root. *)
Definition settled (seg : string) : Prop :=
  is_blank seg = false /\ String.eqb seg ".." = false.

Definition isAbsolute (p : string) : bool :=
  match p with
  | String c _ => Ascii.eqb c slash
  | EmptyString => false
  end.

Fixpoint endsWithSlash (p : string) : bool :=
  match p with
  | EmptyString => false
  | String c EmptyString => Ascii.eqb c slash
  | String _ r => endsWithSlash r
  end.

(** [path.normalize] *)
Definition normalize (p : string) : string :=
  if String.eqb p "" then "."
  else
    let body := String.concat "/" (normalizeString (negb (isAbsolute p)) (split p)) in
    if String.eqb body "" then
      (if isAbsolute p then "/" else if endsWithSlash p then "./" else ".")
    else
      let body := if endsWithSlash p then body ++ "/" else body in
      if isAbsolute p then "/" ++ body else body.

(** [path.join(...args)]: the non-empty arguments are glued with [/]
    and the result is normalized. *)
Definition nonempty (a : string) : bool := negb (String.eqb a "").

Definition join (args : list string) : string :=
  match filter nonempty args with
  | [] => "."
  | parts => normalize (String.concat "/" parts)
  end.

(** What the operating system makes of a path string: the list of the
    directory entries to walk from the root, a relative path starting
    from the working directory [cwd]. *)
Definition resolve (cwd : list string) (p : string) : list string :=
  normalizeString false ((if isAbsolute p then [] else cwd) ++ split p)%list.

(** A name for one directory entry. *)
Definition plain (x : string) : Prop :=
  is_blank x = false /\ String.eqb x ".." = false /\ no_slash x = true.

(** The directory entries that the strings [parts] name, one below
    the other. *)
Definition below (parts : list string) : list string :=
  filter (fun seg => negb (is_blank seg)) (flat_map split parts).

(** [l] is a proper prefix of [m] *)
Fixpoint strict_prefix (l m : list string) : bool :=
  match l, m with
  | [], _ :: _ => true
  | x :: l', y :: m' => String.eqb x y && strict_prefix l' m'
  | _, _ => false
  end.

(** The path [p] names something strictly below the directory [root]. *)
Definition strictly_inside (cwd : list string) (root p : string) : bool :=
  strict_prefix (resolve cwd root) (resolve cwd p).

End Path.

(** ** Outcomes of operations that can throw *)

Inductive error : Type :=
| ENOENT | ENOTDIR | EISDIR | EEXIST | ENOTEMPTY | EINVAL
| TypeError | RangeError.

Inductive outcome (A : Type) : Type :=
| Return (a : A)
| Throw (e : error).
Arguments Return {A} a.
Arguments Throw {A} e.

Definition bind {A B : Type} (m : outcome A) (f : A -> outcome B) : outcome B :=
  match m with
  | Return a => f a
  | Throw e => Throw e
  end.

Notation "'let*' x := m 'in' k" := (bind m (fun x => k))
  (at level 10, x name, m at level 100, k at level 200).

(** [try { m } catch { d }] *)
Definition try_catch {A : Type} (m : outcome A) (d : A) : A :=
  match m with
  | Return a => a
  | Throw _ => d
  end.

Definition returns {A : Type} (m : outcome A) : bool :=
  match m with
  | Return _ => true
  | Throw _ => false
  end.

(** ** JavaScript values

    The values a descriptor is made of: what [JSON.parse] can return,
    [undefined], and [VNative] for an object of the runtime itself that
    a document can reach through its prototype chain ([Object.prototype]
    or one of its methods).  An array carries its elements and the named
    properties that were added to it.  The properties of an object are
    listed in insertion order; a hole of an array is [VUndef].  A number
    is an integer.

    Every handler starts with the runtime as it was loaded: the members
    of [Object.prototype] are the built-in ones, and what is inherited
    is looked up there.  The methods that arrays and strings inherit
    from their own prototypes ([map], [at], ...) are not modelled. *)

Inductive value : Type :=
| VUndef
| VNull
| VBool (b : bool)
| VNum (n : Z)
| VStr (s : string)
| VArr (items : list value) (extra : list (string * value))
| VObj (props : list (string * value))
| VNative.

Definition props : Type := list (string * value).

(** [ToBoolean] *)
Definition truthy (v : value) : bool :=
  match v with
  | VUndef | VNull => false
  | VBool b => b
  | VNum n => negb (n =? 0)%Z
  | VStr s => negb (String.eqb s "")
  | VArr _ _ | VObj _ | VNative => true
  end.

(** [a || b] *)
Definition or_else (a b : value) : value := if truthy a then a else b.

(** [typeof v === "object"] *)
Definition typeof_object (v : value) : bool :=
  match v with
  | VNull | VArr _ _ | VObj _ => true
  | _ => false
  end.

Fixpoint own_get (k : string) (ps : props) : option value :=
  match ps with
  | [] => None
  | (k', v) :: r => if String.eqb k k' then Some v else own_get k r
  end.

(** Writing an own property: an existing one keeps its place, a new one
    goes last. *)
Fixpoint own_set (k : string) (v : value) (ps : props) : props :=
  match ps with
  | [] => [(k, v)]
  | (k', v') :: r =>
      if String.eqb k k' then (k, v) :: r else (k', v') :: own_set k v r
  end.

(** The members of [Object.prototype]. *)
Definition Object_prototype : list string :=
  ["constructor"; "__defineGetter__"; "__defineSetter__"; "hasOwnProperty";
   "__lookupGetter__"; "__lookupSetter__"; "isPrototypeOf";
   "propertyIsEnumerable"; "toString"; "valueOf"; "__proto__";
   "toLocaleString"].

Definition inherited (k : string) : bool :=
  existsb (String.eqb k) Object_prototype.

Definition string_of_N (n : N) : string :=
  DecimalString.NilZero.string_of_uint (N.to_uint n).

Definition string_of_Z (n : Z) : string :=
  DecimalString.NilZero.string_of_int (Z.to_int n).

(** An array index: the canonical decimal form of an integer below
    2^32 - 1. *)
Definition array_index (k : string) : option nat :=
  match DecimalString.NilZero.uint_of_string k with
  | Some u =>
      let n := N.of_uint u in
      if String.eqb (string_of_N n) k && (n <? 4294967295)%N
      then Some (N.to_nat n) else None
  | None => None
  end.

Definition from_proto (k : string) : value :=
  if inherited k then VNative else VUndef.

(** [v[k]] *)
Definition getProp (v : value) (k : string) : outcome value :=
  match v with
  | VUndef | VNull => Throw TypeError
  | VBool _ | VNum _ => Return (from_proto k)
  | VStr s =>
      match array_index k with
      | Some i =>
          match String.get i s with
          | Some c => Return (VStr (String c EmptyString))
          | None => Return VUndef
          end
      | None =>
          if String.eqb k "length" then Return (VNum (Z.of_nat (String.length s)))
          else Return (from_proto k)
      end
  | VArr items extra =>
      match array_index k with
      | Some i => Return (nth i items VUndef)
      | None =>
          if String.eqb k "length" then Return (VNum (Z.of_nat (List.length items)))
          else match own_get k extra with
               | Some x => Return x
               | None => Return (from_proto k)
               end
      end
  | VObj ps =>
      match own_get k ps with
      | Some x => Return x
      | None => Return (from_proto k)
      end
  | VNative => Return VNative
  end.

Fixpoint set_nth (i : nat) (x : value) (items : list value) : list value :=
  match i, items with
  | O, [] => [x]
  | O, _ :: r => x :: r
  | S i', [] => VUndef :: set_nth i' x []
  | S i', y :: r => y :: set_nth i' x r
  end.

Definition own_has (k : string) (ps : props) : bool :=
  match own_get k ps with Some _ => true | None => false end.

(** [v[k] = x] in strict mode (an ES module), as the state of [v] after
    the assignment.  Assigning [__proto__] to an object that has no own
    property of that name changes its prototype and none of its own
    properties; assigning to a runtime object changes no document.  The
    source assigns to the [length] of an array a number or an object
    only, and an object is no length. *)
Definition setProp (v : value) (k : string) (x : value) : outcome value :=
  match v with
  | VUndef | VNull | VBool _ | VNum _ | VStr _ => Throw TypeError
  | VArr items extra =>
      match array_index k with
      | Some i => Return (VArr (set_nth i x items) extra)
      | None =>
          if String.eqb k "length" then
            match x with
            | VNum n =>
                if ((0 <=? n) && (n <? 4294967296))%Z
                then Return (VArr (firstn (Z.to_nat n) items
                                   ++ repeat VUndef (Z.to_nat n - List.length items))%list extra)
                else Throw RangeError
            | _ => Throw RangeError
            end
          else if String.eqb k "__proto__" && negb (own_has k extra) then Return v
          else Return (VArr items (own_set k x extra))
      end
  | VObj ps =>
      if String.eqb k "__proto__" && negb (own_has k ps) then Return v
      else Return (VObj (own_set k x ps))
  | VNative => Return VNative
  end.

(** The own enumerable properties of a value, as [Object.assign] reads
    them from a source. *)
Definition own_props (v : value) : props :=
  match v with
  | VObj ps => ps
  | VArr items extra =>
      (combine (List.map (fun i => string_of_N (N.of_nat i)) (seq 0 (List.length items))) items
       ++ extra)%list
  | VStr s =>
      combine (List.map (fun i => string_of_N (N.of_nat i)) (seq 0 (String.length s)))
              (List.map (fun c => VStr (String c EmptyString)) (list_ascii_of_string s))
  | _ => []
  end.

(** [Object.assign({}, src)]: every own property of the source is
    assigned to the fresh object in turn. *)
Definition Object_assign (src : value) : value :=
  fold_left (fun target kv => try_catch (setProp target (fst kv) (snd kv)) target)
            (own_props src) (VObj []).

(** ** The file system

    A tree: a file holds bytes, a directory lists its entries in the
    order they were created.  [cwd] is the working directory of the
    process, against which a relative path is resolved. *)

Inductive node : Type :=
| File (data : string)
| Dir (entries : list (string * node)).

Definition entries : Type := list (string * node).

Record filesystem : Type := { cwd : list string; root : node }.

Module FS.

Fixpoint entry_get (name : string) (es : entries) : option node :=
  match es with
  | [] => None
  | (n, x) :: r => if String.eqb name n then Some x else entry_get name r
  end.

Fixpoint entry_set (name : string) (x : node) (es : entries) : entries :=
  match es with
  | [] => [(name, x)]
  | (n, y) :: r =>
      if String.eqb name n then (name, x) :: r else (n, y) :: entry_set name x r
  end.

Fixpoint entry_remove (name : string) (es : entries) : entries :=
  match es with
  | [] => []
  | (n, y) :: r =>
      if String.eqb name n then entry_remove name r else (n, y) :: entry_remove name r
  end.

(** Walking a resolved path down from a node. *)
Fixpoint lookup (n : node) (p : list string) : outcome node :=
  match p with
  | [] => Return n
  | name :: rest =>
      match n with
      | File _ => Throw ENOTDIR
      | Dir es =>
          match entry_get name es with
          | Some c => lookup c rest
          | None => Throw ENOENT
          end
      end
  end.

(** [mkdir -p]: every missing directory of the path is created; a file
    on the way is an error, and then nothing was created. *)
Fixpoint mkdir_p (n : node) (p : list string) : outcome node :=
  match p with
  | [] => match n with
          | Dir _ => Return n
          | File _ => Throw EEXIST
          end
  | name :: rest =>
      match n with
      | File _ => Throw ENOTDIR
      | Dir es =>
          match mkdir_p (match entry_get name es with
                         | Some c => c
                         | None => Dir []
                         end) rest with
          | Return c' => Return (Dir (entry_set name c' es))
          | Throw e => Throw e
          end
      end
  end.

(** Creating or truncating a file: its directory must exist. *)
Fixpoint write_at (n : node) (p : list string) (data : string) : outcome node :=
  match p with
  | [] => match n with
          | Dir _ => Throw EISDIR
          | File _ => Return (File data)
          end
  | name :: rest =>
      match n with
      | File _ => Throw ENOTDIR
      | Dir es =>
          match entry_get name es with
          | Some c =>
              match write_at c rest data with
              | Return c' => Return (Dir (entry_set name c' es))
              | Throw e => Throw e
              end
          | None =>
              match rest with
              | [] => Return (Dir (entry_set name (File data) es))
              | _ :: _ => Throw ENOENT
              end
          end
      end
  end.

(** Taking an entry out of its directory. *)
Fixpoint remove_at (n : node) (p : list string) : outcome node :=
  match p with
  | [] => Throw EINVAL
  | name :: rest =>
      match n with
      | File _ => Throw ENOTDIR
      | Dir es =>
          match entry_get name es with
          | Some c =>
              match rest with
              | [] => Return (Dir (entry_remove name es))
              | _ :: _ =>
                  match remove_at c rest with
                  | Return c' => Return (Dir (entry_set name c' es))
                  | Throw e => Throw e
                  end
              end
          | None => Throw ENOENT
          end
      end
  end.

(** Whether [x] may take the place of what is already at the
    destination of a rename. *)
Definition may_replace (x old : node) : outcome unit :=
  match x, old with
  | File _, File _ => Return tt
  | File _, Dir _ => Throw EISDIR
  | Dir _, File _ => Throw ENOTDIR
  | Dir _, Dir [] => Return tt
  | Dir _, Dir (_ :: _) => Throw ENOTEMPTY
  end.

(** Putting the node [x] at the path [p], over what is there. *)
Fixpoint place_at (n : node) (p : list string) (x : node) : outcome node :=
  match p with
  | [] => Throw EINVAL
  | name :: rest =>
      match n with
      | File _ => Throw ENOTDIR
      | Dir es =>
          match entry_get name es, rest with
          | Some c, [] =>
              match may_replace x c with
              | Return _ => Return (Dir (entry_set name x es))
              | Throw e => Throw e
              end
          | Some c, _ :: _ =>
              match place_at c rest x with
              | Return c' => Return (Dir (entry_set name c' es))
              | Throw e => Throw e
              end
          | None, [] => Return (Dir (entry_set name x es))
          | None, _ :: _ => Throw ENOENT
          end
      end
  end.

Fixpoint is_prefix (l m : list string) : bool :=
  match l, m with
  | [], _ => true
  | x :: l', y :: m' => String.eqb x y && is_prefix l' m'
  | _ :: _, [] => false
  end.

Definition same_path (l m : list string) : bool := is_prefix l m && is_prefix m l.

(** [rename(2)] on resolved paths *)
Definition rename_at (n : node) (old new : list string) : outcome node :=
  match lookup n old with
  | Throw e => Throw e
  | Return x =>
      if same_path old new then Return n
      else if is_prefix old new then Throw EINVAL
      else
        match place_at n new x with
        | Throw e => Throw e
        | Return n' => remove_at n' old
        end
  end.

Definition isDirectory (n : node) : bool :=
  match n with Dir _ => true | File _ => false end.

(** No file stands where the directory path [p] needs a directory. *)
Fixpoint clear (n : node) (p : list string) : bool :=
  match p with
  | [] => isDirectory n
  | name :: rest =>
      match n with
      | File _ => false
      | Dir es =>
          match entry_get name es with
          | Some c => clear c rest
          | None => true
          end
      end
  end.


(** The path [q] leads to a file that holds [d]. *)
Definition file_at (n : node) (q : list string) (d : string) : Prop :=
  lookup n q = Return (File d).

Definition at_path (fs : filesystem) (p : string) : list string :=
  Path.resolve (cwd fs) p.

Definition with_root (fs : filesystem) (o : outcome node) : outcome filesystem :=
  match o with
  | Return n => Return {| cwd := cwd fs; root := n |}
  | Throw e => Throw e
  end.

(** [fs.mkdir(p, { recursive: true })] *)
Definition mkdir_recursive (fs : filesystem) (p : string) : outcome filesystem :=
  with_root fs (mkdir_p (root fs) (at_path fs p)).

(** [fs.writeFile(p, data)] *)
Definition writeFile (fs : filesystem) (p : string) (data : string) : outcome filesystem :=
  with_root fs (write_at (root fs) (at_path fs p) data).

(** [fs.rename(old, new)] *)
Definition rename (fs : filesystem) (old new : string) : outcome filesystem :=
  with_root fs (rename_at (root fs) (at_path fs old) (at_path fs new)).

(** [fs.readFile(p)] *)
Definition readFile (fs : filesystem) (p : string) : outcome string :=
  match lookup (root fs) (at_path fs p) with
  | Return (File data) => Return data
  | Return (Dir _) => Throw EISDIR
  | Throw e => Throw e
  end.

(** [fs.readdir(p, { withFileTypes: true })]: the name of every entry
    with its [isDirectory()]. *)
Definition readdir (fs : filesystem) (p : string) : outcome (list (string * bool)) :=
  match lookup (root fs) (at_path fs p) with
  | Return (Dir es) => Return (List.map (fun e => (fst e, isDirectory (snd e))) es)
  | Return (File _) => Throw ENOTDIR
  | Throw e => Throw e
  end.

(** [fs.access(p)] *)
Definition access (fs : filesystem) (p : string) : outcome unit :=
  match lookup (root fs) (at_path fs p) with
  | Return _ => Return tt
  | Throw e => Throw e
  end.

End FS.

(** What a file holds. *)
Definition holds (fs : filesystem) (p : string) (d : string) : Prop :=
  FS.file_at (root fs) (FS.at_path fs p) d.

(** The files of [fs'] are those of [fs], the ones at the resolved paths
    [changed] apart. *)
Definition same_files_but (changed : list (list string)) (fs fs' : filesystem) : Prop :=
  cwd fs' = cwd fs
  /\ forall q d, ~ In q changed ->
       (FS.file_at (root fs') q d <-> FS.file_at (root fs) q d).

(** ** The built-ins of the runtime

    [JSON.stringify(v, null, 2)] and [JSON.parse] ([None] when it throws
    a [SyntaxError]), and the UTF-8 coding of the text of a file. *)

Class Runtime : Type := {
  JSON_stringify : value -> string;
  JSON_parse : string -> option value;
  utf8_encode : string -> string;
  utf8_decode : string -> string
}.

(** ** Promises over the file system *)

Definition io (A : Type) : Type := filesystem -> outcome A * filesystem.

Definition ret {A : Type} (a : A) : io A := fun fs => (Return a, fs).

Definition io_bind {A B : Type} (m : io A) (f : A -> io B) : io B :=
  fun fs =>
    match m fs with
    | (Return a, fs') => f a fs'
    | (Throw e, fs') => (Throw e, fs')
    end.

Notation "'await' x <- m ; k" := (io_bind m (fun x => k))
  (at level 10, x name, m at level 100, k at level 200).

(** An operation that changes the file system, or fails and leaves it. *)
Definition mutate (op : filesystem -> outcome filesystem) : io unit :=
  fun fs =>
    match op fs with
    | Return fs' => (Return tt, fs')
    | Throw e => (Throw e, fs)
    end.

(** An operation that only reads. *)
Definition inspect {A : Type} (op : filesystem -> outcome A) : io A :=
  fun fs => (op fs, fs).

(** ** [lib/storage.js] *)

(** The directory of a package and the path of its descriptor. *)
Definition pkgDir_of (base pkg : string) : string :=
  Path.join [base; "packages"; sanitizePkgName pkg].

Definition metaPath_of (base pkg : string) : string :=
  Path.join [pkgDir_of base pkg; "meta.json"].

(** The directory entry of the temporary file of a write. *)
Definition tmp_entry (now : Z) : string := "meta.json" ++ ".tmp-" ++ string_of_Z now.

(** The path of a tarball of a package. *)
Definition tarballPath_of (base pkg filename : string) : string :=
  Path.join [Path.join [pkgDir_of base pkg; "tarballs"]; sanitizeFilename filename].

(** ** What a path must satisfy

    Before they look at the store, Node and the operating system refuse
    a path that holds a NUL character, a path of [PATH_MAX] bytes or
    more, and a path with an entry name of more than [NAME_MAX] bytes
    (the limits are those of Linux; in UTF-8 a code unit from U+0080 on
    takes two bytes).  The operations of [FS] do not check any of this:
    what they return for a path that is not [acceptable] says nothing
    about the program, and a statement that a call of the program
    succeeds asks for acceptable paths. *)






Section Storage.

Context {rt : Runtime}.

Definition ensurePackageDir (base pkg : string) : io string :=
  let pkgDir := Path.join [base; "packages"; sanitizePkgName pkg] in
  await _ <- mutate (fun fs => FS.mkdir_recursive fs pkgDir);
  await _ <- mutate (fun fs => FS.mkdir_recursive fs (Path.join [pkgDir; "tarballs"]));
  ret pkgDir.

(** [null] stands both for a file that cannot be read and for a text
    that cannot be parsed. *)
Definition readPackageMeta (base pkg : string) : io value :=
  let pkgDir := Path.join [base; "packages"; sanitizePkgName pkg] in
  let metaPath := Path.join [pkgDir; "meta.json"] in
  fun fs =>
    (match FS.readFile fs metaPath with
     | Return raw =>
         match JSON_parse (utf8_decode raw) with
         | Some v => Return v
         | None => Return VNull
         end
     | Throw _ => Return VNull
     end, fs).

(** The name of the temporary file of a write that reads [now] from
    the clock. *)
Definition tmp_name (metaPath : string) (now : Z) : string :=
  metaPath ++ ".tmp-" ++ string_of_Z now.

(** [now] is what [Date.now()] returns in this call. *)
Definition writePackageMeta (base pkg : string) (meta : value) (now : Z) : io string :=
  await pkgDir <- ensurePackageDir base pkg;
  let metaPath := Path.join [pkgDir; "meta.json"] in
  let normalized := Object_assign meta in
  let tmp := tmp_name metaPath now in
  await _ <- mutate (fun fs => FS.writeFile fs tmp (utf8_encode (JSON_stringify normalized)));
  await _ <- mutate (fun fs => FS.rename fs tmp metaPath);
  ret metaPath.

(** The two halves of [writePackageMeta], on either side of its last
    [await]: the temporary file is written, then renamed. *)
Definition write_tmp (base pkg : string) (meta : value) (now : Z) : io (string * string) :=
  await pkgDir <- ensurePackageDir base pkg;
  let metaPath := Path.join [pkgDir; "meta.json"] in
  let normalized := Object_assign meta in
  let tmp := tmp_name metaPath now in
  await _ <- mutate (fun fs => FS.writeFile fs tmp (utf8_encode (JSON_stringify normalized)));
  ret (tmp, metaPath).

Definition rename_tmp (staged : string * string) : io string :=
  await _ <- mutate (fun fs => FS.rename fs (fst staged) (snd staged));
  ret (snd staged).

(** [{ name: pkgName, versions: {} }] *)
Definition empty_descriptor (pkgName : string) : value :=
  VObj [("name", VStr pkgName); ("versions", VObj [])].

(** The body of the loop of [listAllPackages]. *)
Definition list_entry (base : string) (fs : filesystem) (packages : value)
           (dirent : string * bool) : value :=
  if negb (snd dirent) then packages
  else
    let pkgName := fst dirent in
    match fst (readPackageMeta base pkgName fs) with
    | Return meta =>
        try_catch (setProp packages pkgName (or_else meta (empty_descriptor pkgName)))
                  packages
    | Throw _ => packages
    end.

Definition listAllPackages (base : string) : io value :=
  let pkgsRoot := Path.join [base; "packages"] in
  fun fs =>
    (match FS.readdir fs pkgsRoot with
     | Return dirents => Return (fold_left (list_entry base fs) dirents (VObj []))
     | Throw _ => Return (VObj [])
     end, fs).

Definition saveTarball (base pkg filename buffer : string) : io string :=
  await pkgDir <- ensurePackageDir base pkg;
  let tarDir := Path.join [pkgDir; "tarballs"] in
  let safeName := sanitizeFilename filename in
  let outPath := Path.join [tarDir; safeName] in
  await _ <- mutate (fun fs => FS.writeFile fs outPath buffer);
  ret outPath.

(** [None] is [null]. *)
Definition getTarballPath (base pkg filename : string) : io (option string) :=
  let pkgDir := Path.join [base; "packages"; sanitizePkgName pkg] in
  let outPath := Path.join [pkgDir; "tarballs"; sanitizeFilename filename] in
  fun fs =>
    (match FS.access fs outPath with
     | Return _ => Return (Some outPath)
     | Throw _ => Return None
     end, fs).

(** The directories of the package exist in the tree [n], for the
    working directory [c]. *)
Definition has_directories (base pkg : string) (c : list string) (n : node) : Prop :=
  let R := Path.resolve c (pkgDir_of base pkg) in
  (exists es, FS.lookup n R = Return (Dir es))
  /\ (exists es, FS.lookup n (R ++ ["tarballs"]) = Return (Dir es)).


(** What [readPackageMeta] finds for a package. *)
Definition descriptor_of (base pkg : string) (fs : filesystem) : value :=
  match fst (readPackageMeta base pkg fs) with
  | Return v => v
  | Throw _ => VNull
  end.

End Storage.

(** ** [encodeURIComponent] and [String(v)] *)

Definition hex_digit (n : nat) : ascii :=
  match n with
  | 0 => "0" | 1 => "1" | 2 => "2" | 3 => "3" | 4 => "4" | 5 => "5" | 6 => "6"
  | 7 => "7" | 8 => "8" | 9 => "9" | 10 => "A" | 11 => "B" | 12 => "C"
  | 13 => "D" | 14 => "E" | _ => "F"
  end%char.

(** [%XY] for the byte [n] *)
Definition percent (n : nat) (rest : string) : string :=
  String "%" (String (hex_digit (n / 16)) (String (hex_digit (n mod 16)) rest)).

(** The characters [encodeURIComponent] leaves as they are. *)
Definition uri_unreserved (c : ascii) : bool :=
  in_range "a" "z" c || in_range "A" "Z" c || in_range "0" "9" c
  || existsb (Ascii.eqb c) ["-"; "_"; "."; "!"; "~"; "*"; "'"; "("; ")"]%char.

(** Every other code unit is written as the bytes of its UTF-8 form:
    one byte below U+0080, two from there to U+00FF. *)
Fixpoint encodeURIComponent (s : string) : string :=
  match s with
  | EmptyString => EmptyString
  | String c r =>
      let n := nat_of_ascii c in
      if uri_unreserved c then String c (encodeURIComponent r)
      else if (n <? 128)%nat then percent n (encodeURIComponent r)
      else percent (192 + n / 64) (percent (128 + n mod 64) (encodeURIComponent r))
  end.

(** [String(v)], which is also how a value becomes a property key.  An
    object is converted by its method [toString]: the one of
    [Object.prototype], and for an array the one that calls [join].  An
    own property of the document that stands in the place of the method
    is no function: the conversion then throws, and an array without
    its [join] is converted as an object is.  A runtime object held
    under such a name is the method of [Object.prototype] itself; the
    conversion of a runtime object is not modelled, no part of a parsed
    document being one. *)
Fixpoint toString (v : value) : outcome string :=
  match v with
  | VUndef => Return "undefined"
  | VNull => Return "null"
  | VBool true => Return "true"
  | VBool false => Return "false"
  | VNum n => Return (string_of_Z n)
  | VStr s => Return s
  | VArr items extra =>
      match own_get "toString" extra, own_get "join" extra with
      | Some VNative, _ => Return "[object Array]"
      | Some _, _ => Throw TypeError
      | None, Some _ => Return "[object Array]"
      | None, None =>
          (fix join (l : list value) : outcome string :=
             match l with
             | [] => Return ""
             | x :: r =>
                 match (match x with
                        | VUndef | VNull => Return ""
                        | _ => toString x
                        end) with
                 | Throw e => Throw e
                 | Return s =>
                     match r with
                     | [] => Return s
                     | _ :: _ =>
                         match join r with
                         | Return t => Return (s ++ "," ++ t)
                         | Throw e => Throw e
                         end
                     end
                 end
             end) items
      end
  | VObj ps =>
      match own_get "toString" ps with
      | Some VNative | None => Return "[object Object]"
      | Some _ => Throw TypeError
      end
  | VNative => Throw TypeError
  end.

(** ** The handlers of [server.js] that publish *)

(** [res.status(status).json(json)] *)
Record response : Type := { status : nat; json : value }.

(** [String(err)], cut down to the code of the error *)
Definition String_of_error (e : error) : string :=
  match e with
  | ENOENT => "Error: ENOENT"
  | ENOTDIR => "Error: ENOTDIR"
  | EISDIR => "Error: EISDIR"
  | EEXIST => "Error: EEXIST"
  | ENOTEMPTY => "Error: ENOTEMPTY"
  | EINVAL => "Error: EINVAL"
  | TypeError => "TypeError"
  | RangeError => "RangeError"
  end.

Definition lift {A : Type} (o : outcome A) : io A := fun fs => (o, fs).

(** [try { ... } catch (err) { res.status(500)... }] *)
Definition respond (m : io response) : filesystem -> response * filesystem :=
  fun fs =>
    match m fs with
    | (Return r, fs') => (r, fs')
    | (Throw e, fs') =>
        ({| status := 500;
            json := VObj [("error", VStr "server_error");
                          ("message", VStr (String_of_error e))] |}, fs')
    end.

(** The state of [v] once the object that its property [k] holds has
    become [x].  The object is the same one as before, so [v] changes
    only where it holds that object itself, in an own property. *)
Definition held (v : value) (k : string) (x : value) : value :=
  match v with
  | VObj ps => if own_has k ps then VObj (own_set k x ps) else v
  | VArr items extra =>
      match array_index k with
      | Some i => if (i <? List.length items)%nat then VArr (set_nth i x items) extra else v
      | None => if own_has k extra then VArr items (own_set k x extra) else v
      end
  | _ => v
  end.

(** A statement that changes the object [v[k]] in place. *)
Definition in_place (v : value) (k : string) (f : value -> outcome value) : outcome value :=
  let* child := getProp v k in
  let* child' := f child in
  Return (held v k child').

(** [meta["dist-tags"] && meta["dist-tags"].latest ? meta["dist-tags"].latest : "0.0.0"] *)
Definition resolve_version (meta : value) : outcome value :=
  let* tags := getProp meta "dist-tags" in
  let* test := (if truthy tags then getProp tags "latest" else Return tags) in
  if truthy test then
    let* tags' := getProp meta "dist-tags" in
    getProp tags' "latest"
  else Return (VStr "0.0.0").

(** [v[k] = v[k] || {}] *)
Definition default_object (v : value) (k : string) : outcome value :=
  let* x := getProp v k in
  setProp v k (or_else x (VObj [])).

(** Lines 133 to 138 of [server.js]: the descriptor [meta] after the
    statements that record the tarball. *)
Definition record_tarball (meta : value) (url : string) : outcome value :=
  (* meta.versions = meta.versions || {} *)
  let* meta := default_object meta "versions" in
  let* version := resolve_version meta in
  let* key := toString version in
  (* meta.versions[version] = meta.versions[version] || {} *)
  let* meta := in_place meta "versions" (fun versions =>
    default_object versions key) in
  (* meta.versions[version].dist = meta.versions[version].dist || {} *)
  let* meta := in_place meta "versions" (fun versions =>
    in_place versions key (fun r =>
      default_object r "dist")) in
  (* meta.versions[version].dist.tarball = ... *)
  in_place meta "versions" (fun versions =>
    in_place versions key (fun r =>
      in_place r "dist" (fun d =>
        setProp d "tarball" (VStr url)))).

(** The own property [k] of an object or of an array; [undefined] when
    there is none.  The [length] of an array is not one of them. *)
Definition own (v : value) (k : string) : value :=
  match v with
  | VObj ps => match own_get k ps with
               | Some x => x
               | None => VUndef
               end
  | VArr items extra =>
      match array_index k with
      | Some i => nth i items VUndef
      | None =>
          if String.eqb k "length" then VUndef
          else match own_get k extra with
               | Some x => x
               | None => VUndef
               end
      end
  | _ => VUndef
  end.

(** Whether [v] has an own property [k]. *)
Definition owns (v : value) (k : string) : bool :=
  match v with
  | VObj ps => own_has k ps
  | VArr items extra =>
      match array_index k with
      | Some i => (i <? List.length items)%nat
      | None => negb (String.eqb k "length") && own_has k extra
      end
  | _ => false
  end.

(** The own property [k] of a mapping; [undefined] when there is none. *)
Definition field (v : value) (k : string) : value :=
  match v with
  | VObj ps => match own_get k ps with
               | Some x => x
               | None => VUndef
               end
  | _ => VUndef
  end.

Definition props_of (v : value) : props :=
  match v with
  | VObj ps => ps
  | _ => []
  end.

(** A mapping, or nothing that counts: [undefined], [null], [false],
    [0] or the empty string. *)
Definition mapping_or_nothing (v : value) : bool :=
  match v with
  | VObj _ => true
  | _ => negb (truthy v)
  end.

(** What the statements of the upload walk through in the descriptor
    [m], down to the record of the version [key], is made of mappings. *)
Definition walks_mappings (m : props) (key : string) : Prop :=
  mapping_or_nothing (field (VObj m) "dist-tags") = true
  /\ mapping_or_nothing (field (VObj m) "versions") = true
  /\ mapping_or_nothing (field (field (VObj m) "versions") key) = true
  /\ mapping_or_nothing (field (field (field (VObj m) "versions") key) "dist") = true.

(** The descriptor [m] with [url] as the tarball of the version [key]. *)
Definition with_tarball (m : props) (key url : string) : value :=
  let versions := field (VObj m) "versions" in
  let record := field versions key in
  let dist := field record "dist" in
  VObj (own_set "versions"
          (VObj (own_set key
                   (VObj (own_set "dist"
                            (VObj (own_set "tarball" (VStr url) (props_of dist)))
                            (props_of record)))
                   (props_of versions)))
          m).

(** What an upload finds for a package that has no versions yet: no
    descriptor ([null], which [readPackageMeta] gives when the file is
    missing or does not parse), or an empty one, a mapping without
    [dist-tags] whose [versions] are an empty mapping or missing, as
    [{}] and [{ name, versions: {} }] are. *)
Definition absent_or_empty (v : value) : Prop :=
  v = VNull
  \/ exists m, v = VObj m
       /\ NoDup (List.map fst m)
       /\ field (VObj m) "dist-tags" = VUndef
       /\ (field (VObj m) "versions" = VUndef \/ field (VObj m) "versions" = VObj []).

Definition not_proto (kv : string * value) : bool :=
  negb (String.eqb (fst kv) "__proto__").

Section Server.

Context {rt : Runtime}.
Variable STORAGE_DIR : string.

(** [app.put("/:pkg", ...)], past the authentication.  [uuid] is what
    [uuidv4()] returns. *)
Definition put_pkg (pkg : string) (body : value) (now : Z) (uuid : string)
  : filesystem -> response * filesystem :=
  if negb (truthy body) || negb (typeof_object body) then
    fun fs => ({| status := 400;
                  json := VObj [("error", VStr "invalid_body");
                                ("reason", VStr "expected JSON metadata")] |}, fs)
  else
    respond (
      await _ <- ensurePackageDir STORAGE_DIR pkg;
      await _ <- writePackageMeta STORAGE_DIR pkg body now;
      ret {| status := 201; json := VObj [("ok", VBool true); ("id", VStr uuid)] |}).

(** The tarball of a request: the [file] field that multer found, or
    else the chunks of the raw body ([Throw] if reading them fails). *)
Definition request_tarball (file : option string) (chunks : outcome (list string))
  : option string :=
  match file with
  | Some buffer => Some buffer
  | None =>
      match chunks with
      | Return cs =>
          let dataBuffer := String.concat "" cs in
          if (String.length dataBuffer =? 0)%nat then None else Some dataBuffer
      | Throw _ => None
      end
  end.

(** The locator written into [dist.tarball]; a request without a
    [Host] header prints [undefined]. *)
Definition tarball_url (protocol : string) (host : option string) (pkg filename : string)
  : string :=
  protocol ++ "://" ++ match host with Some h => h | None => "undefined" end
  ++ "/" ++ encodeURIComponent pkg ++ "/-/" ++ encodeURIComponent filename.

(** [app.put("/:pkg/-/:filename", ...)], past the authentication. *)
Definition put_tarball (pkg filename : string)
           (file : option string) (chunks : outcome (list string))
           (protocol : string) (host : option string) (now : Z)
  : filesystem -> response * filesystem :=
  match request_tarball file chunks with
  | None =>
      fun fs => ({| status := 400;
                    json := VObj [("error", VStr "no_tarball");
                                  ("reason", VStr "no tarball body received")] |}, fs)
  | Some dataBuffer =>
      respond (
        await _ <- ensurePackageDir STORAGE_DIR pkg;
        await saved <- saveTarball STORAGE_DIR pkg filename dataBuffer;
        await found <- readPackageMeta STORAGE_DIR pkg;
        let meta := or_else found (empty_descriptor pkg) in
        await meta <- lift (record_tarball meta (tarball_url protocol host pkg filename));
        await _ <- writePackageMeta STORAGE_DIR pkg meta now;
        ret {| status := 201; json := VObj [("ok", VBool true); ("filename", VStr filename)] |})
  end.

End Server.

(** ** The handlers of [server.js] that read *)

Definition quotation_mark : ascii := ascii_of_nat 34.

(** [path.basename(p)]: the last part of the path, the separators at
    its end left out. *)
Definition basename (p : string) : string :=
  last (filter Path.nonempty (Path.split p)) "".

(** What Node accepts in the value of a header: a tab, or a code unit
    from U+0020 on that is not U+007F. *)
Definition header_char (c : ascii) : bool :=
  let n := nat_of_ascii c in
  (n =? 9)%nat || ((32 <=? n)%nat && negb (n =? 127)%nat).

Fixpoint header_value (s : string) : bool :=
  match s with
  | EmptyString => true
  | String c r => header_char c && header_value r
  end.

(** [res.setHeader(name, value)], which throws on a value that Node
    does not accept. *)
Definition setHeader (name value : string) : outcome (string * string) :=
  if header_value value then Return (name, value) else Throw TypeError.

(** An answer with the headers that the handler has set. *)
Record reply : Type := { headers : list (string * string); answer : response }.

(** What a download sends: an answer in JSON, or the headers and the
    file piped into the response.  The content is what the stream reads
    at the path: the bytes of the file, or the error on which the
    response is destroyed. *)
Inductive download : Type :=
| Refused (r : response)
| Piped (headers : list (string * string)) (content : outcome string).

Definition server_error (e : error) : response :=
  {| status := 500;
     json := VObj [("error", VStr "server_error"); ("message", VStr (String_of_error e))] |}.

Section Reading.

Context {rt : Runtime}.
Variable STORAGE_DIR : string.

(** [app.get("/-/all", ...)] *)
Definition get_all : filesystem -> response * filesystem :=
  fun fs =>
    match listAllPackages STORAGE_DIR fs with
    | (Return packages, fs') => ({| status := 200; json := packages |}, fs')
    | (Throw e, fs') =>
        ({| status := 500;
            json := VObj [("error", VStr "failed_to_list_packages");
                          ("message", VStr (String_of_error e))] |}, fs')
    end.

(** [app.get("/:pkg", ...)] *)
Definition get_pkg (pkg : string) : filesystem -> reply * filesystem :=
  fun fs =>
    match readPackageMeta STORAGE_DIR pkg fs with
    | (Return meta, fs') =>
        if negb (truthy meta) then
          ({| headers := [];
              answer := {| status := 404;
                           json := VObj [("error", VStr "not_found");
                                         ("reason", VStr "package not found")] |} |}, fs')
        else
          ({| headers := [("content-type", "application/json; charset=utf-8")];
              answer := {| status := 200; json := meta |} |}, fs')
    | (Throw e, fs') => ({| headers := []; answer := server_error e |}, fs')
    end.

(** [app.get("/:pkg/-/:filename", ...)] *)
Definition get_tarball (pkg filename : string) : filesystem -> download * filesystem :=
  fun fs =>
    match getTarballPath STORAGE_DIR pkg filename fs with
    | (Return found, fs') =>
        match found with
        | Some p =>
            if String.eqb p "" then
              (Refused {| status := 404;
                          json := VObj [("error", VStr "not_found");
                                        ("reason", VStr "tarball not found")] |}, fs')
            else
              match setHeader "content-disposition"
                      ("attachment; filename=" ++ String quotation_mark
                         (basename filename ++ String quotation_mark EmptyString)) with
              | Return disposition =>
                  (Piped [("content-type", "application/octet-stream"); disposition]
                         (FS.readFile fs' p), fs')
              | Throw e => (Refused (server_error e), fs')
              end
        | None =>
            (Refused {| status := 404;
                        json := VObj [("error", VStr "not_found");
                                      ("reason", VStr "tarball not found")] |}, fs')
        end
    | (Throw e, fs') => (Refused (server_error e), fs')
    end.

End Reading.

(** ** [lib/auth.js] *)

(** The white space and the line terminators of JavaScript, among the
    code units of this model. *)
Definition is_white (c : ascii) : bool :=
  let n := nat_of_ascii c in
  ((9 <=? n)%nat && (n <=? 13)%nat) || (n =? 32)%nat || (n =? 160)%nat.

Fixpoint trimStart (s : string) : string :=
  match s with
  | EmptyString => EmptyString
  | String c r => if is_white c then trimStart r else s
  end.

Fixpoint trimEnd (s : string) : string :=
  match s with
  | EmptyString => EmptyString
  | String c r =>
      match trimEnd r with
      | EmptyString => if is_white c then EmptyString else String c EmptyString
      | t => String c t
      end
  end.

(** [s.trim()] *)
Definition trim (s : string) : string := trimEnd (trimStart s).

(** [s.slice(n)] *)
Fixpoint slice (n : nat) (s : string) : string :=
  match n, s with
  | O, _ => s
  | S n', String _ r => slice n' r
  | S _, EmptyString => EmptyString
  end.

(** [process.cwd()] *)
Definition process_cwd (fs : filesystem) : string :=
  String Path.slash (String.concat "/" (cwd fs)).

(** [path.resolve(from, to)] for an absolute [from] and a [to] that is
    not empty. *)
Definition path_resolve (from to : string) : string :=
  let resolvedPath := if Path.isAbsolute to then to ++ "/" else from ++ "/" ++ to ++ "/" in
  String Path.slash (String.concat "/" (Path.normalizeString false (Path.split resolvedPath))).

Section Auth.

Context {rt : Runtime}.

(** The [try] block of [readTokenFromEnvOrFile]: the token that the
    file gives, when it gives one. *)
Definition token_of_file (fs : filesystem) (tokenFile : string) : option string :=
  match FS.readFile fs tokenFile with
  | Return raw =>
      let t := trim (utf8_decode raw) in
      if negb (String.eqb t "") then Some t else None
  | Throw _ => None
  end.

(** [REGISTRY_TOKEN] is [process.env.REGISTRY_TOKEN], and [random] is
    what [Math.random().toString(36).slice(2, 10)] gives in this call. *)
Definition readTokenFromEnvOrFile (REGISTRY_TOKEN : option string) (random : string)
  : io string :=
  fun fs =>
    match REGISTRY_TOKEN with
    | Some (String c t) => (Return (String c t), fs)
    | _ =>
        let tokenFile := path_resolve (process_cwd fs) "token" in
        match token_of_file fs tokenFile with
        | Some t => (Return t, fs)
        | None =>
            let fallback := "dev-token-" ++ random in
            match FS.writeFile fs tokenFile (utf8_encode fallback) with
            | Return fs' => (Return fallback, fs')
            | Throw _ => (Return fallback, fs)
            end
        end
    end.

End Auth.

(** [authMiddleware(token)] on a request whose [Authorization] header
    is [authorization]: [None] when it calls [next()], the answer when
    it refuses.  The statements of its [try] block work on strings and
    throw nothing. *)
Definition authMiddleware (token : string) (authorization : option string)
  : option response :=
  let auth := match authorization with
              | Some (String c a) => String c a
              | _ => ""
              end in
  if String.eqb token "" then None
  else if negb (Str.startsWith "Bearer " auth) then
    Some {| status := 401;
            json := VObj [("error", VStr "unauthorized");
                          ("reason", VStr "missing Bearer token")] |}
  else
    let supplied := trim (slice (String.length "Bearer ") auth) in
    if String.eqb supplied "" || negb (String.eqb supplied token) then
      Some {| status := 403;
              json := VObj [("error", VStr "forbidden");
                            ("reason", VStr "invalid token")] |}
    else None.

(** A handler behind [authMiddleware(AUTH_TOKEN)]. *)
Definition behind_auth (AUTH_TOKEN : string) (authorization : option string)
           (handler : filesystem -> response * filesystem)
  : filesystem -> response * filesystem :=
  match authMiddleware AUTH_TOKEN authorization with
  | Some refusal => fun fs => (refusal, fs)
  | None => handler
  end.

(** ** Vocabulary for the properties of the store *)

(** Every code unit of the string passes the test. *)
Fixpoint every (f : ascii -> bool) (s : string) : bool :=
  match s with
  | EmptyString => true
  | String c r => f c && every f r
  end.

(** The entries of [packages/] as [listAllPackages] reads them, each
    with its [isDirectory()]; none when the directory cannot be read. *)
Definition package_entries (base : string) (fs : filesystem) : list (string * bool) :=
  match FS.readdir fs (Path.join [base; "packages"]) with
  | Return dirents => dirents
  | Throw _ => []
  end.

(** Whether [packages/] has a directory of that name. *)
Definition has_package_dir (base : string) (fs : filesystem) (name : string) : bool :=
  existsb (fun dirent => String.eqb (fst dirent) name && snd dirent) (package_entries base fs).

(** The own property [k] of [v] as [Object.assign] copies it: the one
    it copies last, when two have the name. *)
Definition last_own (k : string) (v : value) : option value :=
  own_get k (rev (own_props v)).

(** A string that does not begin with white space. *)
Definition head_black (s : string) : bool :=
  match s with
  | EmptyString => true
  | String c _ => negb (is_white c)
  end.

(** The two refusals of [authMiddleware]. *)
Definition unauthorized : response :=
  {| status := 401;
     json := VObj [("error", VStr "unauthorized"); ("reason", VStr "missing Bearer token")] |}.

Definition forbidden : response :=
  {| status := 403;
     json := VObj [("error", VStr "forbidden"); ("reason", VStr "invalid token")] |}.


(** ** A runtime to run the model on

    [JSON.stringify(v, null, 2)] and [JSON.parse] for the documents whose
    numbers are integers, and UTF-8 for the code units of this model. *)

Module MiniRuntime.

Definition lower_hex (n : nat) : ascii :=
  match n with
  | 10 => "a" | 11 => "b" | 12 => "c" | 13 => "d" | 14 => "e" | 15 => "f"
  | _ => hex_digit n
  end%char.

Definition newline : ascii := ascii_of_nat 10.
Definition dquote : ascii := ascii_of_nat 34.

(** The text of one character inside a quoted string. *)
Definition quote_char (c : ascii) (rest : string) : string :=
  let n := nat_of_ascii c in
  if Ascii.eqb c dquote then String "\" (String dquote rest)
  else if Ascii.eqb c "\" then String "\" (String "\" rest)
  else if (n =? 8)%nat then String "\" (String "b" rest)
  else if (n =? 9)%nat then String "\" (String "t" rest)
  else if (n =? 10)%nat then String "\" (String "n" rest)
  else if (n =? 12)%nat then String "\" (String "f" rest)
  else if (n =? 13)%nat then String "\" (String "r" rest)
  else if (n <? 32)%nat then
    String "\" (String "u" (String "0" (String "0"
      (String (lower_hex (n / 16)) (String (lower_hex (n mod 16)) rest)))))
  else String c rest.

Fixpoint quote_chars (s : string) : string :=
  match s with
  | EmptyString => String dquote EmptyString
  | String c r => quote_char c (quote_chars r)
  end.

Definition quote (s : string) : string := String dquote (quote_chars s).

Definition bracket (open close ind : string) (parts : list string) : string :=
  match parts with
  | [] => open ++ close
  | _ =>
      let nl := String newline (ind ++ "  ") in
      open ++ nl ++ String.concat (String "," nl) parts
      ++ String newline ind ++ close
  end.

(** [None] is [undefined]: the value has no JSON text. *)
Fixpoint serialize (ind : string) (v : value) {struct v} : option string :=
  match v with
  | VUndef | VNative => None
  | VNull => Some "null"
  | VBool true => Some "true"
  | VBool false => Some "false"
  | VNum n => Some (string_of_Z n)
  | VStr s => Some (quote s)
  | VArr items _ =>
      Some (bracket "[" "]" ind
              (List.map (fun x => match serialize (ind ++ "  ") x with
                                  | Some t => t
                                  | None => "null"
                                  end) items))
  | VObj ps =>
      Some (bracket "{" "}" ind
              ((fix members (ps : props) : list string :=
                  match ps with
                  | [] => []
                  | (k, x) :: r =>
                      match serialize (ind ++ "  ") x with
                      | Some t => (quote k ++ ": " ++ t) :: members r
                      | None => members r
                      end
                  end) ps))
  end.

Definition stringify (v : value) : string :=
  match serialize "" v with
  | Some t => t
  | None => "undefined"
  end.

Definition is_space (c : ascii) : bool :=
  let n := nat_of_ascii c in
  (n =? 32)%nat || (n =? 9)%nat || (n =? 10)%nat || (n =? 13)%nat.

Fixpoint skip_space (s : string) : string :=
  match s with
  | String c r => if is_space c then skip_space r else s
  | EmptyString => s
  end.

Definition digit_of (c : ascii) : option Z :=
  if in_range "0" "9" c then Some (Z.of_nat (nat_of_ascii c - 48)) else None.

Definition hex_of (c : ascii) : option nat :=
  let n := nat_of_ascii c in
  if in_range "0" "9" c then Some (n - 48)
  else if in_range "a" "f" c then Some (n - 87)
  else if in_range "A" "F" c then Some (n - 55)
  else None.

Fixpoint digits (acc : Z) (s : string) : Z * string :=
  match s with
  | String c r =>
      match digit_of c with
      | Some d => digits (10 * acc + d) r
      | None => (acc, s)
      end
  | EmptyString => (acc, s)
  end.

(** An integer: [0], or a digit that is not [0] and more digits; no
    fraction and no exponent may follow. *)
Definition natural (s : string) : option (Z * string) :=
  match s with
  | String c r =>
      match digit_of c with
      | Some d =>
          let '(n, rest) := if (d =? 0)%Z then (0%Z, r) else digits d r in
          match rest with
          | String x _ =>
              if in_range "0" "9" x || Ascii.eqb x "." || Ascii.eqb x "e" || Ascii.eqb x "E"
              then None else Some (n, rest)
          | EmptyString => Some (n, rest)
          end
      | None => None
      end
  | EmptyString => None
  end.

(** The characters of a string, after its opening quote. *)
Fixpoint chars (s : string) : option (string * string) :=
  match s with
  | EmptyString => None
  | String c r =>
      if Ascii.eqb c dquote then Some (EmptyString, r)
      else if Ascii.eqb c "\" then
        match r with
        | String e r' =>
            let plain (x : ascii) :=
              match chars r' with
              | Some (t, rest) => Some (String x t, rest)
              | None => None
              end in
            if Ascii.eqb e dquote then plain dquote
            else if Ascii.eqb e "\" then plain "\"%char
            else if Ascii.eqb e "/" then plain "/"%char
            else if Ascii.eqb e "b" then plain (ascii_of_nat 8)
            else if Ascii.eqb e "t" then plain (ascii_of_nat 9)
            else if Ascii.eqb e "n" then plain (ascii_of_nat 10)
            else if Ascii.eqb e "f" then plain (ascii_of_nat 12)
            else if Ascii.eqb e "r" then plain (ascii_of_nat 13)
            else if Ascii.eqb e "u" then
              match r' with
              | String a (String b (String x (String y r''))) =>
                  match hex_of a, hex_of b, hex_of x, hex_of y with
                  | Some 0, Some 0, Some h, Some l =>
                      match chars r'' with
                      | Some (t, rest) => Some (String (ascii_of_nat (16 * h + l)) t, rest)
                      | None => None
                      end
                  | _, _, _, _ => None
                  end
              | _ => None
              end
            else None
        | EmptyString => None
        end
      else if (nat_of_ascii c <? 32)%nat then None
      else match chars r with
           | Some (t, rest) => Some (String c t, rest)
           | None => None
           end
  end.

Definition keyword (w : string) (v : value) (s : string) : option (value * string) :=
  if Str.startsWith w s then Some (v, substring (String.length w) (String.length s) s)
  else None.

(** One value at the head of the text, and the text after it. *)
Fixpoint element (fuel : nat) (s : string) {struct fuel} : option (value * string) :=
  match fuel with
  | O => None
  | S fuel' =>
      let elements := fix elements (n : nat) (acc : list value) (s : string) {struct n}
        : option (value * string) :=
        match n with
        | O => None
        | S n' =>
            match element fuel' s with
            | Some (x, rest) =>
                match skip_space rest with
                | String c r =>
                    if Ascii.eqb c "," then elements n' (x :: acc) r
                    else if Ascii.eqb c "]" then Some (VArr (rev (x :: acc)) [], r)
                    else None
                | EmptyString => None
                end
            | None => None
            end
        end in
      let members := fix members (n : nat) (acc : props) (s : string) {struct n}
        : option (value * string) :=
        match n with
        | O => None
        | S n' =>
            match skip_space s with
            | String q r =>
                if Ascii.eqb q dquote then
                  match chars r with
                  | Some (k, rest) =>
                      match skip_space rest with
                      | String c r' =>
                          if Ascii.eqb c ":" then
                            match element fuel' r' with
                            | Some (x, rest') =>
                                match skip_space rest' with
                                | String d r'' =>
                                    if Ascii.eqb d "," then members n' (own_set k x acc) r''
                                    else if Ascii.eqb d "}" then Some (VObj (own_set k x acc), r'')
                                    else None
                                | EmptyString => None
                                end
                            | None => None
                            end
                          else None
                      | EmptyString => None
                      end
                  | None => None
                  end
                else None
            | EmptyString => None
            end
        end in
      match skip_space s with
      | EmptyString => None
      | String c r =>
          if Ascii.eqb c "{" then
            match skip_space r with
            | String d r' => if Ascii.eqb d "}" then Some (VObj [], r')
                             else members (String.length r) [] r
            | EmptyString => None
            end
          else if Ascii.eqb c "[" then
            match skip_space r with
            | String d r' => if Ascii.eqb d "]" then Some (VArr [] [], r')
                             else elements (String.length r) [] r
            | EmptyString => None
            end
          else if Ascii.eqb c dquote then
            match chars r with
            | Some (t, rest) => Some (VStr t, rest)
            | None => None
            end
          else if Ascii.eqb c "-" then
            match natural r with
            | Some (n, rest) => Some (VNum (- n), rest)
            | None => None
            end
          else if in_range "0" "9" c then
            match natural (String c r) with
            | Some (n, rest) => Some (VNum n, rest)
            | None => None
            end
          else if Ascii.eqb c "n" then keyword "null" VNull (String c r)
          else if Ascii.eqb c "t" then keyword "true" (VBool true) (String c r)
          else if Ascii.eqb c "f" then keyword "false" (VBool false) (String c r)
          else None
      end
  end.

Definition parse (s : string) : option value :=
  match element (S (String.length s)) s with
  | Some (v, rest) =>
      match skip_space rest with
      | EmptyString => Some v
      | String _ _ => None
      end
  | None => None
  end.

Fixpoint encode (s : string) : string :=
  match s with
  | EmptyString => EmptyString
  | String c r =>
      let n := nat_of_ascii c in
      if (n <? 128)%nat then String c (encode r)
      else String (ascii_of_nat (192 + n / 64))
                  (String (ascii_of_nat (128 + n mod 64)) (encode r))
  end.

(** A byte sequence that is not the UTF-8 form of a code unit of this
    model decodes to [?]. *)
Fixpoint decode (s : string) : string :=
  match s with
  | EmptyString => EmptyString
  | String c r =>
      let n := nat_of_ascii c in
      if (n <? 128)%nat then String c (decode r)
      else
        match r with
        | String d r' =>
            let m := nat_of_ascii d in
            if ((194 <=? n) && (n <=? 195) && (128 <=? m) && (m <? 192))%nat
            then String (ascii_of_nat (64 * (n - 192) + (m - 128))) (decode r')
            else String "?" (decode r)
        | EmptyString => String "?" EmptyString
        end
  end.

Definition runtime : Runtime :=
  {| JSON_stringify := stringify;
     JSON_parse := parse;
     utf8_encode := encode;
     utf8_decode := decode |}.

End MiniRuntime.

(** ** A store to run the model on *)

Module Sample.

(** A machine whose only directory is [/srv], the working directory. *)
Definition disk : filesystem := {| cwd := ["srv"]; root := Dir [("srv", Dir [])] |}.

Definition STORAGE_DIR : string := "/srv/storage".

Definition clock : Z := 1700000000000.

(** A mapping: an object, as against an array or a primitive. *)
Definition is_mapping (v : value) : bool :=
  match v with
  | VObj _ => true
  | _ => false
  end.

(** [{ name: name, versions: { "1.0.0": {} } }] *)
Definition descriptor (name : string) : value :=
  VObj [("name", VStr name); ("versions", VObj [("1.0.0", VObj [])])].

(** [{ "__proto__": { admin: true }, name: "a" }], as [JSON.parse] makes
    it: [__proto__] is an own property. *)
Definition odd_descriptor : value :=
  VObj [("__proto__", VObj [("admin", VBool true)]); ("name", VStr "a")].

(** A descriptor whose latest version is [2.1.0]. *)
Definition tagged_descriptor : value :=
  VObj [("name", VStr "left-pad");
        ("dist-tags", VObj [("latest", VStr "2.1.0")]);
        ("versions", VObj [("2.1.0", VObj [("description", VStr "pads")])])].

(** [{ name: "left-pad", versions: {} }] *)
Definition bare_descriptor : value :=
  VObj [("name", VStr "left-pad"); ("versions", VObj [])].

(** A descriptor whose versions are an array. *)
Definition array_descriptor : value :=
  VObj [("name", VStr "left-pad");
        ("dist-tags", VObj [("latest", VStr "2")]);
        ("versions", VArr [] [])].

(** A descriptor whose latest version is the empty string. *)
Definition untagged_descriptor : value :=
  VObj [("name", VStr "left-pad");
        ("dist-tags", VObj [("latest", VStr "")]);
        ("versions", VObj [])].

(** The store after a descriptor of [left-pad] is published. *)
Definition published (rt : Runtime) (d : value) : filesystem :=
  snd (put_pkg STORAGE_DIR "left-pad" d clock "id" disk).

(** The upload of [left-pad-1.0.0.tgz] for [left-pad]. *)
Definition upload (rt : Runtime) (fs : filesystem) : response * filesystem :=
  put_tarball STORAGE_DIR "left-pad" "left-pad-1.0.0.tgz" (Some "tarball bytes")
              (Return []) "http" (Some "localhost:4873") (clock + 1) fs.

(** What is left of the file system after a handler or a promise. *)
Definition after {A : Type} (run : A * filesystem) : filesystem := snd run.

End Sample.

(** ** More states of the store *)

Module Scenario.

(** A store in which a directory stands where the descriptor of
    [left-pad] goes. *)
Definition blocked : filesystem :=
  {| cwd := ["srv"];
     root := Dir [("srv", Dir [("storage", Dir [("packages",
               Dir [("left-pad", Dir [("meta.json", Dir [])])])])])] |}.

End Scenario.

(** * Properties *)

Example sanitizePkgName_scoped : sanitizePkgName "@scope/b" = "@scope/b".
Proof. reflexivity. Qed.

Example sanitizePkgName_traversal : sanitizePkgName "../../etc/passwd" = "//etc/passwd".
Proof. reflexivity. Qed.

Example sanitizePkgName_dots : sanitizePkgName ".../a b" = "./a_b".
Proof. reflexivity. Qed.

Example sanitizeFilename_traversal : sanitizeFilename "..\../x.tgz" = "__x.tgz".
Proof. reflexivity. Qed.

Example join_pkgDir : Path.join ["/srv/storage"; "packages"; sanitizePkgName "@scope/b"]
                      = "/srv/storage/packages/@scope/b".
Proof. reflexivity. Qed.

Example join_traversal : Path.join ["storage"; "packages"; "../../etc"] = "etc".
Proof. reflexivity. Qed.

Example join_blank : Path.join ["/srv"; "packages"; ""] = "/srv/packages".
Proof. reflexivity. Qed.

Example join_trailing : Path.join ["/srv"; "packages"; "a/./"] = "/srv/packages/a/".
Proof. reflexivity. Qed.

(** ** The sanitizers *)

Section Sanitizers.

(** Induction on a string two characters at a time, as
    [Str.remove_dotdot] recurses. *)
Lemma string_pair_ind (P : string -> Prop) :
  P "" ->
  (forall c, P (String c "")) ->
  (forall c d r, P r -> P (String d r) -> P (String c (String d r))) ->
  forall s, P s.
Proof.
  intros H0 H1 H2 s.
  assert (H : P s /\ forall c, P (String c s)).
  { induction s as [|d r [IHr IHr']].
    - split; [exact H0 | exact H1].
    - split; [apply IHr' | intros c; apply H2; [exact IHr | apply IHr']]. }
  exact (proj1 H).
Qed.

Lemma includes_dotdot (s : string) : Str.includes ".." s = negb (no_dotdot s).
Proof.
  induction s as [|c| c d r IHr IHdr] using string_pair_ind.
  - reflexivity.
  - cbn [Str.includes Str.startsWith no_dotdot]. rewrite andb_false_r. reflexivity.
  - change (Str.includes ".." (String c (String d r)))
      with (if Str.startsWith ".." (String c (String d r)) then true
            else Str.includes ".." (String d r)).
    rewrite IHdr.
    change (no_dotdot (String c (String d r)))
      with (negb (Str.is_dot c && Str.is_dot d) && no_dotdot (String d r)).
    unfold Str.is_dot, Str.dot. cbn [Str.startsWith].
    rewrite (Ascii.eqb_sym "." c), (Ascii.eqb_sym "." d), andb_true_r.
    destruct (Ascii.eqb c "." && Ascii.eqb d "."); reflexivity.
Qed.

Lemma remove_dotdot_head (d : ascii) (r : string) :
  Str.is_dot d = false ->
  exists r', Str.remove_dotdot (String d r) = String d r'.
Proof.
  intros Hd. destruct r as [|e r]; cbn [Str.remove_dotdot].
  - eexists; reflexivity.
  - rewrite Hd. cbn. eexists; reflexivity.
Qed.

Lemma no_dotdot_cons (c d : ascii) (r : string) :
  no_dotdot (String c (String d r))
  = negb (Str.is_dot c && Str.is_dot d) && no_dotdot (String d r).
Proof. reflexivity. Qed.

Lemma remove_dotdot_cons (c d : ascii) (r : string) :
  Str.remove_dotdot (String c (String d r))
  = if Str.is_dot c && Str.is_dot d then Str.remove_dotdot r
    else String c (Str.remove_dotdot (String d r)).
Proof. reflexivity. Qed.

Lemma remove_dotdot_clean (s : string) : no_dotdot (Str.remove_dotdot s) = true.
Proof.
  induction s as [|c| c d r IHr IHdr] using string_pair_ind.
  - reflexivity.
  - reflexivity.
  - rewrite remove_dotdot_cons.
    destruct (Str.is_dot c) eqn:Hc, (Str.is_dot d) eqn:Hd; cbn [andb];
      try exact IHr.
    + destruct (remove_dotdot_head d r Hd) as [r' Hr']. rewrite Hr' in *.
      rewrite no_dotdot_cons, Hc, Hd. exact IHdr.
    + destruct (Str.remove_dotdot (String d r)) as [|e r'] eqn:E; [reflexivity|].
      rewrite no_dotdot_cons, Hc. exact IHdr.
    + destruct (Str.remove_dotdot (String d r)) as [|e r'] eqn:E; [reflexivity|].
      rewrite no_dotdot_cons, Hc. exact IHdr.
Qed.

Lemma remove_dotdot_fixed (s : string) :
  no_dotdot s = true -> Str.remove_dotdot s = s.
Proof.
  induction s as [|c| c d r IHr IHdr] using string_pair_ind; intros H.
  - reflexivity.
  - reflexivity.
  - change (no_dotdot (String c (String d r)))
      with (negb (Str.is_dot c && Str.is_dot d) && no_dotdot (String d r)) in H.
    apply andb_true_iff in H. destruct H as [H1 H2].
    change (Str.remove_dotdot (String c (String d r)))
      with (if Str.is_dot c && Str.is_dot d then Str.remove_dotdot r
            else String c (Str.remove_dotdot (String d r))).
    apply negb_true_iff in H1. rewrite H1. rewrite (IHdr H2). reflexivity.
Qed.

Variable f : ascii -> ascii.
Hypothesis f_dot : forall c, Str.is_dot (f c) = Str.is_dot c.

Lemma map_no_dotdot (s : string) : no_dotdot (Str.map f s) = no_dotdot s.
Proof.
  induction s as [|c| c d r IHr IHdr] using string_pair_ind.
  - reflexivity.
  - reflexivity.
  - change (Str.map f (String c (String d r)))
      with (String (f c) (String (f d) (Str.map f r))).
    change (Str.map f (String d r)) with (String (f d) (Str.map f r)) in IHdr.
    rewrite !no_dotdot_cons, !f_dot, IHdr. reflexivity.
Qed.

Hypothesis f_idem : forall c, f (f c) = f c.

Lemma map_idem (s : string) : Str.map f (Str.map f s) = Str.map f s.
Proof.
  induction s as [|c r IH]; cbn; [reflexivity|].
  rewrite f_idem, IH. reflexivity.
Qed.

Lemma sanitize_idem (s : string) :
  Str.map f (Str.remove_dotdot (Str.map f (Str.remove_dotdot s)))
  = Str.map f (Str.remove_dotdot s).
Proof.
  rewrite (remove_dotdot_fixed (Str.map f (Str.remove_dotdot s))).
  - apply map_idem.
  - rewrite map_no_dotdot. apply remove_dotdot_clean.
Qed.

End Sanitizers.

Lemma pkg_filter_dot (c : ascii) :
  Str.is_dot (if pkg_char_allowed c then c else Str.underscore) = Str.is_dot c.
Proof.
  destruct (pkg_char_allowed c) eqn:E; [reflexivity|].
  unfold Str.is_dot, Str.dot. destruct (Ascii.eqb_spec c "."); [|reflexivity].
  subst c. discriminate E.
Qed.

Lemma pkg_filter_idem (c : ascii) :
  (fun c => if pkg_char_allowed c then c else Str.underscore)
    (if pkg_char_allowed c then c else Str.underscore)
  = (if pkg_char_allowed c then c else Str.underscore).
Proof.
  cbv beta. destruct (pkg_char_allowed c) eqn:E; [rewrite E; reflexivity|reflexivity].
Qed.

Lemma file_filter_dot (c : ascii) :
  Str.is_dot (if is_separator c then Str.underscore else c) = Str.is_dot c.
Proof.
  destruct (is_separator c) eqn:E; [|reflexivity].
  unfold Str.is_dot, Str.dot. destruct (Ascii.eqb_spec c "."); [|reflexivity].
  subst c. discriminate E.
Qed.

Lemma file_filter_idem (c : ascii) :
  (fun c => if is_separator c then Str.underscore else c)
    (if is_separator c then Str.underscore else c)
  = (if is_separator c then Str.underscore else c).
Proof.
  cbv beta. destruct (is_separator c) eqn:E; [reflexivity | rewrite E; reflexivity].
Qed.

(** C10. Both sanitizers are idempotent: sanitizing a key that is
    already sanitized gives the same key, so the directory that
    [listAllPackages] enumerates and reads back through
    [readPackageMeta] is the directory it was created as. *)
Theorem sanitizers_idempotent (s : string) :
  sanitizePkgName (sanitizePkgName s) = sanitizePkgName s
  /\ sanitizeFilename (sanitizeFilename s) = sanitizeFilename s.
Proof.
  split; unfold sanitizePkgName, sanitizeFilename.
  - apply sanitize_idem; [exact pkg_filter_dot | exact pkg_filter_idem].
  - apply sanitize_idem; [exact file_filter_dot | exact file_filter_idem].
Qed.

Lemma sanitizePkgName_clean (s : string) : no_dotdot (sanitizePkgName s) = true.
Proof.
  unfold sanitizePkgName. rewrite map_no_dotdot by exact pkg_filter_dot.
  apply remove_dotdot_clean.
Qed.

Lemma sanitizeFilename_clean (s : string) : no_dotdot (sanitizeFilename s) = true.
Proof.
  unfold sanitizeFilename. rewrite map_no_dotdot by exact file_filter_dot.
  apply remove_dotdot_clean.
Qed.

(** ** Paths *)

Module PathFacts.
Import Path.

Lemma split_cons (c : ascii) (r : string) :
  split (String c r)
  = if Ascii.eqb c slash then EmptyString :: split r
    else match split r with
         | seg :: segs => String c seg :: segs
         | [] => [String c EmptyString]
         end.
Proof. reflexivity. Qed.

Lemma split_inhabited (s : string) : exists seg segs, split s = seg :: segs.
Proof.
  induction s as [|c r [seg [segs IH]]].
  - exists EmptyString, []. reflexivity.
  - rewrite split_cons, IH. destruct (Ascii.eqb c slash); eauto.
Qed.

(** Splitting what was glued with a slash. *)
Lemma split_glue (a b : string) :
  split (a ++ String slash b) = (split a ++ split b)%list.
Proof.
  induction a as [|c a IH].
  - reflexivity.
  - change (String c a ++ String slash b) with (String c (a ++ String slash b)).
    rewrite !split_cons, IH.
    destruct (Ascii.eqb c slash); [reflexivity|].
    destruct (split_inhabited a) as [seg [segs E]]. rewrite E. reflexivity.
Qed.

Lemma split_no_slash (s : string) : no_slash s = true -> split s = [s].
Proof.
  induction s as [|c r IH]; intros H; [reflexivity|].
  cbn [no_slash] in H. apply andb_true_iff in H. destruct H as [H1 H2].
  rewrite split_cons. apply negb_true_iff in H1. rewrite H1, (IH H2). reflexivity.
Qed.

Lemma split_segments (s : string) : Forall (fun seg => no_slash seg = true) (split s).
Proof.
  induction s as [|c r IH].
  - repeat constructor.
  - rewrite split_cons. destruct (Ascii.eqb c slash) eqn:E.
    + constructor; [reflexivity | exact IH].
    + destruct (split r) as [|seg segs].
      * repeat constructor. cbn. rewrite E. reflexivity.
      * inversion IH; subst. constructor; [|assumption].
        cbn. rewrite E. assumption.
Qed.

Lemma split_concat (segs : list string) :
  segs <> [] ->
  Forall (fun seg => no_slash seg = true) segs ->
  split (String.concat "/" segs) = segs.
Proof.
  induction segs as [|x l IH]; intros Hne Hall; [contradiction|].
  inversion Hall as [|? ? Hx Hl]; subst.
  destruct l as [|y l].
  - cbn. apply split_no_slash. exact Hx.
  - change (String.concat "/" (x :: y :: l))
      with (x ++ String slash (String.concat "/" (y :: l))).
    rewrite split_glue, (split_no_slash x Hx), IH; [reflexivity | discriminate | exact Hl].
Qed.

(** A key without two dots in a row has no [..] segment. *)
Lemma no_dotdot_tail (c : ascii) (r : string) :
  no_dotdot (String c r) = true -> no_dotdot r = true.
Proof.
  destruct r as [|d r]; [reflexivity|].
  cbn [no_dotdot]. intros H. apply andb_true_iff in H. apply H.
Qed.

Lemma split_no_parent (s : string) :
  no_dotdot s = true -> Forall (fun seg => String.eqb seg ".." = false) (split s).
Proof.
  induction s as [|c r IH]; intros H.
  - repeat constructor.
  - specialize (IH (no_dotdot_tail c r H)).
    rewrite split_cons. destruct (Ascii.eqb c slash) eqn:E.
    + constructor; [reflexivity | exact IH].
    + destruct r as [|d r'].
      * constructor; [|constructor].
        cbn. destruct (Ascii.eqb c "."); reflexivity.
      * rewrite split_cons in IH |- *.
        cbn [no_dotdot] in H. apply andb_true_iff in H. destruct H as [H _].
        apply negb_true_iff in H. unfold Str.is_dot, Str.dot in H.
        destruct (Ascii.eqb d slash) eqn:E'.
        -- inversion IH; subst. constructor; [|assumption].
           cbn. destruct (Ascii.eqb c "."); reflexivity.
        -- destruct (split r') as [|seg segs].
           ++ constructor; [|constructor].
              cbn. destruct (Ascii.eqb c "."); [|reflexivity].
              destruct (Ascii.eqb d "."); [discriminate H | reflexivity].
           ++ inversion IH; subst. constructor; [|assumption].
              cbn. destruct (Ascii.eqb c "."); [|reflexivity].
              destruct (Ascii.eqb d "."); [discriminate H | reflexivity].
Qed.

(** *** The normalization loop *)

Lemma normalizeString_run (a : bool) (segs : list string) :
  normalizeString a segs = rev (run a [] segs).
Proof. reflexivity. Qed.

Lemma run_app (a : bool) (res l m : list string) :
  run a res (l ++ m) = run a (run a res l) m.
Proof. apply fold_left_app. Qed.

Lemma step_blank (a : bool) (res : list string) (seg : string) :
  is_blank seg = true -> normalize_step a res seg = res.
Proof. intros H. unfold normalize_step. rewrite H. reflexivity. Qed.

Lemma step_plain (a : bool) (res : list string) (seg : string) :
  is_blank seg = false -> String.eqb seg ".." = false ->
  normalize_step a res seg = seg :: res.
Proof. intros H1 H2. unfold normalize_step. rewrite H1, H2. reflexivity. Qed.

Lemma run_blank (a : bool) (res segs : list string) :
  Forall (fun seg => is_blank seg = true) segs -> run a res segs = res.
Proof.
  induction 1 as [|seg segs H _ IH]; [reflexivity|].
  cbn. rewrite step_blank by exact H. exact IH.
Qed.

(** Segments without [..] are pushed one after the other. *)
Lemma run_plain (a : bool) (segs res : list string) :
  Forall (fun seg => String.eqb seg ".." = false) segs ->
  run a res segs = (rev (filter (fun seg => negb (is_blank seg)) segs) ++ res)%list.
Proof.
  intros H. revert res. induction H as [|seg segs H _ IH]; intros res; [reflexivity|].
  cbn [run fold_left filter]. fold (run a (normalize_step a res seg) segs).
  rewrite IH. destruct (is_blank seg) eqn:B; cbn [negb].
  - rewrite step_blank by exact B. reflexivity.
  - rewrite step_plain by assumption. cbn [rev]. rewrite <- app_assoc. reflexivity.
Qed.

Lemma step_kept (a : bool) (res : list string) (seg : string) :
  Forall kept res -> no_slash seg = true -> Forall kept (normalize_step a res seg).
Proof.
  intros Hres Hseg. unfold normalize_step.
  destruct (is_blank seg) eqn:B; [exact Hres|].
  destruct (String.eqb seg "..") eqn:E.
  - destruct res as [|last res'].
    + destruct a; repeat constructor.
    + destruct (String.eqb last "..").
      * destruct a; [constructor; [split; reflexivity | exact Hres] | exact Hres].
      * inversion Hres; assumption.
  - constructor; [split; assumption | exact Hres].
Qed.

Lemma run_kept (a : bool) (segs res : list string) :
  Forall kept res -> Forall (fun seg => no_slash seg = true) segs ->
  Forall kept (run a res segs).
Proof.
  intros Hres H. revert res Hres.
  induction H as [|seg segs H _ IH]; intros res Hres; [exact Hres|].
  cbn. apply IH. apply step_kept; assumption.
Qed.

Lemma step_settled (res : list string) (seg : string) :
  Forall settled res -> Forall settled (normalize_step false res seg).
Proof.
  intros Hres. unfold normalize_step.
  destruct (is_blank seg) eqn:B; [exact Hres|].
  destruct (String.eqb seg "..") eqn:E.
  - destruct res as [|last res']; [constructor|].
    destruct (String.eqb last ".."); [exact Hres | inversion Hres; assumption].
  - constructor; [split; assumption | exact Hres].
Qed.

Lemma run_settled (segs res : list string) :
  Forall settled res -> Forall settled (run false res segs).
Proof.
  revert res. induction segs as [|seg segs IH]; intros res Hres; [exact Hres|].
  cbn. apply IH. apply step_settled. exact Hres.
Qed.

Lemma run_push (a : bool) (u res : list string) :
  Forall settled u -> run a res (rev u) = (u ++ res)%list.
Proof.
  intros H. rewrite run_plain.
  - rewrite <- filter_rev, rev_involutive.
    rewrite forallb_filter_id; [reflexivity|].
    apply forallb_forall. intros x Hx.
    rewrite Forall_forall in H. destruct (H x Hx) as [B _]. rewrite B. reflexivity.
  - apply Forall_rev. eapply Forall_impl; [|exact H]. intros x [_ E]. exact E.
Qed.

(** Feeding the segments kept by a run that may climb above its start
    into a second run is feeding it the segments themselves. *)
Lemma replay_step (res t : list string) (seg : string) :
  Forall (fun x => is_blank x = false) t ->
  run false res (rev (normalize_step true t seg))
  = normalize_step false (run false res (rev t)) seg.
Proof.
  intros Ht. unfold normalize_step at 1.
  destruct (is_blank seg) eqn:B.
  - rewrite (step_blank false _ seg B). reflexivity.
  - destruct (String.eqb seg "..") eqn:E.
    + apply String.eqb_eq in E. subst seg.
      destruct t as [|last t'].
      * reflexivity.
      * destruct (String.eqb last "..") eqn:L.
        -- change (rev (".." :: last :: t')) with (rev (last :: t') ++ [".."])%list.
           rewrite run_app. reflexivity.
        -- cbn [rev]. rewrite run_app. cbn [run fold_left].
           inversion Ht as [|? ? Hl _]; subst.
           rewrite (step_plain false _ last Hl L).
           unfold normalize_step. cbn. rewrite L. reflexivity.
    + change (rev (seg :: t)) with (rev t ++ [seg])%list.
      rewrite run_app. reflexivity.
Qed.

Lemma step_nonblank (a : bool) (t : list string) (seg : string) :
  Forall (fun x => is_blank x = false) t ->
  Forall (fun x => is_blank x = false) (normalize_step a t seg).
Proof.
  intros Ht. unfold normalize_step.
  destruct (is_blank seg) eqn:B; [exact Ht|].
  destruct (String.eqb seg "..") eqn:E.
  - destruct t as [|last t'].
    + destruct a; repeat constructor.
    + destruct (String.eqb last "..").
      * destruct a; [constructor; [reflexivity | exact Ht] | exact Ht].
      * inversion Ht; assumption.
  - constructor; assumption.
Qed.

Lemma replay (segs res t : list string) :
  Forall (fun x => is_blank x = false) t ->
  run false res (rev (run true t segs)) = run false (run false res (rev t)) segs.
Proof.
  revert t. induction segs as [|seg segs IH]; intros t Ht; [reflexivity|].
  cbn [run fold_left]. fold (run true (normalize_step true t seg) segs).
  rewrite IH by (apply step_nonblank; exact Ht).
  rewrite replay_step by exact Ht. reflexivity.
Qed.

(** *** [path.normalize] and [path.join] *)

Lemma concat_kept_empty (segs : list string) :
  Forall kept segs -> String.concat "/" segs = "" -> segs = [].
Proof.
  intros H E. destruct segs as [|x l]; [reflexivity|].
  inversion H as [|? ? [Hx _] _]; subst.
  destruct x as [|c x]; [discriminate Hx|].
  destruct l; discriminate E.
Qed.

Lemma concat_kept_relative (segs : list string) :
  Forall kept segs -> isAbsolute (String.concat "/" segs) = false.
Proof.
  intros H. destruct segs as [|x l]; [reflexivity|].
  inversion H as [|? ? [Hx Hs] _]; subst.
  destruct x as [|c x]; [discriminate Hx|].
  cbn [no_slash] in Hs. apply andb_true_iff in Hs. destruct Hs as [Hs _].
  apply negb_true_iff in Hs.
  destruct l; cbn; exact Hs.
Qed.

Lemma normalizeString_kept (a : bool) (p : string) :
  Forall kept (normalizeString a (split p)).
Proof.
  unfold normalizeString. apply Forall_rev. apply run_kept; [constructor|].
  apply split_segments.
Qed.

Lemma append_slash (b : string) : split (b ++ "/") = (split b ++ [""])%list.
Proof. apply (split_glue b ""). Qed.

Lemma run_snoc_blank (a : bool) (res l : list string) :
  run a res (l ++ [""]) = run a res l.
Proof. rewrite run_app. reflexivity. Qed.

(** The segments of a normalized path are, blanks apart, the segments
    that the normalization kept. *)
Lemma run_normalize (a : bool) (res : list string) (p : string) :
  p <> "" ->
  run a res (split (normalize p))
  = run a res (normalizeString (negb (isAbsolute p)) (split p)).
Proof.
  intros Hp. unfold normalize.
  destruct (String.eqb_spec p ""); [contradiction|].
  pose proof (normalizeString_kept (negb (isAbsolute p)) p) as K.
  set (segs := normalizeString (negb (isAbsolute p)) (split p)) in *.
  destruct (String.eqb_spec (String.concat "/" segs) "") as [E|E].
  - rewrite (concat_kept_empty segs K E).
    destruct (isAbsolute p); [reflexivity|].
    destruct (endsWithSlash p); reflexivity.
  - assert (S : split (String.concat "/" segs) = segs).
    { apply split_concat.
      - intros ->. apply E. reflexivity.
      - eapply Forall_impl; [|exact K]. intros x [_ Hx]. exact Hx. }
    destruct (endsWithSlash p), (isAbsolute p).
    + change ("/" ++ (String.concat "/" segs ++ "/"))
        with (String slash (String.concat "/" segs ++ "/")).
      rewrite split_cons. cbn [Ascii.eqb slash Bool.eqb].
      rewrite append_slash, S. cbn [run fold_left].
      rewrite (step_blank a res "") by reflexivity.
      apply run_snoc_blank.
    + rewrite append_slash, S. apply run_snoc_blank.
    + change ("/" ++ String.concat "/" segs)
        with (String slash (String.concat "/" segs)).
      rewrite split_cons. cbn [Ascii.eqb slash Bool.eqb].
      rewrite S. cbn [run fold_left].
      rewrite (step_blank a res "") by reflexivity. reflexivity.
    + rewrite S. reflexivity.
Qed.

Lemma isAbsolute_normalize (p : string) : isAbsolute (normalize p) = isAbsolute p.
Proof.
  unfold normalize. destruct (String.eqb_spec p ""); [subst; reflexivity|].
  pose proof (normalizeString_kept (negb (isAbsolute p)) p) as K.
  set (segs := normalizeString (negb (isAbsolute p)) (split p)) in *.
  destruct (String.eqb_spec (String.concat "/" segs) "") as [E|E].
  - destruct (isAbsolute p); [reflexivity|].
    destruct (endsWithSlash p); reflexivity.
  - pose proof (concat_kept_relative segs K) as R.
    destruct (isAbsolute p); [destruct (endsWithSlash p); reflexivity|].
    destruct (endsWithSlash p); [|exact R].
    destruct (String.concat "/" segs); [contradiction E; reflexivity | exact R].
Qed.

Lemma resolve_run (cwd : list string) (p : string) :
  resolve cwd p
  = rev (run false (run false [] (if isAbsolute p then [] else cwd)) (split p)).
Proof. unfold resolve, normalizeString. rewrite run_app. reflexivity. Qed.

(** The operating system resolves a normalized path as it resolves the
    path itself. *)
Lemma resolve_normalize (cwd : list string) (p : string) :
  resolve cwd (normalize p) = resolve cwd p.
Proof.
  destruct (String.eqb_spec p "") as [->|Hp].
  { unfold resolve, normalizeString. change (normalize "") with ".".
    change (isAbsolute ".") with false. change (isAbsolute "") with false.
    cbv iota. rewrite !run_app. reflexivity. }
  rewrite !resolve_run, isAbsolute_normalize. f_equal.
  rewrite run_normalize by exact Hp.
  destruct (isAbsolute p); cbn [negb].
  - cbn [run fold_left]. unfold normalizeString.
    rewrite run_push; [apply app_nil_r|].
    apply run_settled. constructor.
  - unfold normalizeString. rewrite replay by constructor. reflexivity.
Qed.

Lemma join_cons (dir : string) (parts : list string) :
  dir <> "" ->
  join (dir :: parts) = normalize (String.concat "/" (dir :: filter nonempty parts)).
Proof.
  intros H. unfold join. cbn [filter]. unfold nonempty at 1.
  destruct (String.eqb_spec dir ""); [contradiction | reflexivity].
Qed.

Lemma isAbsolute_glue (dir : string) (l : list string) :
  dir <> "" -> isAbsolute (String.concat "/" (dir :: l)) = isAbsolute dir.
Proof.
  intros H. destruct dir as [|c d]; [contradiction|].
  destruct l; reflexivity.
Qed.

Lemma split_glue_all (dir : string) (l : list string) :
  split (String.concat "/" (dir :: l)) = (split dir ++ flat_map split l)%list.
Proof.
  revert dir. induction l as [|x l IH]; intros dir.
  - cbn. rewrite app_nil_r. reflexivity.
  - change (String.concat "/" (dir :: x :: l))
      with (dir ++ String slash (String.concat "/" (x :: l))).
    rewrite split_glue, IH. reflexivity.
Qed.

Lemma below_nonempty (parts : list string) : below (filter nonempty parts) = below parts.
Proof.
  unfold below. induction parts as [|x l IH]; [reflexivity|].
  cbn [filter flat_map]. unfold nonempty at 1.
  destruct (String.eqb_spec x "") as [->|]; cbn [negb].
  - exact IH.
  - cbn [flat_map]. rewrite !filter_app, IH. reflexivity.
Qed.

Lemma flat_split_no_parent (parts : list string) :
  Forall (fun part => no_dotdot part = true) parts ->
  Forall (fun seg => String.eqb seg ".." = false) (flat_map split parts).
Proof.
  induction 1 as [|x l H _ IH]; [constructor|].
  cbn [flat_map]. apply Forall_app. split; [apply split_no_parent; exact H | exact IH].
Qed.

Lemma flat_split_nonempty (parts : list string) (P : string -> Prop) :
  Forall P (flat_map split parts) -> Forall P (flat_map split (filter nonempty parts)).
Proof.
  induction parts as [|x l IH]; intros H; [constructor|].
  cbn [flat_map] in H. apply Forall_app in H. destruct H as [Hx Hl].
  cbn [filter]. destruct (nonempty x); [|exact (IH Hl)].
  cbn [flat_map]. apply Forall_app. split; [exact Hx | exact (IH Hl)].
Qed.

(** Joining a directory with parts none of whose segments is [..] names
    an entry below that directory: the parts only go down. *)
Lemma resolve_join_down (cwd : list string) (dir : string) (parts : list string) :
  dir <> "" ->
  Forall (fun seg => String.eqb seg ".." = false) (flat_map split parts) ->
  resolve cwd (join (dir :: parts)) = (resolve cwd dir ++ below parts)%list.
Proof.
  intros Hd Hp. rewrite join_cons by exact Hd.
  rewrite resolve_normalize, !resolve_run.
  rewrite isAbsolute_glue by exact Hd.
  rewrite split_glue_all, run_app.
  rewrite run_plain by (apply flat_split_nonempty; exact Hp).
  rewrite rev_app_distr, rev_involutive.
  fold (below (filter nonempty parts)). rewrite below_nonempty. reflexivity.
Qed.

Lemma resolve_join (cwd : list string) (dir : string) (parts : list string) :
  dir <> "" ->
  Forall (fun part => no_dotdot part = true) parts ->
  resolve cwd (join (dir :: parts)) = (resolve cwd dir ++ below parts)%list.
Proof.
  intros Hd Hp. apply resolve_join_down; [exact Hd|].
  apply flat_split_no_parent. exact Hp.
Qed.

Lemma strict_prefix_app (l m : list string) (x : string) :
  strict_prefix l (l ++ x :: m) = true.
Proof.
  induction l as [|y l IH]; [reflexivity|].
  cbn. rewrite String.eqb_refl. exact IH.
Qed.

Lemma resolve_empty (cwd : list string) : resolve cwd "" = resolve cwd ".".
Proof. rewrite !resolve_run. reflexivity. Qed.

Lemma join_empty (parts : list string) : join ("" :: parts) = join parts.
Proof. reflexivity. Qed.

(** The directory of a package, and whatever is named below it. *)
Lemma resolve_packages (cwd : list string) (base key : string) :
  no_dotdot key = true ->
  resolve cwd (join [base; "packages"; key])
  = (resolve cwd base ++ "packages" :: below [key])%list.
Proof.
  intros H. destruct (String.eqb_spec base "") as [->|Hb].
  - rewrite join_empty, resolve_join; [|discriminate|repeat constructor; exact H].
    rewrite !resolve_run. cbn [isAbsolute split run fold_left].
    rewrite step_blank by reflexivity.
    cbn. rewrite <- app_assoc. reflexivity.
  - rewrite resolve_join; [reflexivity | exact Hb | repeat constructor; exact H].
Qed.

(** *** A file name added to a directory *)

Lemma append_assoc (a b c : string) : (a ++ b) ++ c = a ++ (b ++ c).
Proof. induction a as [|e a IH]; cbn; [reflexivity | rewrite IH; reflexivity]. Qed.

Lemma endsWithSlash_glue (a : string) (c : ascii) (b : string) :
  endsWithSlash (a ++ String c b) = endsWithSlash (String c b).
Proof.
  induction a as [|e a IH]; [reflexivity|].
  change (String e a ++ String c b) with (String e (a ++ String c b)).
  destruct (a ++ String c b) eqn:E.
  - destruct a; discriminate E.
  - rewrite <- IH. reflexivity.
Qed.

Lemma endsWithSlash_no_slash (x : string) :
  no_slash x = true -> endsWithSlash x = false.
Proof.
  induction x as [|c x IH]; [reflexivity|].
  cbn [no_slash]. intros H. apply andb_true_iff in H. destruct H as [H1 H2].
  apply negb_true_iff in H1. destruct x; [exact H1 | exact (IH H2)].
Qed.

Lemma concat_snoc_nonempty (l : list string) (x : string) :
  x <> "" -> String.concat "/" (l ++ [x]) <> "".
Proof.
  intros Hx. induction l as [|y l IH]; [exact Hx|].
  cbn [app]. destruct (l ++ [x])%list eqn:E; [destruct l; discriminate E|].
  change (String.concat "/" (y :: s :: l0)) with (y ++ String slash (String.concat "/" (s :: l0))).
  destruct y; discriminate.
Qed.

Lemma concat_snoc_append (l : list string) (x sfx : string) :
  String.concat "/" (l ++ [x]) ++ sfx = String.concat "/" (l ++ [x ++ sfx]).
Proof.
  induction l as [|y l IH]; [reflexivity|].
  cbn [app].
  destruct (l ++ [x])%list eqn:E; [destruct l; discriminate E|].
  destruct (l ++ [(x ++ sfx)%string])%list eqn:E'; [destruct l; discriminate E'|].
  change (String.concat "/" (y :: s :: l0))
    with (y ++ String slash (String.concat "/" (s :: l0))).
  change (String.concat "/" (y :: s0 :: l1))
    with (y ++ String slash (String.concat "/" (s0 :: l1))).
  rewrite <- IH. rewrite append_assoc. reflexivity.
Qed.

Lemma plain_nonempty (x : string) : plain x -> x <> "".
Proof. intros [H _] ->. discriminate H. Qed.

(** The text of the path of a plain name in a directory. *)
Lemma normalize_in_dir (d x : string) :
  d <> "" -> plain x ->
  normalize (d ++ String slash x)
  = (if isAbsolute d then "/" else "")
    ++ String.concat "/" (normalizeString (negb (isAbsolute d)) (split d) ++ [x]).
Proof.
  intros Hd Hx. pose proof (plain_nonempty x Hx) as Hne.
  destruct Hx as [B [P S]].
  unfold normalize.
  destruct (String.eqb_spec (d ++ String slash x) "") as [E|_];
    [destruct d; discriminate E|].
  assert (A : isAbsolute (d ++ String slash x) = isAbsolute d)
    by (destruct d; [contradiction | reflexivity]).
  rewrite A, split_glue, (split_no_slash x S).
  unfold normalizeString. rewrite run_app. cbn [run fold_left].
  rewrite step_plain by assumption. cbn [rev].
  fold (run (negb (isAbsolute d)) [] (split d)).
  set (segs := rev (run (negb (isAbsolute d)) [] (split d))).
  destruct (String.eqb_spec (String.concat "/" (segs ++ [x])) "") as [E|_];
    [destruct (concat_snoc_nonempty segs x Hne E)|].
  replace (endsWithSlash (d ++ String slash x)) with false.
  - destruct (isAbsolute d); reflexivity.
  - symmetry. destruct x as [|c x]; [contradiction|].
    change (d ++ String slash (String c x)) with (d ++ String slash (String c x)).
    rewrite (endsWithSlash_glue d slash (String c x)).
    change (endsWithSlash (String slash (String c x))) with (endsWithSlash (String c x)).
    apply endsWithSlash_no_slash. exact S.
Qed.

Lemma no_slash_app (a b : string) :
  no_slash a = true -> no_slash b = true -> no_slash (a ++ b) = true.
Proof.
  induction a as [|c a IH]; intros Ha Hb; [exact Hb|].
  cbn [no_slash] in Ha. apply andb_true_iff in Ha. destruct Ha as [H1 H2].
  change (String c a ++ b) with (String c (a ++ b)). cbn [no_slash].
  rewrite H1, IH by assumption. reflexivity.
Qed.

(** A suffix added to the path of a file stays with the name of the
    file. *)
Lemma join_file_suffix (d x sfx : string) :
  d <> "" -> plain x -> plain (x ++ sfx) ->
  join [d; x] ++ sfx = join [d; x ++ sfx].
Proof.
  intros Hd Hx Hx'.
  rewrite !join_cons by exact Hd.
  pose proof (plain_nonempty _ Hx) as N. pose proof (plain_nonempty _ Hx') as N'.
  assert (F : forall y, y <> "" -> filter nonempty [y] = [y]).
  { intros y Hy. cbn. unfold nonempty. destruct (String.eqb_spec y ""); [contradiction|reflexivity]. }
  rewrite !F by assumption.
  change (String.concat "/" [d; x]) with (d ++ String slash x).
  change (String.concat "/" [d; x ++ sfx]) with (d ++ String slash (x ++ sfx)).
  rewrite !normalize_in_dir by assumption.
  rewrite <- concat_snoc_append. destruct (isAbsolute d); reflexivity.
Qed.

Lemma normalize_nonempty (p : string) : normalize p <> "".
Proof.
  unfold normalize. destruct (String.eqb_spec p ""); [discriminate|].
  set (body := String.concat "/" (normalizeString (negb (isAbsolute p)) (split p))).
  destruct (String.eqb_spec body "") as [E|E].
  - destruct (isAbsolute p); [discriminate|]. destruct (endsWithSlash p); discriminate.
  - destruct (isAbsolute p); [discriminate|].
    destruct (endsWithSlash p); [|exact E].
    destruct body; [contradiction|discriminate].
Qed.

Lemma join_nonempty (args : list string) : join args <> "".
Proof.
  unfold join. destruct (filter nonempty args); [discriminate | apply normalize_nonempty].
Qed.

End PathFacts.

Lemma clean_includes (s : string) : no_dotdot s = true -> Str.includes ".." s = false.
Proof. intros H. rewrite includes_dotdot, H. reflexivity. Qed.

(** C1. Whatever the raw package name or file name, the sanitized key
    holds no parent-directory sequence [..], and the path joined from
    the storage root, [packages] and the key resolves strictly inside
    the storage root. *)
Theorem sanitized_key_inside_root (cwd : list string) (base raw : string) :
  Str.includes ".." (sanitizePkgName raw) = false
  /\ Str.includes ".." (sanitizeFilename raw) = false
  /\ Path.strictly_inside cwd base (Path.join [base; "packages"; sanitizePkgName raw]) = true
  /\ Path.strictly_inside cwd base (Path.join [base; "packages"; sanitizeFilename raw]) = true.
Proof.
  pose proof (sanitizePkgName_clean raw) as Hp.
  pose proof (sanitizeFilename_clean raw) as Hf.
  repeat split; try (apply clean_includes; assumption).
  - unfold Path.strictly_inside. rewrite PathFacts.resolve_packages by exact Hp.
    apply PathFacts.strict_prefix_app.
  - unfold Path.strictly_inside. rewrite PathFacts.resolve_packages by exact Hf.
    apply PathFacts.strict_prefix_app.
Qed.

Example mini_parse :
  MiniRuntime.parse (MiniRuntime.stringify
    (VObj [("name", VStr "a\b"); ("versions", VObj [("1.0.0", VObj [])]); ("n", VArr [VNum (-12); VNull; VBool true] [])]))
  = Some (VObj [("name", VStr "a\b"); ("versions", VObj [("1.0.0", VObj [])]); ("n", VArr [VNum (-12); VNull; VBool true] [])]).
Proof. vm_compute. reflexivity. Qed.

(** ** The paths of the store *)

Module StorePaths.
Import Path PathFacts.

Lemma uint_no_slash (d : Decimal.uint) :
  no_slash (DecimalString.NilEmpty.string_of_uint d) = true.
Proof. induction d; cbn; [reflexivity | assumption ..]. Qed.

Lemma string_of_Z_no_slash (n : Z) : no_slash (string_of_Z n) = true.
Proof.
  unfold string_of_Z, DecimalString.NilZero.string_of_int, DecimalString.NilZero.string_of_uint.
  destruct (Z.to_int n) as [d|d]; destruct d; try reflexivity;
    cbn [no_slash]; apply uint_no_slash.
Qed.

Lemma tmp_entry_plain (now : Z) : plain (tmp_entry now).
Proof.
  unfold plain, tmp_entry. repeat split; try reflexivity.
  cbn. apply string_of_Z_no_slash.
Qed.

Lemma meta_plain : plain "meta.json".
Proof. repeat split. Qed.

Lemma below_plain (x : string) : plain x -> below [x] = [x].
Proof.
  intros [B [_ S]]. unfold below. cbn [flat_map]. rewrite app_nil_r.
  rewrite (split_no_slash x S). cbn. rewrite B. reflexivity.
Qed.

Lemma below_app (l m : list string) : below (l ++ m) = (below l ++ below m)%list.
Proof. unfold below. rewrite flat_map_app, filter_app. reflexivity. Qed.

(** A plain name joined to a directory is an entry of that directory. *)
Lemma resolve_entry (cwd : list string) (dir x : string) :
  dir <> "" -> plain x ->
  resolve cwd (join [dir; x]) = (resolve cwd dir ++ [x])%list.
Proof.
  intros Hd Hx. rewrite resolve_join_down; [rewrite (below_plain x Hx); reflexivity | exact Hd |].
  destruct Hx as [_ [P S]]. cbn [flat_map]. rewrite app_nil_r, (split_no_slash x S).
  constructor; [exact P | constructor].
Qed.

Section Store.

Variable cwd : list string.
Variables base pkg : string.

Let R : list string := resolve cwd (pkgDir_of base pkg).

Lemma pkgDir_nonempty : pkgDir_of base pkg <> "".
Proof. apply join_nonempty. Qed.

Lemma resolve_metaPath :
  resolve cwd (metaPath_of base pkg) = (R ++ ["meta.json"])%list.
Proof. apply resolve_entry; [apply pkgDir_nonempty | apply meta_plain]. Qed.

Lemma resolve_tmp (now : Z) :
  resolve cwd (tmp_name (metaPath_of base pkg) now) = (R ++ [tmp_entry now])%list.
Proof.
  unfold tmp_name, metaPath_of.
  rewrite (join_file_suffix (pkgDir_of base pkg) "meta.json" (".tmp-" ++ string_of_Z now));
    [| apply pkgDir_nonempty | apply meta_plain | apply tmp_entry_plain].
  apply resolve_entry; [apply pkgDir_nonempty | apply tmp_entry_plain].
Qed.

Lemma resolve_tarballs :
  resolve cwd (Path.join [pkgDir_of base pkg; "tarballs"]) = (R ++ ["tarballs"])%list.
Proof. apply resolve_entry; [apply pkgDir_nonempty | repeat split]. Qed.

Lemma resolve_tarballPath (filename : string) :
  resolve cwd (tarballPath_of base pkg filename)
  = (R ++ "tarballs" :: below [sanitizeFilename filename])%list.
Proof.
  unfold tarballPath_of. rewrite resolve_join.
  - rewrite resolve_tarballs, <- app_assoc. reflexivity.
  - apply join_nonempty.
  - repeat constructor. apply sanitizeFilename_clean.
Qed.

(** [getTarballPath] joins the three parts at once, and names the same
    entry. *)
Lemma resolve_getTarballPath (filename : string) :
  resolve cwd (Path.join [pkgDir_of base pkg; "tarballs"; sanitizeFilename filename])
  = resolve cwd (tarballPath_of base pkg filename).
Proof.
  rewrite resolve_tarballPath, resolve_join.
  - change ["tarballs"; sanitizeFilename filename]
      with (["tarballs"] ++ [sanitizeFilename filename])%list.
    rewrite below_app. reflexivity.
  - apply pkgDir_nonempty.
  - repeat constructor. apply sanitizeFilename_clean.
Qed.

Lemma tarball_not_meta (filename : string) :
  resolve cwd (tarballPath_of base pkg filename) <> resolve cwd (metaPath_of base pkg).
Proof.
  rewrite resolve_tarballPath, resolve_metaPath. intros E.
  apply app_inv_head in E. discriminate E.
Qed.

Lemma tarball_not_tmp (filename : string) (now : Z) :
  resolve cwd (tarballPath_of base pkg filename)
  <> resolve cwd (tmp_name (metaPath_of base pkg) now).
Proof.
  rewrite resolve_tarballPath, resolve_tmp. intros E.
  apply app_inv_head in E. discriminate E.
Qed.

End Store.

End StorePaths.

(** ** The file system *)

Module FSFacts.
Import FS.

Lemma entry_get_set (k k' : string) (x : node) (es : entries) :
  entry_get k' (entry_set k x es)
  = if String.eqb k' k then Some x else entry_get k' es.
Proof.
  induction es as [|[n y] r IH]; cbn.
  - destruct (String.eqb_spec k' k); reflexivity.
  - destruct (String.eqb_spec k n) as [->|Hkn]; cbn.
    + destruct (String.eqb_spec k' n); reflexivity.
    + rewrite IH. destruct (String.eqb_spec k' n) as [->|]; [|reflexivity].
      destruct (String.eqb_spec n k); [congruence | reflexivity].
Qed.

Lemma entry_get_remove (k k' : string) (es : entries) :
  entry_get k' (entry_remove k es)
  = if String.eqb k' k then None else entry_get k' es.
Proof.
  induction es as [|[n y] r IH]; cbn.
  - destruct (String.eqb k' k); reflexivity.
  - destruct (String.eqb_spec k n) as [->|Hkn]; cbn.
    + rewrite IH. destruct (String.eqb_spec k' n); reflexivity.
    + rewrite IH. destruct (String.eqb_spec k' n) as [->|]; [|reflexivity].
      destruct (String.eqb_spec n k); [congruence | reflexivity].
Qed.

Lemma lookup_file (d : string) (q : list string) (x : string) :
  file_at (File d) q x -> q = [].
Proof. destruct q; [reflexivity | discriminate]. Qed.

Lemma lookup_empty_dir (q : list string) (x : string) : ~ file_at (Dir []) q x.
Proof. destruct q; discriminate. Qed.

(** [mkdir -p] neither makes nor breaks a file. *)
Lemma mkdir_p_files (p : list string) :
  forall n n' q d,
    mkdir_p n p = Return n' -> (file_at n' q d <-> file_at n q d).
Proof.
  unfold file_at. induction p as [|name rest IH]; intros n n' q d H.
  - cbn in H. destruct n; inversion H; subst; reflexivity.
  - cbn in H. destruct n as [|es]; [discriminate|].
    destruct (mkdir_p _ rest) as [c'|] eqn:E; [|discriminate].
    inversion H; subst; clear H.
    destruct q as [|k q']; [cbn; split; discriminate|].
    cbn [lookup]. rewrite entry_get_set.
    destruct (String.eqb_spec k name) as [->|Hk]; [|reflexivity].
    rewrite (IH _ _ q' d E).
    destruct (entry_get name es); [reflexivity|].
    split; [intros F; destruct (lookup_empty_dir q' d F) | discriminate].
Qed.

Lemma write_at_same (p : list string) :
  forall n n' data, write_at n p data = Return n' -> file_at n' p data.
Proof.
  unfold file_at. induction p as [|name rest IH]; intros n n' data H.
  - cbn in H. destruct n; inversion H; reflexivity.
  - cbn in H. destruct n as [|es]; [discriminate|].
    destruct (entry_get name es) as [c|] eqn:G.
    + destruct (write_at c rest data) as [c'|] eqn:E; [|discriminate].
      inversion H; subst. cbn. rewrite entry_get_set, String.eqb_refl.
      apply (IH _ _ _ E).
    + destruct rest; [|discriminate]. inversion H; subst.
      cbn. rewrite entry_get_set, String.eqb_refl. reflexivity.
Qed.

(** Writing a file changes no other file. *)
Lemma write_at_other (p : list string) :
  forall n n' data q d,
    write_at n p data = Return n' -> q <> p ->
    (file_at n' q d <-> file_at n q d).
Proof.
  unfold file_at. induction p as [|name rest IH]; intros n n' data q d H Hq.
  - cbn in H. destruct n; inversion H; subst.
    destruct q; [contradiction|]. cbn. split; discriminate.
  - cbn in H. destruct n as [|es]; [discriminate|].
    destruct q as [|k q'].
    { destruct (entry_get name es); [destruct (write_at n rest data)|destruct rest];
        inversion H; subst; cbn; split; discriminate. }
    destruct (entry_get name es) as [c|] eqn:G.
    + destruct (write_at c rest data) as [c'|] eqn:E; [|discriminate].
      inversion H; subst. cbn [lookup]. rewrite entry_get_set.
      destruct (String.eqb_spec k name) as [->|Hk]; [|reflexivity].
      rewrite G. apply (IH _ _ _ _ _ E). intros ->. apply Hq. reflexivity.
    + destruct rest; [|discriminate]. inversion H; subst.
      cbn [lookup]. rewrite entry_get_set.
      destruct (String.eqb_spec k name) as [->|Hk]; [|reflexivity].
      rewrite G. destruct q' as [|k' q'']; [contradiction Hq; reflexivity|].
      cbn. split; discriminate.
Qed.

Lemma place_file (p : list string) :
  forall n d, p <> [] -> place_at n p (File d) = write_at n p d.
Proof.
  induction p as [|name rest IH]; intros n d Hp; [contradiction|].
  cbn. destruct n as [|es]; [reflexivity|].
  destruct (entry_get name es) as [c|] eqn:G.
  - destruct rest as [|k rest'].
    + cbn. destruct c; reflexivity.
    + rewrite IH by discriminate. reflexivity.
  - destruct rest; reflexivity.
Qed.

(** Removing a file changes no other file. *)
Lemma remove_at_other (p : list string) :
  forall n n' x q d,
    remove_at n p = Return n' -> file_at n p x -> q <> p ->
    (file_at n' q d <-> file_at n q d).
Proof.
  unfold file_at. induction p as [|name rest IH]; intros n n' x q d H Hx Hq.
  - discriminate H.
  - cbn in H, Hx. destruct n as [|es]; [discriminate|].
    destruct (entry_get name es) as [c|] eqn:G; [|discriminate].
    destruct q as [|k q'].
    { destruct rest; [|destruct (remove_at c _)]; inversion H; subst; cbn; split; discriminate. }
    destruct rest as [|r0 rest'].
    + inversion H; subst. cbn in Hx. inversion Hx; subst.
      cbn [lookup]. rewrite entry_get_remove.
      destruct (String.eqb_spec k name) as [->|Hk]; [|reflexivity].
      rewrite G. destruct q' as [|k' q'']; [contradiction Hq; reflexivity|].
      cbn. split; discriminate.
    + destruct (remove_at c (r0 :: rest')) as [c'|] eqn:E; [|discriminate].
      inversion H; subst. cbn [lookup]. rewrite entry_get_set.
      destruct (String.eqb_spec k name) as [->|Hk]; [|reflexivity].
      rewrite G. apply (IH _ _ _ _ _ E Hx). intros ->. apply Hq. reflexivity.
Qed.

Lemma is_prefix_antisym (l m : list string) :
  is_prefix l m = true -> is_prefix m l = true -> l = m.
Proof.
  revert m. induction l as [|x l IH]; intros [|y m] H1 H2; try discriminate; [reflexivity|].
  cbn in H1, H2. apply andb_true_iff in H1. destruct H1 as [E H1].
  apply andb_true_iff in H2. destruct H2 as [_ H2].
  apply String.eqb_eq in E. subst. f_equal. apply IH; assumption.
Qed.

Lemma is_prefix_refl (l : list string) : is_prefix l l = true.
Proof. induction l; cbn; [reflexivity|]. rewrite String.eqb_refl. assumption. Qed.

(** Renaming a file moves it and changes no other file. *)
Lemma rename_at_file (n n' : node) (old new : list string) (x : string) :
  rename_at n old new = Return n' -> file_at n old x ->
  file_at n' new x
  /\ forall q d, q <> old -> q <> new -> (file_at n' q d <-> file_at n q d).
Proof.
  unfold rename_at. intros H Hx. rewrite Hx in H.
  destruct (same_path old new) eqn:S.
  - unfold same_path in S. apply andb_true_iff in S. destruct S as [S1 S2].
    pose proof (is_prefix_antisym _ _ S1 S2). subst. inversion H; subst.
    split; [exact Hx | reflexivity].
  - destruct (is_prefix old new) eqn:P; [discriminate|].
    assert (Hne : new <> old).
    { intros ->. rewrite is_prefix_refl in P. discriminate. }
    destruct (place_at n new (File x)) as [n1|] eqn:E; [|discriminate].
    assert (Hnew : new <> []) by (intros ->; discriminate E).
    rewrite place_file in E by exact Hnew.
    assert (Hold : file_at n1 old x).
    { apply (write_at_other new n n1 x old x E); [congruence | exact Hx]. }
    split.
    + apply (remove_at_other old n1 n' x new x H Hold Hne).
      apply (write_at_same new n n1 x E).
    + intros q d Hq1 Hq2.
      rewrite (remove_at_other old n1 n' x q d H Hold Hq1).
      apply (write_at_other new n n1 x q d E Hq2).
Qed.

(** *** When the operations succeed *)

Lemma entry_set_same (k : string) (c : node) (es : entries) :
  entry_get k es = Some c -> entry_set k c es = es.
Proof.
  induction es as [|[n y] r IH]; cbn; [discriminate|].
  destruct (String.eqb_spec k n) as [->|]; intros H.
  - inversion H; reflexivity.
  - rewrite IH by exact H. reflexivity.
Qed.



Lemma mkdir_p_makes (p : list string) :
  forall n n', mkdir_p n p = Return n' -> exists es, lookup n' p = Return (Dir es).
Proof.
  induction p as [|name rest IH]; intros n n' H.
  - cbn in H. destruct n as [|es]; inversion H; subst. eexists; reflexivity.
  - cbn in H. destruct n as [|es]; [discriminate|].
    destruct (mkdir_p _ rest) as [c'|] eqn:E; [|discriminate].
    inversion H; subst. cbn. rewrite entry_get_set, String.eqb_refl. exact (IH _ _ E).
Qed.

(** [mkdir -p] of a directory that exists changes nothing. *)
Lemma mkdir_p_existing (p : list string) :
  forall n es, lookup n p = Return (Dir es) -> mkdir_p n p = Return n.
Proof.
  induction p as [|name rest IH]; intros n es H.
  - cbn in H. inversion H; subst. reflexivity.
  - cbn in H |- *. destruct n as [|es0]; [discriminate|].
    destruct (entry_get name es0) as [c|] eqn:G; [|discriminate].
    rewrite (IH c es H), (entry_set_same name c es0 G). reflexivity.
Qed.



Lemma lookup_app (p q : list string) :
  forall n, lookup n (p ++ q) = bind (lookup n p) (fun x => lookup x q).
Proof.
  induction p as [|name rest IH]; intros n; [reflexivity|].
  cbn. destruct n as [|es]; [reflexivity|].
  destruct (entry_get name es); [apply IH | reflexivity].
Qed.






End FSFacts.

(** ** Promises *)

Lemma io_bind_returns {A B : Type} (m : io A) (f : A -> io B) fs b fs' :
  io_bind m f fs = (Return b, fs') ->
  exists a fs1, m fs = (Return a, fs1) /\ f a fs1 = (Return b, fs').
Proof.
  unfold io_bind. destruct (m fs) as [[a|e] fs1]; intros H.
  - exists a, fs1. split; [reflexivity | exact H].
  - discriminate H.
Qed.

Lemma mutate_returns (op : filesystem -> outcome filesystem) fs u fs' :
  mutate op fs = (Return u, fs') -> op fs = Return fs'.
Proof.
  unfold mutate. destruct (op fs); intros H; inversion H; reflexivity.
Qed.

Lemma ret_returns {A : Type} (a b : A) fs fs' :
  ret a fs = (Return b, fs') -> a = b /\ fs = fs'.
Proof. unfold ret. intros H. inversion H. split; reflexivity. Qed.

Lemma with_root_returns fs o fs' :
  FS.with_root fs o = Return fs' ->
  exists n, o = Return n /\ fs' = {| cwd := cwd fs; root := n |}.
Proof.
  unfold FS.with_root. destruct o; intros H; inversion H. eexists; split; reflexivity.
Qed.

(** Splitting the run of a promise chain into its steps. *)
Ltac step H :=
  let a := fresh "a" in
  let fs1 := fresh "fs" in
  let H1 := fresh "Hstep" in
  apply io_bind_returns in H; destruct H as [a [fs1 [H1 H]]].

Lemma readFile_holds (fs : filesystem) (p d : string) :
  FS.readFile fs p = Return d <-> holds fs p d.
Proof.
  unfold FS.readFile, holds, FS.file_at.
  destruct (FS.lookup (root fs) (FS.at_path fs p)) as [[x|es]|e].
  - split; intros H; inversion H; reflexivity.
  - split; discriminate.
  - split; discriminate.
Qed.

Lemma same_files_refl (fs : filesystem) : same_files_but [] fs fs.
Proof. split; [reflexivity | intros; reflexivity]. Qed.

Lemma same_files_trans {c1 c2 : list (list string)} {fs1 fs2 fs3 : filesystem} :
  same_files_but c1 fs1 fs2 -> same_files_but c2 fs2 fs3 ->
  same_files_but (c1 ++ c2) fs1 fs3.
Proof.
  intros [C1 F1] [C2 F2]. split; [congruence|].
  intros q d Hq. rewrite F2, F1; [reflexivity | |];
    intros Hin; apply Hq, in_or_app; auto.
Qed.

Lemma mkdir_recursive_files (fs fs' : filesystem) (p : string) :
  FS.mkdir_recursive fs p = Return fs' -> same_files_but [] fs fs'.
Proof.
  intros H. apply with_root_returns in H. destruct H as [n [H ->]].
  split; [reflexivity|]. intros q d _. cbn.
  apply (FSFacts.mkdir_p_files _ _ _ q d H).
Qed.

Lemma writeFile_files (fs fs' : filesystem) (p data : string) :
  FS.writeFile fs p data = Return fs' ->
  holds fs' p data /\ same_files_but [FS.at_path fs p] fs fs'.
Proof.
  intros H. apply with_root_returns in H. destruct H as [n [H ->]].
  split.
  - exact (FSFacts.write_at_same _ _ _ _ H).
  - split; [reflexivity|]. intros q d Hq. cbn.
    apply (FSFacts.write_at_other _ _ _ _ q d H).
    intros ->. apply Hq. left. reflexivity.
Qed.

Lemma rename_files (fs fs' : filesystem) (old new x : string) :
  FS.rename fs old new = Return fs' -> holds fs old x ->
  holds fs' new x /\ same_files_but [FS.at_path fs old; FS.at_path fs new] fs fs'.
Proof.
  intros H Hx. apply with_root_returns in H. destruct H as [n [H ->]].
  destruct (FSFacts.rename_at_file _ _ _ _ x H Hx) as [H1 H2].
  split; [exact H1|].
  split; [reflexivity|]. intros q d Hq. cbn. apply H2.
  - intros ->. apply Hq. left. reflexivity.
  - intros ->. apply Hq. right. left. reflexivity.
Qed.

(** ** The metadata store *)

Section StorageFacts.

Context {rt : Runtime}.

Lemma writePackageMeta_halves (base pkg : string) (meta : value) (now : Z) (fs : filesystem) :
  writePackageMeta base pkg meta now fs
  = (await staged <- write_tmp base pkg meta now; rename_tmp staged) fs.
Proof.
  unfold writePackageMeta, write_tmp, rename_tmp, io_bind, ret.
  destruct (ensurePackageDir base pkg fs) as [[d|e] fs1]; [|reflexivity].
  destruct (mutate _ fs1) as [[u|e] fs2]; reflexivity.
Qed.

Lemma ensurePackageDir_returns (base pkg d : string) (fs fs' : filesystem) :
  ensurePackageDir base pkg fs = (Return d, fs') ->
  d = pkgDir_of base pkg /\ same_files_but [] fs fs'.
Proof.
  unfold ensurePackageDir. intros H.
  step H. apply mutate_returns in Hstep. apply mkdir_recursive_files in Hstep.
  step H. apply mutate_returns in Hstep0. apply mkdir_recursive_files in Hstep0.
  apply ret_returns in H. destruct H as [<- <-].
  split; [reflexivity|].
  exact (same_files_trans Hstep Hstep0).
Qed.

Lemma at_path_cwd (fs fs' : filesystem) (p : string) :
  cwd fs' = cwd fs -> FS.at_path fs' p = FS.at_path fs p.
Proof. unfold FS.at_path. intros ->. reflexivity. Qed.

(** A write that returns has put the text of the normalized descriptor
    at the path of the descriptor, and has changed no file but that one
    and its temporary file. *)
Lemma writePackageMeta_returns (base pkg p : string) (meta : value) (now : Z)
      (fs fs' : filesystem) :
  writePackageMeta base pkg meta now fs = (Return p, fs') ->
  p = metaPath_of base pkg
  /\ holds fs' p (utf8_encode (JSON_stringify (Object_assign meta)))
  /\ same_files_but [FS.at_path fs (tmp_name p now); FS.at_path fs p] fs fs'.
Proof.
  unfold writePackageMeta. intros H.
  step H. apply ensurePackageDir_returns in Hstep. destruct Hstep as [-> S0].
  step H. apply mutate_returns in Hstep. apply writeFile_files in Hstep.
  destruct Hstep as [W S1].
  step H. apply mutate_returns in Hstep.
  apply (fun R => rename_files _ _ _ _ _ R W) in Hstep. destruct Hstep as [R S2].
  apply ret_returns in H. destruct H as [<- <-].
  fold (metaPath_of base pkg) in *.
  split; [reflexivity|]. split; [exact R|].
  pose proof (same_files_trans S0 (same_files_trans S1 S2)) as S.
  cbn [app] in S.
  rewrite !(at_path_cwd fs fs0) in S by apply S0.
  rewrite !(at_path_cwd fs fs1) in S
    by (destruct S0 as [C0 _], S1 as [C1 _]; congruence).
  destruct S as [C F]. split; [exact C|].
  intros q d Hq. apply F. cbn in Hq |- *. tauto.
Qed.

Lemma readPackageMeta_holds (base pkg d : string) (fs : filesystem) :
  holds fs (metaPath_of base pkg) d ->
  readPackageMeta base pkg fs
  = (Return (match JSON_parse (utf8_decode d) with
             | Some v => v
             | None => VNull
             end), fs).
Proof.
  intros H. apply readFile_holds in H. unfold readPackageMeta.
  fold (pkgDir_of base pkg). fold (metaPath_of base pkg). rewrite H.
  destruct (JSON_parse (utf8_decode d)); reflexivity.
Qed.

(** A write that returns is read back as the runtime reads the text
    that it wrote. *)
Lemma write_then_read (base pkg p : string) (meta : value) (now : Z)
      (fs fs' : filesystem) :
  writePackageMeta base pkg meta now fs = (Return p, fs') ->
  readPackageMeta base pkg fs'
  = (Return (match JSON_parse (utf8_decode (utf8_encode
                      (JSON_stringify (Object_assign meta)))) with
             | Some v => v
             | None => VNull
             end), fs').
Proof.
  intros H. apply writePackageMeta_returns in H. destruct H as [-> [H _]].
  apply readPackageMeta_holds. exact H.
Qed.

End StorageFacts.

(** ** Reading a descriptor *)

(** C7. [readPackageMeta] never throws: it returns the parsed descriptor
    or [null], and a descriptor file that cannot be read and one whose
    text does not parse both give the same [null]. *)
Theorem readPackageMeta_never_throws {rt : Runtime} (base pkg : string) (fs : filesystem) :
  (exists v, readPackageMeta base pkg fs = (Return v, fs)
             /\ (v = VNull
                 \/ exists raw, FS.readFile fs (metaPath_of base pkg) = Return raw
                                /\ JSON_parse (utf8_decode raw) = Some v))
  /\ (returns (FS.readFile fs (metaPath_of base pkg)) = false ->
      readPackageMeta base pkg fs = (Return VNull, fs))
  /\ (forall raw, FS.readFile fs (metaPath_of base pkg) = Return raw ->
                  JSON_parse (utf8_decode raw) = None ->
                  readPackageMeta base pkg fs = (Return VNull, fs)).
Proof.
  unfold readPackageMeta. fold (pkgDir_of base pkg). fold (metaPath_of base pkg).
  destruct (FS.readFile fs (metaPath_of base pkg)) as [raw|e] eqn:R.
  - destruct (JSON_parse (utf8_decode raw)) as [v|] eqn:P.
    + split; [|split].
      * exists v. split; [reflexivity|]. right. exists raw. split; [reflexivity | exact P].
      * discriminate.
      * intros raw' E. inversion E; subst. congruence.
    + split; [|split].
      * exists VNull. split; [reflexivity | left; reflexivity].
      * discriminate.
      * reflexivity.
  - split; [|split].
    + exists VNull. split; [reflexivity | left; reflexivity].
    + reflexivity.
    + discriminate.
Qed.

Example read_unpublished :
  readPackageMeta (rt:=MiniRuntime.runtime) Sample.STORAGE_DIR "left-pad" Sample.disk
  = (Return VNull, Sample.disk).
Proof. vm_compute. reflexivity. Qed.

(** ** Publishing a descriptor *)

(** C8, as the code has it. A payload that is no object at all ([null],
    [undefined], a boolean, a number or a string) is answered with
    status 400 and the file system is left as it was. *)
Theorem put_pkg_rejects_non_object {rt : Runtime} (STORAGE_DIR pkg : string) (body : value)
        (now : Z) (uuid : string) (fs : filesystem) :
  truthy body = false \/ typeof_object body = false ->
  put_pkg STORAGE_DIR pkg body now uuid fs
  = ({| status := 400;
        json := VObj [("error", VStr "invalid_body");
                      ("reason", VStr "expected JSON metadata")] |}, fs).
Proof.
  intros H. unfold put_pkg.
  destruct H as [H|H]; rewrite H; [reflexivity | rewrite orb_true_r; reflexivity].
Qed.

Lemma put_pkg_rejects_non_object_witness :
  (truthy (VStr "left-pad") = false \/ typeof_object (VStr "left-pad") = false)
  /\ put_pkg (rt:=MiniRuntime.runtime) Sample.STORAGE_DIR "left-pad" (VStr "left-pad")
             Sample.clock "id" Sample.disk
     = ({| status := 400;
           json := VObj [("error", VStr "invalid_body");
                         ("reason", VStr "expected JSON metadata")] |}, Sample.disk).
Proof.
  split.
  - right. reflexivity.
  - apply (put_pkg_rejects_non_object (rt:=MiniRuntime.runtime)). right. reflexivity.
Defined.

(** A payload that is no mapping and is not rejected: an array. Its
    publish is answered with status 201, the directory of the package
    is created and a descriptor is written. *)
Lemma put_pkg_accepts_array :
  Sample.is_mapping (VArr [VStr "x"] []) = false
  /\ status (fst (put_pkg (rt:=MiniRuntime.runtime) Sample.STORAGE_DIR "left-pad"
                          (VArr [VStr "x"] []) Sample.clock "id" Sample.disk)) = 201
  /\ returns (FS.readFile
                (Sample.after (put_pkg (rt:=MiniRuntime.runtime) Sample.STORAGE_DIR "left-pad"
                                       (VArr [VStr "x"] []) Sample.clock "id" Sample.disk))
                "/srv/storage/packages/left-pad/meta.json") = true
  /\ returns (FS.readFile Sample.disk "/srv/storage/packages/left-pad/meta.json") = false.
Proof. vm_compute. repeat split; reflexivity. Qed.

(** ** Writing and reading back *)

Lemma own_set_fresh (k : string) (v : value) (ps : props) :
  own_get k ps = None -> own_set k v ps = (ps ++ [(k, v)])%list.
Proof.
  induction ps as [|[k' v'] r IH]; cbn; [reflexivity|].
  destruct (String.eqb k k'); [discriminate|]. intros H. rewrite IH by exact H. reflexivity.
Qed.

Lemma own_get_app_fresh (k : string) (ps qs : props) :
  own_get k ps = None -> own_get k (ps ++ qs)%list = own_get k qs.
Proof.
  induction ps as [|[k' v'] r IH]; cbn; [reflexivity|].
  destruct (String.eqb k k'); [discriminate | exact IH].
Qed.

Lemma own_get_not_in (k : string) (ps : props) :
  ~ In k (List.map fst ps) -> own_get k ps = None.
Proof.
  induction ps as [|[k' v'] r IH]; cbn; [reflexivity|].
  intros H. destruct (String.eqb_spec k k') as [->|]; [exfalso; apply H; left; reflexivity|].
  apply IH. intros Hin. apply H. right. exact Hin.
Qed.

Lemma own_get_in (k : string) (ps : props) :
  own_get k ps = None -> ~ In k (List.map fst ps).
Proof.
  induction ps as [|[k' v'] r IH]; cbn; [tauto|].
  destruct (String.eqb_spec k k') as [->|Hk]; [discriminate|].
  intros H [E|Hin]; [congruence | exact (IH H Hin)].
Qed.

(** The normal form of a document with distinct keys: the document less
    its property [__proto__]. *)
Lemma Object_assign_filter (D : props) :
  NoDup (List.map fst D) -> Object_assign (VObj D) = VObj (filter not_proto D).
Proof.
  unfold Object_assign. cbn [own_props].
  assert (G : forall acc,
             NoDup (List.map fst D) ->
             (forall k, In k (List.map fst D) -> own_get k acc = None) ->
             fold_left (fun target kv => try_catch (setProp target (fst kv) (snd kv)) target)
                       D (VObj acc) = VObj (acc ++ filter not_proto D)%list).
  { induction D as [|[k v] r IH]; intros acc Hnd Hacc.
    - cbn. rewrite app_nil_r. reflexivity.
    - inversion Hnd as [|? ? Hk Hr]; subst.
      cbn [fold_left fst snd setProp filter]. unfold not_proto at 1. cbn [fst].
      unfold own_has. rewrite (Hacc k) by (left; reflexivity).
      destruct (String.eqb k "__proto__"); cbn [andb negb try_catch].
      + apply IH; [exact Hr|]. intros k' Hk'. apply Hacc. right. exact Hk'.
      + rewrite own_set_fresh by (apply Hacc; left; reflexivity).
        rewrite IH; [rewrite <- app_assoc; reflexivity | exact Hr |].
        intros k' Hk'. rewrite own_get_app_fresh by (apply Hacc; right; exact Hk').
        cbn. destruct (String.eqb_spec k' k) as [->|]; [contradiction | reflexivity]. }
  intros Hnd. apply (G [] Hnd). reflexivity.
Qed.

Lemma filter_not_proto (D : props) :
  own_get "__proto__" D = None -> filter not_proto D = D.
Proof.
  induction D as [|[k v] r IH]; [reflexivity|].
  change (own_get "__proto__" ((k, v) :: r))
    with (if String.eqb "__proto__" k then Some v else own_get "__proto__" r).
  cbn [filter]. unfold not_proto at 1. cbn [fst]. rewrite String.eqb_sym.
  destruct (String.eqb k "__proto__"); [discriminate|].
  intros H. cbn [negb]. rewrite IH by exact H. reflexivity.
Qed.

Lemma own_get_filter (k : string) (D : props) :
  String.eqb k "__proto__" = false ->
  own_get k (filter not_proto D) = own_get k D.
Proof.
  intros Hk. induction D as [|[k' v] r IH]; [reflexivity|].
  cbn [filter]. unfold not_proto at 1. cbn [fst].
  destruct (String.eqb_spec k' "__proto__") as [->|]; cbn [negb own_get].
  - rewrite Hk. exact IH.
  - rewrite IH. reflexivity.
Qed.

(** A document with distinct keys, none of them [__proto__], is its own
    normal form. *)
Lemma Object_assign_mapping (D : props) :
  NoDup (List.map fst D) -> own_get "__proto__" D = None ->
  Object_assign (VObj D) = VObj D.
Proof.
  intros Hnd Hp. rewrite (Object_assign_filter D Hnd), (filter_not_proto D Hp). reflexivity.
Qed.

(** Normalizing keeps every property but [__proto__]. *)
Lemma field_Object_assign (D : props) (k : string) :
  NoDup (List.map fst D) -> String.eqb k "__proto__" = false ->
  field (Object_assign (VObj D)) k = field (VObj D) k.
Proof.
  intros Hnd Hk. rewrite (Object_assign_filter D Hnd). unfold field.
  rewrite (own_get_filter k D Hk). reflexivity.
Qed.

Lemma own_set_keys (k : string) (x : value) (ps : props) :
  NoDup (List.map fst ps) -> NoDup (List.map fst (own_set k x ps)).
Proof.
  intros H. induction ps as [|[k' v] r IH]; cbn.
  - constructor; [intros [] | constructor].
  - inversion H as [|? ? Hk Hr]; subst.
    destruct (String.eqb_spec k k') as [->|Hkk]; cbn.
    + constructor; assumption.
    + constructor; [|exact (IH Hr)].
      intros Hin. apply Hk. clear - Hin Hkk.
      induction r as [|[k0 v0] r IH]; cbn in *.
      * destruct Hin as [E|[]]. congruence.
      * destruct (String.eqb_spec k k0) as [->|]; cbn in Hin.
        -- destruct Hin as [E|Hin]; [congruence | right; exact Hin].
        -- destruct Hin as [E|Hin]; [left; exact E | right; exact (IH Hin)].
Qed.

(** X7. The round trip for the documents that the code does keep
    whole: a mapping with distinct keys, none of them [__proto__], whose
    JSON text the runtime reads back as written, is read back after a
    write that returned. *)
Theorem write_read_roundtrip {rt : Runtime} (base pkg p : string) (D : props) (now : Z)
        (fs fs' : filesystem) :
  writePackageMeta base pkg (VObj D) now fs = (Return p, fs') ->
  NoDup (List.map fst D) ->
  own_get "__proto__" D = None ->
  JSON_parse (utf8_decode (utf8_encode (JSON_stringify (VObj D)))) = Some (VObj D) ->
  readPackageMeta base pkg fs' = (Return (VObj D), fs').
Proof.
  intros W Hnd Hp J. rewrite (write_then_read _ _ _ _ _ _ _ W).
  rewrite (Object_assign_mapping D Hnd Hp), J. reflexivity.
Qed.

Lemma write_read_roundtrip_witness :
  readPackageMeta (rt:=MiniRuntime.runtime) Sample.STORAGE_DIR "left-pad"
    (Sample.after (writePackageMeta (rt:=MiniRuntime.runtime) Sample.STORAGE_DIR "left-pad"
                     (Sample.descriptor "left-pad") Sample.clock Sample.disk))
  = (Return (Sample.descriptor "left-pad"),
     Sample.after (writePackageMeta (rt:=MiniRuntime.runtime) Sample.STORAGE_DIR "left-pad"
                     (Sample.descriptor "left-pad") Sample.clock Sample.disk)).
Proof.
  apply (write_read_roundtrip (rt:=MiniRuntime.runtime) Sample.STORAGE_DIR "left-pad"
           "/srv/storage/packages/left-pad/meta.json"
           [("name", VStr "left-pad"); ("versions", VObj [("1.0.0", VObj [])])]
           Sample.clock Sample.disk).
  - vm_compute. reflexivity.
  - repeat constructor; cbn; intuition discriminate.
  - reflexivity.
  - vm_compute. reflexivity.
Defined.

(** C4 at a document that the code does not keep whole: a descriptor
    with an own property [__proto__] is written without it, and read
    back without it. *)
Theorem write_read_drops_proto :
  readPackageMeta (rt:=MiniRuntime.runtime) Sample.STORAGE_DIR "a"
    (Sample.after (writePackageMeta (rt:=MiniRuntime.runtime) Sample.STORAGE_DIR "a"
                     Sample.odd_descriptor Sample.clock Sample.disk))
  = (Return (VObj [("name", VStr "a")]),
     Sample.after (writePackageMeta (rt:=MiniRuntime.runtime) Sample.STORAGE_DIR "a"
                     Sample.odd_descriptor Sample.clock Sample.disk))
  /\ MiniRuntime.parse (MiniRuntime.decode (MiniRuntime.encode
        (MiniRuntime.stringify Sample.odd_descriptor))) = Some Sample.odd_descriptor
  /\ returns (fst (writePackageMeta (rt:=MiniRuntime.runtime) Sample.STORAGE_DIR "a"
                     Sample.odd_descriptor Sample.clock Sample.disk)) = true.
Proof. vm_compute. repeat split; reflexivity. Qed.

(** ** Listing *)

(** C2 at its own example. After the descriptors of [a] and of
    [@scope/b] are written, the listing has the key [a] with its
    descriptor and the key [@scope], the directory that holds [b], with
    an empty descriptor; it has no key [@scope/b]. *)
Theorem listAll_misses_scoped_package :
  let rt := MiniRuntime.runtime in
  let fs1 := Sample.after (writePackageMeta Sample.STORAGE_DIR "a"
                             (Sample.descriptor "a") Sample.clock Sample.disk) in
  let fs2 := Sample.after (writePackageMeta Sample.STORAGE_DIR "@scope/b"
                             (Sample.descriptor "@scope/b") (Sample.clock + 1) fs1) in
  fst (listAllPackages Sample.STORAGE_DIR fs2)
  = Return (VObj [("a", Sample.descriptor "a"); ("@scope", empty_descriptor "@scope")])
  /\ fst (readPackageMeta Sample.STORAGE_DIR "@scope/b" fs2)
     = Return (Sample.descriptor "@scope/b").
Proof. vm_compute. split; reflexivity. Qed.

(** ** The temporary file of a write *)

(** The name of the temporary file is made of the package and of the
    clock alone. *)
Lemma write_tmp_name {rt : Runtime} (base pkg : string) (meta : value) (now : Z)
      (fs fs' : filesystem) (staged : string * string) :
  write_tmp base pkg meta now fs = (Return staged, fs') ->
  staged = (tmp_name (metaPath_of base pkg) now, metaPath_of base pkg).
Proof.
  unfold write_tmp. intros H.
  step H. apply ensurePackageDir_returns in Hstep. destruct Hstep as [-> _].
  step H. apply ret_returns in H. destruct H as [<- _]. reflexivity.
Qed.

(** C3 at two writes of one package that read the same clock. Both
    write the same temporary file; when each has written before either
    renames, the first rename installs the descriptor of the second
    write and returns, and the second rename throws. *)
Theorem writes_at_one_instant_share_tmp :
  let rt := MiniRuntime.runtime in
  let first := write_tmp Sample.STORAGE_DIR "a" (Sample.descriptor "one") Sample.clock
                         Sample.disk in
  let second := write_tmp Sample.STORAGE_DIR "a" (Sample.descriptor "two") Sample.clock
                          (snd first) in
  let staged := ("/srv/storage/packages/a/meta.json.tmp-1700000000000",
                 "/srv/storage/packages/a/meta.json") in
  fst first = Return staged
  /\ fst second = Return staged
  /\ fst (rename_tmp staged (snd second)) = Return "/srv/storage/packages/a/meta.json"
  /\ fst (readPackageMeta Sample.STORAGE_DIR "a" (snd (rename_tmp staged (snd second))))
     = Return (Sample.descriptor "two")
  /\ fst (rename_tmp staged (snd (rename_tmp staged (snd second)))) = Throw ENOENT.
Proof. vm_compute. repeat split; reflexivity. Qed.

(** ** The artifact store and the upload *)

Section UploadFacts.

Context {rt : Runtime}.

Lemma same_files_holds (changed : list (list string)) (fs fs' : filesystem) (p d : string) :
  same_files_but changed fs fs' -> ~ In (FS.at_path fs p) changed ->
  (holds fs' p d <-> holds fs p d).
Proof.
  intros [C F] H. unfold holds. rewrite (at_path_cwd fs fs' p C). apply F. exact H.
Qed.

Lemma saveTarball_returns (base pkg filename buffer p : string) (fs fs' : filesystem) :
  saveTarball base pkg filename buffer fs = (Return p, fs') ->
  p = tarballPath_of base pkg filename
  /\ holds fs' p buffer
  /\ same_files_but [FS.at_path fs p] fs fs'.
Proof.
  unfold saveTarball. intros H.
  step H. apply ensurePackageDir_returns in Hstep. destruct Hstep as [-> S0].
  step H. apply mutate_returns in Hstep. apply writeFile_files in Hstep.
  destruct Hstep as [W S1].
  apply ret_returns in H. destruct H as [<- <-].
  fold (tarballPath_of base pkg filename) in *.
  split; [reflexivity|]. split; [exact W|].
  pose proof (same_files_trans S0 S1) as S. cbn [app] in S.
  rewrite (at_path_cwd fs fs0) in S by apply S0. exact S.
Qed.

Lemma descriptor_of_files (base pkg : string) (fs fs' : filesystem) :
  (forall d, holds fs' (metaPath_of base pkg) d <-> holds fs (metaPath_of base pkg) d) ->
  descriptor_of base pkg fs' = descriptor_of base pkg fs.
Proof.
  intros H. unfold descriptor_of, readPackageMeta.
  fold (pkgDir_of base pkg). fold (metaPath_of base pkg). cbn [fst].
  destruct (FS.readFile fs (metaPath_of base pkg)) as [d|e] eqn:E.
  - apply readFile_holds in E. apply H in E. apply readFile_holds in E. rewrite E. reflexivity.
  - destruct (FS.readFile fs' (metaPath_of base pkg)) as [d'|e'] eqn:E'; [|reflexivity].
    apply readFile_holds in E'. apply H in E'. apply readFile_holds in E'. congruence.
Qed.

Lemma readPackageMeta_descriptor (base pkg : string) (fs : filesystem) :
  readPackageMeta base pkg fs = (Return (descriptor_of base pkg fs), fs).
Proof.
  unfold descriptor_of, readPackageMeta. cbn [fst].
  destruct (FS.readFile fs _); [destruct (JSON_parse _)|]; reflexivity.
Qed.

(** An upload that is answered with status 201 has stored the tarball,
    has recorded it in the descriptor that it found for the package (or
    in a fresh one), and has written that descriptor. *)
Lemma put_tarball_created (STORAGE_DIR pkg filename : string)
      (file : option string) (chunks : outcome (list string))
      (protocol : string) (host : option string) (now : Z)
      (fs fs' : filesystem) (r : response) :
  put_tarball STORAGE_DIR pkg filename file chunks protocol host now fs = (r, fs') ->
  status r = 201 ->
  exists dataBuffer meta,
    request_tarball file chunks = Some dataBuffer
    /\ record_tarball (or_else (descriptor_of STORAGE_DIR pkg fs) (empty_descriptor pkg))
                      (tarball_url protocol host pkg filename) = Return meta
    /\ holds fs' (metaPath_of STORAGE_DIR pkg)
             (utf8_encode (JSON_stringify (Object_assign meta)))
    /\ holds fs' (tarballPath_of STORAGE_DIR pkg filename) dataBuffer.
Proof.
  unfold put_tarball. intros H Hs.
  destruct (request_tarball file chunks) as [dataBuffer|].
  2:{ inversion H; subst. discriminate Hs. }
  exists dataBuffer. unfold respond in H.
  match type of H with
  | (match ?m fs with _ => _ end) = _ => destruct (m fs) as [[r0|e] fs0] eqn:E
  end.
  2:{ inversion H; subst. discriminate Hs. }
  inversion H; subst; clear H.
  step E. apply ensurePackageDir_returns in Hstep. destruct Hstep as [_ S0].
  step E. apply saveTarball_returns in Hstep. destruct Hstep as [-> [T S1]].
  step E. rewrite readPackageMeta_descriptor in Hstep. inversion Hstep; subst; clear Hstep.
  step E. unfold lift in Hstep. inversion Hstep; subst; clear Hstep.
  step E. apply writePackageMeta_returns in Hstep. destruct Hstep as [-> [M S2]].
  apply ret_returns in E. destruct E as [_ <-].
  assert (D : descriptor_of STORAGE_DIR pkg fs1 = descriptor_of STORAGE_DIR pkg fs).
  { apply descriptor_of_files. intros d.
    rewrite (same_files_holds _ _ _ _ d S1).
    - apply (same_files_holds _ _ _ _ d S0). intros [].
    - rewrite !(at_path_cwd fs fs0) by apply S0.
      intros [E|[]].
      exact (StorePaths.tarball_not_meta (cwd fs) STORAGE_DIR pkg filename E). }
  exists a0. rewrite <- D. split; [reflexivity|]. split; [exact H0|]. split; [exact M|].
  apply (same_files_holds _ _ _ _ dataBuffer S2); [|exact T].
  assert (C : cwd fs1 = cwd fs) by (destruct S0 as [C0 _], S1 as [C1 _]; congruence).
  rewrite !(at_path_cwd fs fs1) by exact C.
  intros [E|[E|[]]].
  - symmetry in E. exact (StorePaths.tarball_not_tmp (cwd fs) STORAGE_DIR pkg filename now E).
  - symmetry in E. exact (StorePaths.tarball_not_meta (cwd fs) STORAGE_DIR pkg filename E).
Qed.

End UploadFacts.

(** ** Recording a tarball in a descriptor *)

Lemma own_get_set (k k' : string) (x : value) (ps : props) :
  own_get k' (own_set k x ps) = if String.eqb k' k then Some x else own_get k' ps.
Proof.
  induction ps as [|[n y] r IH]; cbn.
  - destruct (String.eqb k' k); reflexivity.
  - destruct (String.eqb_spec k n) as [->|Hkn]; cbn.
    + destruct (String.eqb k' n); reflexivity.
    + rewrite IH. destruct (String.eqb_spec k' n) as [->|]; [|reflexivity].
      destruct (String.eqb_spec n k); [congruence | reflexivity].
Qed.

Lemma own_set_set (k : string) (x y : value) (ps : props) :
  own_set k y (own_set k x ps) = own_set k y ps.
Proof.
  induction ps as [|[n z] r IH]; cbn.
  - rewrite String.eqb_refl. reflexivity.
  - destruct (String.eqb k n) eqn:E; cbn.
    + rewrite String.eqb_refl. reflexivity.
    + rewrite E, IH. reflexivity.
Qed.

Lemma field_set (k k' : string) (x : value) (ps : props) :
  field (VObj (own_set k x ps)) k' = if String.eqb k' k then x else field (VObj ps) k'.
Proof. unfold field. rewrite own_get_set. destruct (String.eqb k' k); reflexivity. Qed.

Lemma field_props_of (v : value) (k : string) : field (VObj (props_of v)) k = field v k.
Proof. destruct v; reflexivity. Qed.

Lemma inherited_not_proto (k : string) :
  inherited k = false -> String.eqb k "__proto__" = false.
Proof.
  intros H. destruct (String.eqb_spec k "__proto__") as [->|]; [discriminate H | reflexivity].
Qed.

Lemma getProp_own (ps : props) (k : string) :
  inherited k = false -> getProp (VObj ps) k = Return (field (VObj ps) k).
Proof.
  intros H. unfold getProp, field, from_proto. rewrite H.
  destruct (own_get k ps); reflexivity.
Qed.

Lemma setProp_own (ps : props) (k : string) (x : value) :
  inherited k = false -> setProp (VObj ps) k x = Return (VObj (own_set k x ps)).
Proof.
  intros H. unfold setProp. rewrite (inherited_not_proto k H). reflexivity.
Qed.

Lemma in_place_own (ps : props) (k : string) (c : value) (f : value -> outcome value) :
  own_get k ps = Some c ->
  in_place (VObj ps) k f
  = bind (f c) (fun c' => Return (VObj (own_set k c' ps))).
Proof.
  intros H. unfold in_place, getProp, held, own_has. rewrite H. reflexivity.
Qed.

Lemma or_else_mapping (v : value) :
  mapping_or_nothing v = true -> or_else v (VObj []) = VObj (props_of v).
Proof.
  unfold or_else. destruct v; cbn; intros H; try reflexivity;
    try (apply negb_true_iff in H; rewrite H; reflexivity); discriminate H.
Qed.

Example toString_array :
  toString (VArr [VNum 2; VNull; VStr "x"; VArr [VBool true; VObj []] []] [])
  = Return "2,,x,true,[object Object]".
Proof. reflexivity. Qed.

(** A document can hold a property in the place of the method that
    converts an object; the conversion of that object throws. *)
Example toString_shadowed :
  toString (VObj [("toString", VStr "1.0.0")]) = Throw TypeError.
Proof. reflexivity. Qed.

Lemma resolve_version_mapping (m : props) :
  mapping_or_nothing (field (VObj m) "dist-tags") = true ->
  resolve_version (VObj m)
  = Return (or_else (field (field (VObj m) "dist-tags") "latest") (VStr "0.0.0")).
Proof.
  intros H. unfold resolve_version.
  rewrite (getProp_own m "dist-tags") by reflexivity. cbn [bind].
  set (tags := field (VObj m) "dist-tags") in *.
  destruct (truthy tags) eqn:T.
  - unfold mapping_or_nothing in H.
    destruct tags as [| |b|n|s|items extra|ps|]; try (rewrite T in H; discriminate H).
    rewrite (getProp_own ps "latest") by reflexivity. cbn [bind].
    unfold or_else. destruct (truthy (field (VObj ps) "latest")); reflexivity.
  - cbn [bind]. rewrite T.
    destruct tags; try discriminate T; reflexivity.
Qed.

(** The descriptor that the statements of the upload leave, when what
    they walk through is made of mappings. *)
Lemma record_tarball_mapping (m : props) (url key : string) :
  let meta := VObj m in
  let versions := props_of (field meta "versions") in
  let record := props_of (field (VObj versions) key) in
  let dist := props_of (field (VObj record) "dist") in
  toString (or_else (field (field meta "dist-tags") "latest") (VStr "0.0.0")) = Return key ->
  mapping_or_nothing (field meta "dist-tags") = true ->
  mapping_or_nothing (field meta "versions") = true ->
  mapping_or_nothing (field (VObj versions) key) = true ->
  mapping_or_nothing (field (VObj record) "dist") = true ->
  inherited key = false ->
  record_tarball meta url
  = Return (VObj (own_set "versions"
                    (VObj (own_set key
                             (VObj (own_set "dist"
                                      (VObj (own_set "tarball" (VStr url) dist))
                                      record))
                             versions))
                    m)).
Proof.
  intros meta versions record dist. subst meta. intros Hc Ht Hv Hr Hd Hk.
  unfold record_tarball, default_object.
  rewrite (getProp_own m "versions") by reflexivity. cbn [bind].
  rewrite (setProp_own m "versions") by reflexivity. cbn [bind].
  rewrite (or_else_mapping _ Hv). fold versions.
  rewrite resolve_version_mapping.
  2:{ rewrite field_set. exact Ht. }
  cbn [bind]. rewrite !field_set. cbn [String.eqb Ascii.eqb Bool.eqb].
  rewrite Hc. cbn [bind].
  assert (G : own_get "versions" (own_set "versions" (VObj versions) m) = Some (VObj versions))
    by (rewrite own_get_set; reflexivity).
  rewrite (in_place_own _ "versions" _ _ G).
  rewrite (getProp_own versions key Hk). cbn [bind].
  rewrite (setProp_own versions key _ Hk). cbn [bind].
  rewrite (or_else_mapping _ Hr). fold record.
  rewrite own_set_set.
  assert (G1 : forall x, own_get "versions" (own_set "versions" x m) = Some x)
    by (intros x; rewrite own_get_set; reflexivity).
  assert (G2 : forall x, own_get key (own_set key x versions) = Some x)
    by (intros x; rewrite own_get_set, String.eqb_refl; reflexivity).
  rewrite (in_place_own _ "versions" _ _ (G1 _)).
  rewrite (in_place_own _ key _ _ (G2 _)).
  rewrite (getProp_own record "dist") by reflexivity. cbn [bind].
  rewrite (setProp_own record "dist") by reflexivity. cbn [bind].
  rewrite (or_else_mapping _ Hd). fold dist.
  rewrite !own_set_set.
  rewrite (in_place_own _ "versions" _ _ (G1 _)).
  rewrite (in_place_own _ key _ _ (G2 _)).
  assert (G3 : forall x, own_get "dist" (own_set "dist" x record) = Some x)
    by (intros x; rewrite own_get_set; reflexivity).
  rewrite (in_place_own _ "dist" _ _ (G3 _)).
  rewrite (setProp_own dist "tarball") by reflexivity. cbn [bind].
  rewrite !own_set_set. reflexivity.
Qed.

Lemma with_tarball_tarball (m : props) (key url : string) :
  field (field (field (field (with_tarball m key url) "versions") key) "dist") "tarball"
  = VStr url.
Proof.
  unfold with_tarball. rewrite field_set. cbn [String.eqb Ascii.eqb Bool.eqb].
  rewrite field_set, String.eqb_refl. rewrite field_set. cbn [String.eqb Ascii.eqb Bool.eqb].
  rewrite field_set. reflexivity.
Qed.

Lemma with_tarball_fields (m : props) (key url k : string) :
  k <> "versions" -> field (with_tarball m key url) k = field (VObj m) k.
Proof.
  intros H. unfold with_tarball. rewrite field_set.
  destruct (String.eqb_spec k "versions"); [contradiction | reflexivity].
Qed.

Lemma with_tarball_versions (m : props) (key url k : string) :
  k <> key ->
  field (field (with_tarball m key url) "versions") k = field (field (VObj m) "versions") k.
Proof.
  intros H. unfold with_tarball. rewrite field_set. cbn [String.eqb Ascii.eqb Bool.eqb].
  rewrite field_set. destruct (String.eqb_spec k key); [contradiction|].
  apply field_props_of.
Qed.

Lemma with_tarball_record (m : props) (key url f : string) :
  f <> "dist" ->
  field (field (field (with_tarball m key url) "versions") key) f
  = field (field (field (VObj m) "versions") key) f.
Proof.
  intros H. unfold with_tarball. rewrite field_set. cbn [String.eqb Ascii.eqb Bool.eqb].
  rewrite field_set, String.eqb_refl, field_set.
  destruct (String.eqb_spec f "dist"); [contradiction|].
  apply field_props_of.
Qed.

Lemma with_tarball_dist (m : props) (key url f : string) :
  f <> "tarball" ->
  field (field (field (field (with_tarball m key url) "versions") key) "dist") f
  = field (field (field (field (VObj m) "versions") key) "dist") f.
Proof.
  intros H. unfold with_tarball. rewrite field_set. cbn [String.eqb Ascii.eqb Bool.eqb].
  rewrite field_set, String.eqb_refl, field_set. cbn [String.eqb Ascii.eqb Bool.eqb].
  rewrite field_set. destruct (String.eqb_spec f "tarball"); [contradiction|].
  apply field_props_of.
Qed.

Lemma with_tarball_keys (m : props) (key url : string) :
  NoDup (List.map fst m) -> NoDup (List.map fst (props_of (with_tarball m key url))).
Proof. intros H. unfold with_tarball. cbn [props_of]. apply own_set_keys. exact H. Qed.

Lemma record_tarball_walks (m : props) (url key : string) (latest : value) :
  field (field (VObj m) "dist-tags") "latest" = latest ->
  toString (or_else latest (VStr "0.0.0")) = Return key ->
  walks_mappings m key -> inherited key = false ->
  record_tarball (VObj m) url = Return (with_tarball m key url).
Proof.
  intros L Hc [Ht [Hv [Hr Hd]]] Hk.
  pose proof (record_tarball_mapping m url key) as R. cbv zeta in R.
  rewrite L in R. rewrite !field_props_of in R. apply R; assumption.
Qed.

Section UploadClaims.

Context {rt : Runtime}.
Variables STORAGE_DIR pkg filename : string.
Variable file : option string.
Variable chunks : outcome (list string).
Variable protocol : string.
Variable host : option string.
Variable now : Z.
Variables fs fs' : filesystem.
Variable r : response.

Hypothesis upload :
  put_tarball STORAGE_DIR pkg filename file chunks protocol host now fs = (r, fs').
Hypothesis created : status r = 201.

Let url : string := tarball_url protocol host pkg filename.

(** An upload that finds a descriptor made of mappings writes that
    descriptor with the tarball recorded. *)
Lemma put_tarball_walks (m : props) (latest : value) (key : string) :
  or_else (descriptor_of STORAGE_DIR pkg fs) (empty_descriptor pkg) = VObj m ->
  field (field (VObj m) "dist-tags") "latest" = latest ->
  toString (or_else latest (VStr "0.0.0")) = Return key ->
  walks_mappings m key -> inherited key = false ->
  record_tarball (VObj m) url = Return (with_tarball m key url)
  /\ holds fs' (metaPath_of STORAGE_DIR pkg)
           (utf8_encode (JSON_stringify (Object_assign (with_tarball m key url))))
  /\ exists dataBuffer,
       request_tarball file chunks = Some dataBuffer
       /\ holds fs' (tarballPath_of STORAGE_DIR pkg filename) dataBuffer.
Proof.
  intros D L Hc W K.
  destruct (put_tarball_created _ _ _ _ _ _ _ _ _ _ _ upload created)
    as [dataBuffer [meta [B [R [M T]]]]].
  rewrite D in R. fold url in R.
  pose proof (record_tarball_walks m url key latest L Hc W K) as R'.
  rewrite R' in R. inversion R; subst meta.
  split; [exact R'|]. split; [exact M|]. exists dataBuffer. split; assumption.
Qed.

End UploadClaims.

(** ** The claims on uploads *)

(** C5, as the code has it. An upload that is answered with status 201,
    for a descriptor made of mappings, records the tarball under
    [versions[latest]] when [dist-tags.latest] counts as true (a string
    that is not empty), and under [versions["0.0.0"]] when it is absent
    or counts as false; no other entry of [versions] is made or changed.
    [key] is the property name that the version converts to. *)
Theorem upload_resolves_version {rt : Runtime} (STORAGE_DIR pkg filename : string)
        (file : option string) (chunks : outcome (list string))
        (protocol : string) (host : option string) (now : Z)
        (fs fs' : filesystem) (r : response) (m : props) (latest : value)
        (key : string) :
  put_tarball STORAGE_DIR pkg filename file chunks protocol host now fs = (r, fs') ->
  status r = 201 ->
  or_else (descriptor_of STORAGE_DIR pkg fs) (empty_descriptor pkg) = VObj m ->
  NoDup (List.map fst m) ->
  field (field (VObj m) "dist-tags") "latest" = latest ->
  toString (if truthy latest then latest else VStr "0.0.0") = Return key ->
  walks_mappings m key ->
  inherited key = false ->
  exists persisted,
    holds fs' (metaPath_of STORAGE_DIR pkg) (utf8_encode (JSON_stringify persisted))
    /\ field (field (field (field persisted "versions") key) "dist") "tarball"
       = VStr (tarball_url protocol host pkg filename)
    /\ forall k, k <> key ->
         field (field persisted "versions") k = field (field (VObj m) "versions") k.
Proof.
  intros U C D Hnd L Hc W K.
  destruct (put_tarball_walks _ _ _ _ _ _ _ _ _ _ _ U C m latest key D L Hc W K) as [_ [M _]].
  exists (Object_assign (with_tarball m key (tarball_url protocol host pkg filename))).
  split; [exact M|].
  assert (V : forall u, field (Object_assign (with_tarball m key u)) "versions"
                        = field (with_tarball m key u) "versions").
  { intros u. pose proof (with_tarball_keys m key u Hnd) as N.
    unfold with_tarball in N |- *. cbn [props_of] in N.
    apply field_Object_assign; [exact N | reflexivity]. }
  rewrite V. split.
  - apply with_tarball_tarball.
  - intros k Hk. apply with_tarball_versions. exact Hk.
Qed.

Lemma upload_resolves_version_witness :
  exists persisted,
    holds (snd (Sample.upload MiniRuntime.runtime
                  (Sample.published MiniRuntime.runtime Sample.tagged_descriptor)))
          (metaPath_of Sample.STORAGE_DIR "left-pad")
          (MiniRuntime.encode (MiniRuntime.stringify persisted))
    /\ field (field (field (field persisted "versions") "2.1.0") "dist") "tarball"
       = VStr "http://localhost:4873/left-pad/-/left-pad-1.0.0.tgz"
    /\ forall k, k <> "2.1.0" ->
         field (field persisted "versions") k
         = field (field Sample.tagged_descriptor "versions") k.
Proof.
  apply (upload_resolves_version (rt:=MiniRuntime.runtime)
           Sample.STORAGE_DIR "left-pad" "left-pad-1.0.0.tgz" (Some "tarball bytes")
           (Return []) "http" (Some "localhost:4873") (Sample.clock + 1)
           (Sample.published MiniRuntime.runtime Sample.tagged_descriptor)
           (snd (Sample.upload MiniRuntime.runtime
                   (Sample.published MiniRuntime.runtime Sample.tagged_descriptor)))
           (fst (Sample.upload MiniRuntime.runtime
                   (Sample.published MiniRuntime.runtime Sample.tagged_descriptor)))
           [("name", VStr "left-pad");
            ("dist-tags", VObj [("latest", VStr "2.1.0")]);
            ("versions", VObj [("2.1.0", VObj [("description", VStr "pads")])])]
           (VStr "2.1.0") "2.1.0").
  - apply surjective_pairing.
  - vm_compute. reflexivity.
  - vm_compute. reflexivity.
  - repeat constructor; cbn; intuition discriminate.
  - reflexivity.
  - reflexivity.
  - repeat split.
  - reflexivity.
Defined.

(** A [latest] entry that the upload does not follow: a descriptor
    whose [dist-tags.latest] is the empty string has a [latest] entry,
    and the upload records the tarball under [versions["0.0.0"]], not
    under the version that the entry names. *)
Lemma upload_ignores_empty_latest :
  let rt := MiniRuntime.runtime in
  let before := Sample.published rt Sample.untagged_descriptor in
  let after := snd (Sample.upload rt before) in
  own_get "latest" (props_of (field (descriptor_of Sample.STORAGE_DIR "left-pad" before)
                                    "dist-tags")) = Some (VStr "")
  /\ status (fst (Sample.upload rt before)) = 201
  /\ field (field (descriptor_of Sample.STORAGE_DIR "left-pad" after) "versions") ""
     = VUndef
  /\ field (field (field (field (descriptor_of Sample.STORAGE_DIR "left-pad" after)
                                "versions") "0.0.0") "dist") "tarball"
     = VStr "http://localhost:4873/left-pad/-/left-pad-1.0.0.tgz".
Proof. vm_compute. repeat split; reflexivity. Qed.

Lemma getTarballPath_holds (base pkg filename data : string) (fs : filesystem) :
  holds fs (tarballPath_of base pkg filename) data ->
  exists p, getTarballPath base pkg filename fs = (Return (Some p), fs)
            /\ FS.readFile fs p = Return data.
Proof.
  intros H. exists (Path.join [pkgDir_of base pkg; "tarballs"; sanitizeFilename filename]).
  assert (A : FS.at_path fs (Path.join [pkgDir_of base pkg; "tarballs"; sanitizeFilename filename])
              = FS.at_path fs (tarballPath_of base pkg filename))
    by apply StorePaths.resolve_getTarballPath.
  unfold holds, FS.file_at in H. split.
  - unfold getTarballPath, FS.access. fold (pkgDir_of base pkg). rewrite A, H. reflexivity.
  - unfold FS.readFile. rewrite A, H. reflexivity.
Qed.

Example upload_left_pad :
  Sample.upload MiniRuntime.runtime Sample.disk
  = ({| status := 201;
        json := VObj [("ok", VBool true); ("filename", VStr "left-pad-1.0.0.tgz")] |},
     snd (Sample.upload MiniRuntime.runtime Sample.disk))
  /\ descriptor_of (rt:=MiniRuntime.runtime) Sample.STORAGE_DIR "left-pad"
       (snd (Sample.upload MiniRuntime.runtime Sample.disk))
     = VObj [("name", VStr "left-pad");
             ("versions",
              VObj [("0.0.0",
                     VObj [("dist",
                            VObj [("tarball",
                                   VStr "http://localhost:4873/left-pad/-/left-pad-1.0.0.tgz")])])])]
  /\ FS.readFile (snd (Sample.upload MiniRuntime.runtime Sample.disk))
                 "/srv/storage/packages/left-pad/tarballs/left-pad-1.0.0.tgz"
     = Return "tarball bytes".
Proof. vm_compute. repeat split; reflexivity. Qed.

Example escaped_locator :
  tarball_url "https" (Some "registry.test") "@scope/b" "b 1.tgz"
  = "https://registry.test/%40scope%2Fb/-/b%201.tgz".
Proof. reflexivity. Qed.

(** ** When a write and an upload go through *)

Lemma io_bind_run {A B : Type} (m : io A) (f : A -> io B) (fs fs1 : filesystem) (a : A) :
  m fs = (Return a, fs1) -> io_bind m f fs = f a fs1.
Proof. intros H. unfold io_bind. rewrite H. reflexivity. Qed.


Lemma is_prefix_shorter (R x : list string) (k : string) :
  FS.is_prefix (R ++ k :: x) R = false.
Proof. induction R as [|j R IH]; [reflexivity|]. cbn. rewrite String.eqb_refl. exact IH. Qed.


Lemma lookup_parent (p : list string) (k : string) (n x : node) :
  FS.lookup n (p ++ [k]) = Return x -> exists es, FS.lookup n p = Return (Dir es).
Proof.
  rewrite FSFacts.lookup_app. destruct (FS.lookup n p) as [[d|es]|e]; cbn; intros H.
  - discriminate H.
  - eexists; reflexivity.
  - discriminate H.
Qed.

Section Directories.

Variables base pkg : string.
Variable c : list string.

Let R : list string := Path.resolve c (pkgDir_of base pkg).

Let settled : node -> Prop := has_directories base pkg c.


Lemma ensure_again (n : node) :
  settled n ->
  ensurePackageDir base pkg {| cwd := c; root := n |}
  = (Return (pkgDir_of base pkg), {| cwd := c; root := n |}).
Proof.
  intros [[es1 E1] [es2 E2]]. fold R in E1, E2.
  unfold ensurePackageDir. fold (pkgDir_of base pkg).
  unfold io_bind, mutate, FS.mkdir_recursive, FS.at_path. cbn [cwd root].
  fold R. rewrite (FSFacts.mkdir_p_existing _ _ _ E1). cbn [FS.with_root cwd root].
  rewrite (StorePaths.resolve_tarballs c base pkg). fold R.
  rewrite (FSFacts.mkdir_p_existing _ _ _ E2). reflexivity.
Qed.


Lemma sanitizeFilename_no_slash (name : string) :
  Path.no_slash (sanitizeFilename name) = true.
Proof.
  unfold sanitizeFilename. induction (Str.remove_dotdot name) as [|ch r IH]; [reflexivity|].
  cbn [Str.map Path.no_slash]. rewrite IH, andb_true_r.
  unfold is_separator. destruct (Ascii.eqb_spec ch "/") as [->|Hc]; [reflexivity|].
  cbn [orb]. destruct (Ascii.eqb ch "\"); [reflexivity|].
  unfold Path.slash. destruct (Ascii.eqb_spec ch "/"); [contradiction | reflexivity].
Qed.

Lemma sanitizeFilename_plain (name : string) :
  Path.is_blank (sanitizeFilename name) = false -> Path.plain (sanitizeFilename name).
Proof.
  intros B. split; [exact B|]. split; [|apply sanitizeFilename_no_slash].
  pose proof (sanitizeFilename_clean name) as C.
  destruct (String.eqb_spec (sanitizeFilename name) "..") as [E|]; [|reflexivity].
  rewrite E in C. discriminate C.
Qed.


Lemma tmp_not_meta (now : Z) : String.eqb (tmp_entry now) "meta.json" = false.
Proof. reflexivity. Qed.


End Directories.



(** What the upload walks through in an empty descriptor, or in the
    fresh one that stands for an absent descriptor, is made of mappings,
    and it has no latest version. *)
Lemma absent_or_empty_walks (pkg : string) (d : value) :
  absent_or_empty d ->
  exists m,
    or_else d (empty_descriptor pkg) = VObj m
    /\ NoDup (List.map fst m)
    /\ field (field (VObj m) "dist-tags") "latest" = VUndef
    /\ walks_mappings m "0.0.0".
Proof.
  intros [D | [m [D [Hnd [T V]]]]]; rewrite D.
  - exists [("name", VStr pkg); ("versions", VObj [])].
    split; [reflexivity|]. split; [|split; [reflexivity | repeat split]].
    repeat constructor; cbn; intuition discriminate.
  - exists m. split; [reflexivity|]. split; [exact Hnd|].
    unfold walks_mappings. rewrite T.
    destruct V as [V|V]; rewrite V; repeat split; reflexivity.
Qed.

(** C6. An upload that is answered with status 201, for a package whose
    descriptor is absent or empty ([{}] and [{ name, versions: {} }]
    among the empty ones), has written a descriptor whose
    [versions["0.0.0"].dist.tarball] is the locator
    [<protocol>://<host>/<escaped package>/-/<escaped file name>], after
    which [getTarballPath] gives a path whose file holds exactly the
    bytes of the request. *)
Theorem upload_binds_fallback_version {rt : Runtime} (STORAGE_DIR pkg filename : string)
        (file : option string) (chunks : outcome (list string))
        (protocol : string) (host : option string) (now : Z)
        (fs fs' : filesystem) (r : response) :
  put_tarball STORAGE_DIR pkg filename file chunks protocol host now fs = (r, fs') ->
  status r = 201 ->
  absent_or_empty (descriptor_of STORAGE_DIR pkg fs) ->
  exists persisted dataBuffer p,
    request_tarball file chunks = Some dataBuffer
    /\ holds fs' (metaPath_of STORAGE_DIR pkg) (utf8_encode (JSON_stringify persisted))
    /\ field (field (field (field persisted "versions") "0.0.0") "dist") "tarball"
       = VStr (protocol ++ "://" ++ match host with Some h => h | None => "undefined" end
                        ++ "/" ++ encodeURIComponent pkg
                        ++ "/-/" ++ encodeURIComponent filename)
    /\ getTarballPath STORAGE_DIR pkg filename fs' = (Return (Some p), fs')
    /\ FS.readFile fs' p = Return dataBuffer.
Proof.
  intros U C D.
  destruct (absent_or_empty_walks pkg _ D) as [m [E [Hnd [L W]]]].
  destruct (put_tarball_walks _ _ _ _ _ _ _ _ _ _ _ U C m VUndef "0.0.0" E L eq_refl W eq_refl)
    as [_ [M [dataBuffer [B T]]]].
  destruct (getTarballPath_holds _ _ _ _ _ T) as [p [P1 P2]].
  exists (Object_assign (with_tarball m "0.0.0" (tarball_url protocol host pkg filename))),
         dataBuffer, p.
  split; [exact B|]. split; [exact M|]. split; [|split; assumption].
  pose proof (with_tarball_keys m "0.0.0" (tarball_url protocol host pkg filename) Hnd) as N.
  unfold with_tarball in N. cbn [props_of] in N.
  unfold with_tarball at 1.
  rewrite (field_Object_assign _ "versions" N eq_refl).
  apply with_tarball_tarball.
Qed.

(** The upload of the example, for a package whose stored descriptor is
    [{ name: "left-pad", versions: {} }]. *)
Lemma upload_binds_fallback_version_witness :
  let fs := Sample.published MiniRuntime.runtime Sample.bare_descriptor in
  exists persisted dataBuffer p,
    request_tarball (Some "tarball bytes") (Return []) = Some dataBuffer
    /\ holds (snd (Sample.upload MiniRuntime.runtime fs))
             (metaPath_of Sample.STORAGE_DIR "left-pad")
             (MiniRuntime.encode (MiniRuntime.stringify persisted))
    /\ field (field (field (field persisted "versions") "0.0.0") "dist") "tarball"
       = VStr "http://localhost:4873/left-pad/-/left-pad-1.0.0.tgz"
    /\ getTarballPath Sample.STORAGE_DIR "left-pad" "left-pad-1.0.0.tgz"
                      (snd (Sample.upload MiniRuntime.runtime fs))
       = (Return (Some p), snd (Sample.upload MiniRuntime.runtime fs))
    /\ FS.readFile (snd (Sample.upload MiniRuntime.runtime fs)) p = Return dataBuffer.
Proof.
  apply (upload_binds_fallback_version (rt:=MiniRuntime.runtime)
           Sample.STORAGE_DIR "left-pad" "left-pad-1.0.0.tgz" (Some "tarball bytes")
           (Return []) "http" (Some "localhost:4873") (Sample.clock + 1)
           (Sample.published MiniRuntime.runtime Sample.bare_descriptor)
           (snd (Sample.upload MiniRuntime.runtime
                   (Sample.published MiniRuntime.runtime Sample.bare_descriptor)))
           (fst (Sample.upload MiniRuntime.runtime
                   (Sample.published MiniRuntime.runtime Sample.bare_descriptor)))).
  - apply surjective_pairing.
  - vm_compute. reflexivity.
  - right. exists [("name", VStr "left-pad"); ("versions", VObj [])].
    split; [vm_compute; reflexivity|]. split; [|split; [reflexivity | right; reflexivity]].
    repeat constructor; cbn; intuition discriminate.
Defined.

(** The same upload, for a package that has no descriptor and for one
    whose descriptor is [{}]. *)
Example upload_to_absent_descriptor :
  descriptor_of (rt:=MiniRuntime.runtime) Sample.STORAGE_DIR "left-pad" Sample.disk = VNull
  /\ status (fst (Sample.upload MiniRuntime.runtime Sample.disk)) = 201
  /\ field (field (field (field
        (descriptor_of (rt:=MiniRuntime.runtime) Sample.STORAGE_DIR "left-pad"
           (snd (Sample.upload MiniRuntime.runtime Sample.disk)))
        "versions") "0.0.0") "dist") "tarball"
     = VStr "http://localhost:4873/left-pad/-/left-pad-1.0.0.tgz".
Proof. vm_compute. repeat split; reflexivity. Qed.

Example upload_to_blank_descriptor :
  let fs := Sample.published MiniRuntime.runtime (VObj []) in
  descriptor_of (rt:=MiniRuntime.runtime) Sample.STORAGE_DIR "left-pad" fs = VObj []
  /\ status (fst (Sample.upload MiniRuntime.runtime fs)) = 201
  /\ descriptor_of (rt:=MiniRuntime.runtime) Sample.STORAGE_DIR "left-pad"
       (snd (Sample.upload MiniRuntime.runtime fs))
     = VObj [("versions",
              VObj [("0.0.0",
                     VObj [("dist",
                            VObj [("tarball",
                                   VStr "http://localhost:4873/left-pad/-/left-pad-1.0.0.tgz")])])])].
Proof. vm_compute. repeat split; reflexivity. Qed.

(** ** What the statements of the upload leave as it was *)

Lemma array_index_inj (k k' : string) (i : nat) :
  array_index k = Some i -> array_index k' = Some i -> k = k'.
Proof.
  unfold array_index. intros H H'.
  destruct (DecimalString.NilZero.uint_of_string k) as [u|]; [|discriminate].
  destruct (DecimalString.NilZero.uint_of_string k') as [u'|]; [|discriminate].
  destruct (String.eqb_spec (string_of_N (N.of_uint u)) k) as [E|]; [|discriminate].
  destruct (String.eqb_spec (string_of_N (N.of_uint u')) k') as [E'|]; [|discriminate].
  cbn [andb] in H, H'.
  destruct (N.of_uint u <? 4294967295)%N; [|discriminate].
  destruct (N.of_uint u' <? 4294967295)%N; [|discriminate].
  inversion H as [H1]. inversion H' as [H2]. rewrite <- H2 in H1.
  apply N2Nat.inj in H1. rewrite <- E, <- E', H1. reflexivity.
Qed.

Lemma nth_set_nth_same (i : nat) (x : value) (items : list value) :
  nth i (set_nth i x items) VUndef = x.
Proof.
  revert items. induction i as [|i IH]; intros [|y r]; cbn; try reflexivity; apply IH.
Qed.

Lemma nth_set_nth_other (i j : nat) (x : value) (items : list value) :
  i <> j -> nth j (set_nth i x items) VUndef = nth j items VUndef.
Proof.
  revert j items. induction i as [|i IH]; intros [|j] [|y r] H; cbn;
    try reflexivity; try contradiction.
  - destruct j; reflexivity.
  - rewrite IH by congruence. destruct j; reflexivity.
  - apply IH. congruence.
Qed.

Lemma own_falsy (y : value) (f : string) : truthy y = false -> own y f = VUndef.
Proof. destruct y; cbn; intros H; try reflexivity; discriminate H. Qed.

Lemma own_or_else (y : value) (f : string) : own (or_else y (VObj [])) f = own y f.
Proof.
  unfold or_else. destruct (truthy y) eqn:T; [reflexivity|].
  rewrite (own_falsy y f T). reflexivity.
Qed.

Lemma own_from_proto (k f : string) : own (or_else (from_proto k) (VObj [])) f = VUndef.
Proof. unfold from_proto. destruct (inherited k); reflexivity. Qed.

(** [v[k] = v[k] || {}] changes no other property of [v], and leaves the
    properties of [v[k]] as they were. *)
Lemma default_object_frame (v v' : value) (k : string) :
  default_object v k = Return v' ->
  (forall k', k' <> k -> own v' k' = own v k')
  /\ (forall f, own (own v' k) f = own (own v k) f).
Proof.
  unfold default_object. intros H.
  destruct v as [| |b|n|s|items extra|ps|]; try (cbn in H; discriminate H).
  - (* a primitive cannot be assigned to *)
    cbn [getProp] in H.
    destruct (array_index k); [destruct (String.get _ s)|destruct (String.eqb k "length")];
      discriminate H.
  - (* an array *)
    cbn [getProp] in H. destruct (array_index k) as [i|] eqn:A.
    + cbn [bind setProp] in H. rewrite A in H. inversion H; subst v'. split.
      * intros k' Hk. cbn [own]. destruct (array_index k') as [j|] eqn:A'; [|reflexivity].
        apply nth_set_nth_other. intros ->. apply Hk. exact (array_index_inj _ _ _ A' A).
      * intros f. cbn [own]. rewrite A, nth_set_nth_same. apply own_or_else.
    + destruct (String.eqb_spec k "length") as [->|Hl].
      * cbn [bind setProp] in H. rewrite A in H. cbn [String.eqb Ascii.eqb Bool.eqb] in H.
        unfold or_else in H. cbn [truthy] in H.
        destruct (negb (Z.of_nat (List.length items) =? 0)%Z); [|discriminate H].
        destruct ((0 <=? Z.of_nat (List.length items))%Z
                  && (Z.of_nat (List.length items) <? 4294967296)%Z); [|discriminate H].
        inversion H; subst v'. rewrite Nat2Z.id, firstn_all, Nat.sub_diag, app_nil_r.
        split; intros; reflexivity.
      * cbn [bind] in H.
        assert (X : forall r, (match own_get k extra with
                               | Some x => Return x
                               | None => Return (from_proto k)
                               end) = Return r ->
                              forall f, own (or_else r (VObj [])) f
                                        = own (own (VArr items extra) k) f).
        { intros r Hr f. cbn [own]. rewrite A.
          destruct (String.eqb_spec k "length"); [contradiction|].
          destruct (own_get k extra); inversion Hr; subst r;
            [apply own_or_else | apply own_from_proto]. }
        destruct (match own_get k extra with
                  | Some x => Return x
                  | None => Return (from_proto k)
                  end) as [r|e] eqn:G; [|discriminate H].
        specialize (X r eq_refl). cbn [bind setProp] in H. rewrite A in H.
        destruct (String.eqb_spec k "length"); [contradiction|].
        destruct (String.eqb k "__proto__" && negb (own_has k extra)).
        -- inversion H; subst v'. split; intros; reflexivity.
        -- inversion H; subst v'. split.
           ++ intros k' Hk. cbn [own]. destruct (array_index k'); [reflexivity|].
              destruct (String.eqb k' "length"); [reflexivity|].
              rewrite own_get_set. destruct (String.eqb_spec k' k); [contradiction|reflexivity].
           ++ intros f. rewrite <- X. cbn [own]. rewrite A.
              destruct (String.eqb_spec k "length"); [contradiction|].
              rewrite own_get_set, String.eqb_refl. reflexivity.
  - (* an object *)
    cbn [getProp] in H.
    assert (X : forall r, (match own_get k ps with
                           | Some x => Return x
                           | None => Return (from_proto k)
                           end) = Return r ->
                          forall f, own (or_else r (VObj [])) f = own (own (VObj ps) k) f).
    { intros r Hr f. cbn [own].
      destruct (own_get k ps); inversion Hr; subst r;
        [apply own_or_else | apply own_from_proto]. }
    destruct (match own_get k ps with
              | Some x => Return x
              | None => Return (from_proto k)
              end) as [r|e] eqn:G; [|discriminate H].
    specialize (X r eq_refl). cbn [bind setProp] in H.
    destruct (String.eqb k "__proto__" && negb (own_has k ps)).
    + inversion H; subst v'. split; intros; reflexivity.
    + inversion H; subst v'. split.
      * intros k' Hk. cbn [own]. rewrite own_get_set.
        destruct (String.eqb_spec k' k); [contradiction|reflexivity].
      * intros f. rewrite <- X. cbn [own]. rewrite own_get_set, String.eqb_refl. reflexivity.
  - (* an object of the runtime *)
    cbn in H. inversion H; subst v'. split; intros; reflexivity.
Qed.

Lemma own_held_other (v : value) (k k' : string) (x : value) :
  k' <> k -> own (held v k x) k' = own v k'.
Proof.
  intros H. destruct v as [| |b|n|s|items extra|ps|]; try reflexivity.
  - cbn [held]. destruct (array_index k) as [i|] eqn:A.
    + destruct (i <? List.length items)%nat; [|reflexivity].
      cbn [own]. destruct (array_index k') as [j|] eqn:A'; [|reflexivity].
      apply nth_set_nth_other. intros ->. apply H. exact (array_index_inj _ _ _ A' A).
    + destruct (own_has k extra); [|reflexivity].
      cbn [own]. destruct (array_index k'); [reflexivity|].
      destruct (String.eqb k' "length"); [reflexivity|].
      rewrite own_get_set. destruct (String.eqb_spec k' k); [contradiction|reflexivity].
  - cbn [held]. destruct (own_has k ps); [|reflexivity].
    cbn [own]. rewrite own_get_set. destruct (String.eqb_spec k' k); [contradiction|reflexivity].
Qed.

Lemma own_held_same (v : value) (k : string) (x : value) :
  owns v k = true -> own (held v k x) k = x.
Proof.
  destruct v as [| |b|n|s|items extra|ps|]; try discriminate.
  - cbn [owns held own]. destruct (array_index k) as [i|] eqn:A.
    + intros ->. cbn [own]. rewrite A. apply nth_set_nth_same.
    + intros H. apply andb_true_iff in H. destruct H as [L O]. rewrite O.
      cbn [own]. rewrite A. apply negb_true_iff in L. rewrite L.
      rewrite own_get_set, String.eqb_refl. reflexivity.
  - cbn [owns held]. intros ->. cbn [own]. rewrite own_get_set, String.eqb_refl. reflexivity.
Qed.

Lemma own_held_not_owned (v : value) (k k' : string) (x : value) :
  owns v k = false -> own (held v k x) k' = own v k'.
Proof.
  destruct v as [| |b|n|s|items extra|ps|]; try reflexivity.
  - cbn [owns held]. destruct (array_index k) as [i|] eqn:A.
    + intros ->. reflexivity.
    + intros H. destruct (own_has k extra); [|reflexivity].
      rewrite andb_true_r in H. apply negb_false_iff in H. apply String.eqb_eq in H. subst k.
      cbn [own]. destruct (array_index k'); [reflexivity|].
      destruct (String.eqb_spec k' "length") as [->|N]; [reflexivity|].
      rewrite own_get_set. destruct (String.eqb_spec k' "length"); [contradiction|reflexivity].
  - cbn [owns held]. intros ->. reflexivity.
Qed.

Lemma getProp_owns (v : value) (k : string) :
  owns v k = true -> getProp v k = Return (own v k).
Proof.
  destruct v as [| |b|n|s|items extra|ps|]; try discriminate.
  - cbn [owns getProp own]. destruct (array_index k); [reflexivity|].
    intros H. apply andb_true_iff in H. destruct H as [L O].
    apply negb_true_iff in L. rewrite L. unfold own_has in O.
    destruct (own_get k extra); [reflexivity | discriminate O].
  - cbn [owns getProp own]. unfold own_has. destruct (own_get k ps); [reflexivity|discriminate].
Qed.

(** A statement that changes [v[k]] in place changes no other property
    of [v]. *)
Lemma in_place_other (v v' : value) (k k' : string) (g : value -> outcome value) :
  in_place v k g = Return v' -> k' <> k -> own v' k' = own v k'.
Proof.
  unfold in_place. intros H Hk.
  destruct (getProp v k) as [c|]; [|discriminate H]. cbn [bind] in H.
  destruct (g c) as [c'|]; [|discriminate H]. cbn [bind] in H.
  inversion H; subst v'. apply own_held_other. exact Hk.
Qed.

(** What such a statement keeps of the object that it changes, it keeps
    of [v[k]]. *)
Lemma in_place_same (Q : value -> value -> Prop) (v v' : value) (k : string)
      (g : value -> outcome value) :
  in_place v k g = Return v' ->
  (forall c, Q c c) ->
  (forall c c', g c = Return c' -> Q c c') ->
  Q (own v k) (own v' k).
Proof.
  unfold in_place. intros H Qr Qg.
  destruct (owns v k) eqn:O.
  - rewrite (getProp_owns v k O) in H. cbn [bind] in H.
    destruct (g (own v k)) as [c'|] eqn:G; [|discriminate H]. cbn [bind] in H.
    inversion H; subst v'. rewrite (own_held_same v k c' O). exact (Qg _ _ G).
  - destruct (getProp v k) as [c|]; [|discriminate H]. cbn [bind] in H.
    destruct (g c) as [c'|]; [|discriminate H]. cbn [bind] in H.
    inversion H; subst v'. rewrite (own_held_not_owned v k k c' O). apply Qr.
Qed.

Lemma setProp_other (v v' : value) (k k' : string) (x : value) :
  setProp v k x = Return v' -> String.eqb k "length" = false -> k' <> k ->
  own v' k' = own v k'.
Proof.
  intros H L Hk. destruct v as [| |b|n|s|items extra|ps|]; try discriminate H.
  - cbn [setProp] in H. destruct (array_index k) as [i|] eqn:A.
    + inversion H; subst v'. cbn [own].
      destruct (array_index k') as [j|] eqn:A'; [|reflexivity].
      apply nth_set_nth_other. intros ->. apply Hk. exact (array_index_inj _ _ _ A' A).
    + rewrite L in H. destruct (String.eqb k "__proto__" && negb (own_has k extra));
        inversion H; subst v'; [reflexivity|].
      cbn [own]. destruct (array_index k'); [reflexivity|].
      destruct (String.eqb k' "length"); [reflexivity|].
      rewrite own_get_set. destruct (String.eqb_spec k' k); [contradiction|reflexivity].
  - cbn [setProp] in H. destruct (String.eqb k "__proto__" && negb (own_has k ps));
      inversion H; subst v'; [reflexivity|].
    cbn [own]. rewrite own_get_set. destruct (String.eqb_spec k' k); [contradiction|reflexivity].
  - cbn in H. inversion H; subst v'. reflexivity.
Qed.

Lemma getProp_after_default (v v' : value) (k k' : string) :
  default_object v k = Return v' -> k' <> k -> String.eqb k "length" = false ->
  array_index k = None -> array_index k' = None ->
  getProp v' k' = getProp v k'.
Proof.
  unfold default_object. intros H Hk L A A'.
  destruct v as [| |b|n|s|items extra|ps|]; try (cbn in H; discriminate H).
  - cbn [getProp] in H. rewrite A, L in H. discriminate H.
  - cbn [getProp] in H. rewrite A, L in H.
    destruct (own_get k extra) as [x|]; cbn [bind setProp] in H; rewrite A, L in H;
      destruct (String.eqb k "__proto__" && negb (own_has k extra));
      inversion H; subst v'; try reflexivity;
      cbn [getProp]; rewrite A', own_get_set;
      destruct (String.eqb_spec k' k); try contradiction; reflexivity.
  - cbn [getProp] in H.
    destruct (own_get k ps) as [x|]; cbn [bind setProp] in H;
      destruct (String.eqb k "__proto__" && negb (own_has k ps));
      inversion H; subst v'; try reflexivity;
      cbn [getProp]; rewrite own_get_set;
      destruct (String.eqb_spec k' k); try contradiction; reflexivity.
  - cbn in H. inversion H; subst v'. reflexivity.
Qed.

Lemma resolve_version_after_default (meta meta1 : value) :
  default_object meta "versions" = Return meta1 ->
  resolve_version meta1 = resolve_version meta.
Proof.
  intros H. unfold resolve_version.
  rewrite (getProp_after_default meta meta1 "versions" "dist-tags" H); try reflexivity.
  discriminate.
Qed.

(** The statements of the upload, whatever the descriptor is made of,
    change [versions[version].dist.tarball] and nothing else. *)
Lemma record_tarball_frame (meta meta' : value) (url : string) :
  record_tarball meta url = Return meta' ->
  exists version key,
    resolve_version meta = Return version
    /\ toString version = Return key
    /\ (forall k, k <> "versions" -> own meta' k = own meta k)
    /\ (forall k, k <> key ->
          own (own meta' "versions") k = own (own meta "versions") k)
    /\ (forall f, f <> "dist" ->
          own (own (own meta' "versions") key) f
          = own (own (own meta "versions") key) f)
    /\ (forall f, f <> "tarball" ->
          own (own (own (own meta' "versions") key) "dist") f
          = own (own (own (own meta "versions") key) "dist") f).
Proof.
  unfold record_tarball. intros H.
  destruct (default_object meta "versions") as [m1|] eqn:S1; [|discriminate H].
  cbn [bind] in H. rewrite (resolve_version_after_default meta m1 S1) in H.
  destruct (resolve_version meta) as [version|]; [|discriminate H].
  cbn [bind] in H.
  destruct (toString version) as [key|] eqn:K; [|discriminate H].
  cbn [bind] in H.
  destruct (in_place m1 "versions" _) as [m3|] eqn:S3; [|discriminate H].
  cbn [bind] in H.
  destruct (in_place m3 "versions" _) as [m4|] eqn:S4; [|discriminate H].
  cbn [bind] in H. rename H into S5.
  destruct (default_object_frame _ _ _ S1) as [D1 D2].
  exists version, key. split; [reflexivity|]. split; [exact K|].
  split; [|split; [|split]].
  - intros k Hk.
    rewrite (in_place_other _ _ _ k _ S5 Hk), (in_place_other _ _ _ k _ S4 Hk),
      (in_place_other _ _ _ k _ S3 Hk).
    exact (D1 k Hk).
  - intros k Hk.
    pose (Q := fun c c' : value => forall k, k <> key -> own c' k = own c k).
    assert (Qr : forall c, Q c c) by (intros c j _; reflexivity).
    assert (P5 : Q (own m4 "versions") (own meta' "versions")).
    { apply (in_place_same Q _ _ _ _ S5 Qr).
      intros c c' G j Hj. exact (in_place_other _ _ _ j _ G Hj). }
    assert (P4 : Q (own m3 "versions") (own m4 "versions")).
    { apply (in_place_same Q _ _ _ _ S4 Qr).
      intros c c' G j Hj. exact (in_place_other _ _ _ j _ G Hj). }
    assert (P3 : Q (own m1 "versions") (own m3 "versions")).
    { apply (in_place_same Q _ _ _ _ S3 Qr).
      intros c c' G j Hj. exact (proj1 (default_object_frame _ _ _ G) j Hj). }
    rewrite (P5 k Hk), (P4 k Hk), (P3 k Hk). apply D2.
  - intros f Hf.
    pose (Q' := fun r r' : value => forall f, f <> "dist" -> own r' f = own r f).
    assert (Qr' : forall r, Q' r r) by (intros r j _; reflexivity).
    pose (Q := fun c c' : value =>
                 forall f, f <> "dist" -> own (own c' key) f = own (own c key) f).
    assert (Qr : forall c, Q c c) by (intros c j _; reflexivity).
    assert (P5 : Q (own m4 "versions") (own meta' "versions")).
    { apply (in_place_same Q _ _ _ _ S5 Qr).
      intros c c' G. apply (in_place_same Q' _ _ _ _ G Qr').
      intros r r' G' j Hj. exact (in_place_other _ _ _ j _ G' Hj). }
    assert (P4 : Q (own m3 "versions") (own m4 "versions")).
    { apply (in_place_same Q _ _ _ _ S4 Qr).
      intros c c' G. apply (in_place_same Q' _ _ _ _ G Qr').
      intros r r' G' j Hj. exact (proj1 (default_object_frame _ _ _ G') j Hj). }
    assert (P3 : Q (own m1 "versions") (own m3 "versions")).
    { apply (in_place_same Q _ _ _ _ S3 Qr).
      intros c c' G j _. exact (proj2 (default_object_frame _ _ _ G) j). }
    rewrite (P5 f Hf), (P4 f Hf), (P3 f Hf), (D2 key). reflexivity.
  - intros f Hf.
    pose (Q'' := fun d d' : value => forall f, f <> "tarball" -> own d' f = own d f).
    assert (Qr'' : forall d, Q'' d d) by (intros d j _; reflexivity).
    pose (Q' := fun r r' : value =>
                  forall f, f <> "tarball" -> own (own r' "dist") f = own (own r "dist") f).
    assert (Qr' : forall r, Q' r r) by (intros r j _; reflexivity).
    pose (Q := fun c c' : value =>
                 forall f, f <> "tarball" ->
                           own (own (own c' key) "dist") f = own (own (own c key) "dist") f).
    assert (Qr : forall c, Q c c) by (intros c j _; reflexivity).
    assert (P5 : Q (own m4 "versions") (own meta' "versions")).
    { apply (in_place_same Q _ _ _ _ S5 Qr).
      intros c c' G. apply (in_place_same Q' _ _ _ _ G Qr').
      intros r r' G'. apply (in_place_same Q'' _ _ _ _ G' Qr'').
      intros d d' G'' j Hj. exact (setProp_other _ _ _ j _ G'' eq_refl Hj). }
    assert (P4 : Q (own m3 "versions") (own m4 "versions")).
    { apply (in_place_same Q _ _ _ _ S4 Qr).
      intros c c' G. apply (in_place_same Q' _ _ _ _ G Qr').
      intros r r' G' j _. exact (proj2 (default_object_frame _ _ _ G') j). }
    assert (P3 : Q (own m1 "versions") (own m3 "versions")).
    { apply (in_place_same Q _ _ _ _ S3 Qr).
      intros c c' G j _.
      rewrite (proj2 (default_object_frame _ _ _ G) "dist"). reflexivity. }
    rewrite (P5 f Hf), (P4 f Hf), (P3 f Hf), (D2 key). reflexivity.
Qed.

(** C9, as the code has it. An upload that is answered with status 201,
    for a descriptor made of mappings with the version [key], has
    written the descriptor that it read (the fresh one, when it read
    none) with one change, [versions[key].dist.tarball]: every other
    field of the written descriptor (its name and its dist-tags among
    them), every other entry of its [versions], every other field of
    the record of the version and every other field of its [dist] is as
    it was read.  A field of the descriptor called [__proto__] is left
    out: [writePackageMeta] does not write it. *)
Theorem upload_changes_tarball_only {rt : Runtime} (STORAGE_DIR pkg filename : string)
        (file : option string) (chunks : outcome (list string))
        (protocol : string) (host : option string) (now : Z)
        (fs fs' : filesystem) (r : response) (m : props) (latest : value)
        (key : string) :
  put_tarball STORAGE_DIR pkg filename file chunks protocol host now fs = (r, fs') ->
  status r = 201 ->
  or_else (descriptor_of STORAGE_DIR pkg fs) (empty_descriptor pkg) = VObj m ->
  NoDup (List.map fst m) ->
  field (field (VObj m) "dist-tags") "latest" = latest ->
  toString (if truthy latest then latest else VStr "0.0.0") = Return key ->
  walks_mappings m key ->
  inherited key = false ->
  exists persisted,
    holds fs' (metaPath_of STORAGE_DIR pkg) (utf8_encode (JSON_stringify persisted))
    /\ field (field (field (field persisted "versions") key) "dist") "tarball"
       = VStr (tarball_url protocol host pkg filename)
    /\ (forall k, k <> "versions" -> k <> "__proto__" ->
          field persisted k = field (VObj m) k)
    /\ (forall k, k <> key ->
          field (field persisted "versions") k = field (field (VObj m) "versions") k)
    /\ (forall f, f <> "dist" ->
          field (field (field persisted "versions") key) f
          = field (field (field (VObj m) "versions") key) f)
    /\ (forall f, f <> "tarball" ->
          field (field (field (field persisted "versions") key) "dist") f
          = field (field (field (field (VObj m) "versions") key) "dist") f).
Proof.
  intros U C D Hnd L Hc W K.
  destruct (put_tarball_walks _ _ _ _ _ _ _ _ _ _ _ U C m latest key D L Hc W K) as [_ [M _]].
  set (url := tarball_url protocol host pkg filename) in *.
  exists (Object_assign (with_tarball m key url)).
  split; [exact M|].
  assert (A : forall k, k <> "__proto__" ->
                        field (Object_assign (with_tarball m key url)) k
                        = field (with_tarball m key url) k).
  { intros k Hk. pose proof (with_tarball_keys m key url Hnd) as N.
    unfold with_tarball in N |- *. cbn [props_of] in N.
    apply field_Object_assign; [exact N|].
    destruct (String.eqb_spec k "__proto__"); [contradiction | reflexivity]. }
  rewrite (A "versions") by discriminate.
  split; [apply with_tarball_tarball|].
  split; [|split; [|split]].
  - intros k Hv Hp. rewrite (A k Hp). apply with_tarball_fields. exact Hv.
  - intros k Hk. apply with_tarball_versions. exact Hk.
  - intros f Hf. apply with_tarball_record. exact Hf.
  - intros f Hf. apply with_tarball_dist. exact Hf.
Qed.

Lemma upload_changes_tarball_only_witness :
  let fs := Sample.published MiniRuntime.runtime Sample.tagged_descriptor in
  let fs' := snd (Sample.upload MiniRuntime.runtime fs) in
  let m := props_of Sample.tagged_descriptor in
  exists persisted,
    holds fs' (metaPath_of Sample.STORAGE_DIR "left-pad")
          (MiniRuntime.encode (MiniRuntime.stringify persisted))
    /\ field (field (field (field persisted "versions") "2.1.0") "dist") "tarball"
       = VStr (tarball_url "http" (Some "localhost:4873") "left-pad" "left-pad-1.0.0.tgz")
    /\ (forall k, k <> "versions" -> k <> "__proto__" ->
          field persisted k = field (VObj m) k)
    /\ (forall k, k <> "2.1.0" ->
          field (field persisted "versions") k = field (field (VObj m) "versions") k)
    /\ (forall f, f <> "dist" ->
          field (field (field persisted "versions") "2.1.0") f
          = field (field (field (VObj m) "versions") "2.1.0") f)
    /\ (forall f, f <> "tarball" ->
          field (field (field (field persisted "versions") "2.1.0") "dist") f
          = field (field (field (field (VObj m) "versions") "2.1.0") "dist") f).
Proof.
  apply (upload_changes_tarball_only (rt:=MiniRuntime.runtime)
           Sample.STORAGE_DIR "left-pad" "left-pad-1.0.0.tgz" (Some "tarball bytes")
           (Return []) "http" (Some "localhost:4873") (Sample.clock + 1)
           (Sample.published MiniRuntime.runtime Sample.tagged_descriptor)
           (snd (Sample.upload MiniRuntime.runtime
                   (Sample.published MiniRuntime.runtime Sample.tagged_descriptor)))
           (fst (Sample.upload MiniRuntime.runtime
                   (Sample.published MiniRuntime.runtime Sample.tagged_descriptor)))
           (props_of Sample.tagged_descriptor) (VStr "2.1.0") "2.1.0").
  - apply surjective_pairing.
  - vm_compute. reflexivity.
  - vm_compute. reflexivity.
  - repeat constructor; cbn; intuition discriminate.
  - reflexivity.
  - reflexivity.
  - repeat split.
  - reflexivity.
Defined.

(** Versions that are an array: the descriptor
    [{ name, dist-tags: { latest: "2" }, versions: [] }] can be
    published, and an upload for it is answered with status 201.  The
    upload sets the element 2 of the array, so the written descriptor
    has two more entries of [versions], 0 and 1, both [null], which the
    descriptor that was read does not have. *)
Lemma upload_fills_versions_array :
  let rt := MiniRuntime.runtime in
  let before := Sample.published rt Sample.array_descriptor in
  let after := snd (Sample.upload rt before) in
  descriptor_of Sample.STORAGE_DIR "left-pad" before
  = VObj [("name", VStr "left-pad");
          ("dist-tags", VObj [("latest", VStr "2")]);
          ("versions", VArr [] [])]
  /\ status (fst (Sample.upload rt before)) = 201
  /\ descriptor_of Sample.STORAGE_DIR "left-pad" after
     = VObj [("name", VStr "left-pad");
             ("dist-tags", VObj [("latest", VStr "2")]);
             ("versions",
              VArr [VNull; VNull;
                    VObj [("dist",
                           VObj [("tarball",
                                  VStr "http://localhost:4873/left-pad/-/left-pad-1.0.0.tgz")])]]
                   [])].
Proof. vm_compute. repeat split; reflexivity. Qed.

(** A field called [__proto__]: a tarball named [meta.json] that is
    uploaded for the package [x] is the descriptor file of the package
    [x/tarballs].  An upload for that package reads a descriptor with
    an own [__proto__] field and writes one without it. *)
Example upload_drops_planted_proto :
  let rt := MiniRuntime.runtime in
  let planted :=
    snd (put_tarball Sample.STORAGE_DIR "x" "meta.json"
           (Some (MiniRuntime.encode (MiniRuntime.stringify Sample.odd_descriptor)))
           (Return []) "http" (Some "localhost:4873") Sample.clock Sample.disk) in
  let run :=
    put_tarball Sample.STORAGE_DIR "x/tarballs" "f.tgz" (Some "tarball bytes")
                (Return []) "http" (Some "localhost:4873") (Sample.clock + 1) planted in
  field (descriptor_of Sample.STORAGE_DIR "x/tarballs" planted) "__proto__"
  = VObj [("admin", VBool true)]
  /\ status (fst run) = 201
  /\ field (descriptor_of Sample.STORAGE_DIR "x/tarballs" (snd run)) "__proto__" = VUndef
  /\ field (descriptor_of Sample.STORAGE_DIR "x/tarballs" (snd run)) "name" = VStr "a".
Proof. vm_compute. repeat split; reflexivity. Qed.

Example upload_keeps_description :
  let fs := Sample.published MiniRuntime.runtime Sample.tagged_descriptor in
  descriptor_of (rt:=MiniRuntime.runtime) Sample.STORAGE_DIR "left-pad"
                (snd (Sample.upload MiniRuntime.runtime fs))
  = VObj [("name", VStr "left-pad");
          ("dist-tags", VObj [("latest", VStr "2.1.0")]);
          ("versions",
           VObj [("2.1.0",
                  VObj [("description", VStr "pads");
                        ("dist",
                         VObj [("tarball",
                                VStr "http://localhost:4873/left-pad/-/left-pad-1.0.0.tgz")])])])].
Proof. vm_compute. reflexivity. Qed.

(** * Further properties of the store *)

(** ** What the sanitizers let through *)

Lemma every_map (f : ascii -> bool) (g : ascii -> ascii) (s : string) :
  (forall c, f (g c) = true) -> every f (Str.map g s) = true.
Proof.
  intros H. induction s as [|c r IH]; [reflexivity|].
  cbn. rewrite H, IH. reflexivity.
Qed.

Lemma map_fixed (g : ascii -> ascii) (s : string) :
  every (fun c => Ascii.eqb (g c) c) s = true -> Str.map g s = s.
Proof.
  induction s as [|c r IH]; [reflexivity|].
  cbn. intros H. apply andb_true_iff in H. destruct H as [H1 H2].
  apply Ascii.eqb_eq in H1. rewrite H1, IH by exact H2. reflexivity.
Qed.

Lemma every_weaken (f g : ascii -> bool) (s : string) :
  (forall c, f c = true -> g c = true) -> every f s = true -> every g s = true.
Proof.
  intros H. induction s as [|c r IH]; [reflexivity|].
  cbn. intros E. apply andb_true_iff in E. destruct E as [E1 E2].
  rewrite (H c E1), (IH E2). reflexivity.
Qed.

Lemma length_map (g : ascii -> ascii) (s : string) :
  String.length (Str.map g s) = String.length s.
Proof. induction s as [|c r IH]; [reflexivity|]. cbn. rewrite IH. reflexivity. Qed.

Lemma length_remove_dotdot (s : string) :
  String.length (Str.remove_dotdot s) <= String.length s.
Proof.
  induction s as [|c| c d r IHr IHdr] using string_pair_ind.
  - reflexivity.
  - reflexivity.
  - rewrite remove_dotdot_cons. destruct (Str.is_dot c && Str.is_dot d).
    + cbn [String.length]. lia.
    + cbn [String.length] in IHdr |- *. lia.
Qed.

Lemma pkg_filter_allowed (c : ascii) :
  pkg_char_allowed (if pkg_char_allowed c then c else Str.underscore) = true.
Proof. destruct (pkg_char_allowed c) eqn:E; [exact E | reflexivity]. Qed.

Lemma file_filter_allowed (c : ascii) :
  negb (is_separator (if is_separator c then Str.underscore else c)) = true.
Proof. destruct (is_separator c) eqn:E; [reflexivity | rewrite E; reflexivity]. Qed.

(** X1. The names that the sanitizers leave as they are. A package name
    is its own key exactly when it holds no [..] and only characters of
    the class [[@/a-zA-Z0-9-_.]]; a file name is its own key exactly
    when it holds no [..], no slash and no backslash. *)
Theorem sanitizers_fixed_points (s : string) :
  (sanitizePkgName s = s
   <-> no_dotdot s = true /\ every pkg_char_allowed s = true)
  /\ (sanitizeFilename s = s
      <-> no_dotdot s = true /\ every (fun c => negb (is_separator c)) s = true).
Proof.
  split; split.
  - intros H. rewrite <- H. split; [apply sanitizePkgName_clean|].
    unfold sanitizePkgName. apply every_map. exact pkg_filter_allowed.
  - intros [H1 H2]. unfold sanitizePkgName. rewrite (remove_dotdot_fixed s H1).
    apply map_fixed. revert H2. apply every_weaken.
    intros c Hc. rewrite Hc. apply Ascii.eqb_refl.
  - intros H. rewrite <- H. split; [apply sanitizeFilename_clean|].
    unfold sanitizeFilename. apply every_map. exact file_filter_allowed.
  - intros [H1 H2]. unfold sanitizeFilename. rewrite (remove_dotdot_fixed s H1).
    apply map_fixed. revert H2. apply every_weaken.
    intros c Hc. apply negb_true_iff in Hc. rewrite Hc. apply Ascii.eqb_refl.
Qed.

(** X2. Whatever the raw name, the key of a package is made of the
    characters of the class [[@/a-zA-Z0-9-_.]] only, the key of a file
    holds neither a slash nor a backslash, and neither key is longer
    than the raw name. *)
Theorem sanitizers_alphabet (s : string) :
  every pkg_char_allowed (sanitizePkgName s) = true
  /\ every (fun c => negb (is_separator c)) (sanitizeFilename s) = true
  /\ String.length (sanitizePkgName s) <= String.length s
  /\ String.length (sanitizeFilename s) <= String.length s.
Proof.
  unfold sanitizePkgName, sanitizeFilename. repeat split.
  - apply every_map. exact pkg_filter_allowed.
  - apply every_map. exact file_filter_allowed.
  - rewrite length_map. apply length_remove_dotdot.
  - rewrite length_map. apply length_remove_dotdot.
Qed.

(** ** What the store changes, whatever the outcome *)

Lemma io_bind_cases {A B : Type} (m : io A) (f : A -> io B) fs o fs' :
  io_bind m f fs = (o, fs') ->
  (exists e, m fs = (Throw e, fs') /\ o = Throw e)
  \/ (exists a fs1, m fs = (Return a, fs1) /\ f a fs1 = (o, fs')).
Proof.
  unfold io_bind. destruct (m fs) as [[a|e] fs1]; intros H.
  - right. exists a, fs1. split; [reflexivity | exact H].
  - left. exists e. inversion H; subst. split; reflexivity.
Qed.

Lemma mutate_cases (op : filesystem -> outcome filesystem) fs o fs' :
  mutate op fs = (o, fs') ->
  (op fs = Return fs' /\ o = Return tt)
  \/ (exists e, op fs = Throw e /\ o = Throw e /\ fs' = fs).
Proof.
  unfold mutate. destruct (op fs) as [fs1|e]; intros H; inversion H; subst.
  - left. split; reflexivity.
  - right. exists e. repeat split.
Qed.

Lemma same_files_more (c c' : list (list string)) (fs fs' : filesystem) :
  same_files_but c fs fs' -> incl c c' -> same_files_but c' fs fs'.
Proof.
  intros [C F] I. split; [exact C|]. intros q d Hq. apply F.
  intros Hin. apply Hq, I, Hin.
Qed.

Lemma ensurePackageDir_files (base pkg : string) (fs : filesystem) :
  same_files_but [] fs (snd (ensurePackageDir base pkg fs)).
Proof.
  unfold ensurePackageDir, io_bind, mutate, ret.
  destruct (FS.mkdir_recursive fs _) as [fs1|e] eqn:E1; [|apply same_files_refl].
  apply mkdir_recursive_files in E1.
  destruct (FS.mkdir_recursive fs1 _) as [fs2|e] eqn:E2; cbn [snd]; [|exact E1].
  apply mkdir_recursive_files in E2. exact (same_files_trans E1 E2).
Qed.

Lemma ensurePackageDir_cwd (base pkg : string) (fs : filesystem) :
  cwd (snd (ensurePackageDir base pkg fs)) = cwd fs.
Proof. apply ensurePackageDir_files. Qed.

(** A call of [ensurePackageDir] that returns has made the two
    directories of the package. *)
Lemma ensurePackageDir_made (base pkg d : string) (fs fs' : filesystem) :
  ensurePackageDir base pkg fs = (Return d, fs') ->
  cwd fs' = cwd fs /\ has_directories base pkg (cwd fs) (root fs').
Proof.
  intros H.
  assert (C : cwd fs' = cwd fs).
  { pose proof (ensurePackageDir_cwd base pkg fs) as C. rewrite H in C. exact C. }
  split; [exact C|].
  unfold ensurePackageDir in H.
  step H. apply mutate_returns in Hstep.
  step H. apply mutate_returns in Hstep0.
  apply ret_returns in H. destruct H as [_ <-].
  apply with_root_returns in Hstep. destruct Hstep as [n1 [M1 ->]].
  apply with_root_returns in Hstep0. destruct Hstep0 as [n2 [M2 ->]].
  cbn [cwd root] in *. unfold FS.at_path in M2. cbn [cwd] in M2.
  fold (pkgDir_of base pkg) in M2.
  rewrite (StorePaths.resolve_tarballs (cwd fs) base pkg) in M2.
  destruct (FSFacts.mkdir_p_makes _ _ _ M2) as [es E].
  split; [exact (lookup_parent _ _ _ _ E) | exists es; exact E].
Qed.

Lemma saveTarball_files (base pkg filename buffer : string) (fs : filesystem) :
  same_files_but [FS.at_path fs (tarballPath_of base pkg filename)] fs
                 (snd (saveTarball base pkg filename buffer fs)).
Proof.
  unfold saveTarball, io_bind.
  pose proof (ensurePackageDir_files base pkg fs) as S0.
  destruct (ensurePackageDir base pkg fs) as [[d|e] fs1] eqn:E0; cbn [snd] in S0 |- *.
  2:{ apply (same_files_more []); [exact S0 | intros x []]. }
  apply ensurePackageDir_returns in E0. destruct E0 as [-> _].
  fold (tarballPath_of base pkg filename).
  unfold mutate, ret.
  destruct (FS.writeFile fs1 _ buffer) as [fs2|e] eqn:W; cbn [snd].
  2:{ apply (same_files_more []); [exact S0 | intros x []]. }
  apply writeFile_files in W. destruct W as [_ S1].
  pose proof (same_files_trans S0 S1) as S. cbn [app] in S.
  rewrite (at_path_cwd fs fs1) in S by apply S0. exact S.
Qed.

Lemma meta_not_tmp (c : list string) (base pkg : string) (now : Z) :
  Path.resolve c (metaPath_of base pkg)
  <> Path.resolve c (tmp_name (metaPath_of base pkg) now).
Proof.
  rewrite StorePaths.resolve_metaPath, StorePaths.resolve_tmp. intros E.
  apply app_inv_head in E. inversion E.
Qed.

Section WriteEffect.

Context {rt : Runtime}.
Variables base pkg : string.
Variable meta : value.
Variable now : Z.
Variable fs : filesystem.

Let tmp : list string := FS.at_path fs (tmp_name (metaPath_of base pkg) now).
Let dest : list string := FS.at_path fs (metaPath_of base pkg).

(** A write changes no file but the descriptor and its temporary file;
    a write that throws has not changed the descriptor either. *)
Lemma writePackageMeta_files (o : outcome string) (fs' : filesystem) :
  writePackageMeta base pkg meta now fs = (o, fs') ->
  match o with
  | Return _ => same_files_but [tmp; dest] fs fs'
  | Throw _ => same_files_but [tmp] fs fs'
  end.
Proof.
  unfold writePackageMeta, io_bind.
  pose proof (ensurePackageDir_files base pkg fs) as S0.
  destruct (ensurePackageDir base pkg fs) as [[d|e] fs1] eqn:E0; cbn [snd] in S0.
  2:{ intros H. inversion H; subst. apply (same_files_more []); [exact S0 | intros x []]. }
  apply ensurePackageDir_returns in E0. destruct E0 as [-> _].
  fold (metaPath_of base pkg).
  unfold mutate, ret.
  destruct (FS.writeFile fs1 _ _) as [fs2|e] eqn:W.
  2:{ intros H. inversion H; subst. apply (same_files_more []); [exact S0 | intros x []]. }
  pose proof (writeFile_files _ _ _ _ W) as [Wh S1].
  pose proof (same_files_trans S0 S1) as S01. cbn [app] in S01.
  rewrite (at_path_cwd fs fs1) in S01 by apply S0. fold tmp in S01.
  destruct (FS.rename fs2 _ _) as [fs3|e] eqn:Rn.
  2:{ intros H. inversion H; subst. exact S01. }
  intros H. inversion H; subst.
  destruct (rename_files _ _ _ _ _ Rn Wh) as [_ S2].
  pose proof (same_files_trans S01 S2) as S. cbn [app] in S.
  rewrite !(at_path_cwd fs fs2) in S by apply S01.
  fold tmp dest in S. destruct S as [C F]. split; [exact C|].
  intros q d Hq. apply F. cbn in Hq |- *. tauto.
Qed.

End WriteEffect.

(** ** The directories of a package *)

(** X3. A call of [ensurePackageDir] that returns has returned the
    directory of the package and has made it and its [tarballs]
    directory; a second call returns the same path and changes nothing;
    and no call changes what a file holds. *)
Theorem ensurePackageDir_settles (base pkg d : string) (fs fs' : filesystem) :
  ensurePackageDir base pkg fs = (Return d, fs') ->
  d = pkgDir_of base pkg
  /\ has_directories base pkg (cwd fs') (root fs')
  /\ ensurePackageDir base pkg fs' = (Return d, fs')
  /\ forall p data, holds fs' p data <-> holds fs p data.
Proof.
  intros H.
  destruct (ensurePackageDir_returns _ _ _ _ _ H) as [-> S].
  destruct (ensurePackageDir_made _ _ _ _ _ H) as [C M].
  split; [reflexivity|]. rewrite C. split; [exact M|]. split.
  - destruct fs' as [c n]. cbn [cwd root] in *. subst c.
    apply ensure_again. exact M.
  - intros p data. apply (same_files_holds [] fs fs' p data S). intros [].
Qed.

Lemma ensurePackageDir_settles_witness :
  has_directories Sample.STORAGE_DIR "left-pad" ["srv"]
    (root (snd (ensurePackageDir Sample.STORAGE_DIR "left-pad" Sample.disk)))
  /\ ensurePackageDir Sample.STORAGE_DIR "left-pad"
       (snd (ensurePackageDir Sample.STORAGE_DIR "left-pad" Sample.disk))
     = (Return "/srv/storage/packages/left-pad",
        snd (ensurePackageDir Sample.STORAGE_DIR "left-pad" Sample.disk)).
Proof.
  destruct (ensurePackageDir_settles Sample.STORAGE_DIR "left-pad"
              "/srv/storage/packages/left-pad" Sample.disk
              (snd (ensurePackageDir Sample.STORAGE_DIR "left-pad" Sample.disk)))
    as [_ [M [A _]]].
  - vm_compute. reflexivity.
  - split; [exact M | exact A].
Defined.

(** ** Tarballs *)

(** X4. A tarball that [saveTarball] has stored is found again: for
    the same package and file name [getTarballPath] gives a path whose
    file holds the bytes, as does the path that [saveTarball] returned,
    and no other file was changed. *)
Theorem saved_tarball_is_found (base pkg filename buffer p : string) (fs fs' : filesystem) :
  saveTarball base pkg filename buffer fs = (Return p, fs') ->
  (exists q, getTarballPath base pkg filename fs' = (Return (Some q), fs')
             /\ FS.readFile fs' q = Return buffer)
  /\ FS.readFile fs' p = Return buffer
  /\ same_files_but [FS.at_path fs p] fs fs'.
Proof.
  intros H. apply saveTarball_returns in H. destruct H as [-> [W S]].
  split; [exact (getTarballPath_holds _ _ _ _ _ W)|].
  split; [apply readFile_holds; exact W | exact S].
Qed.

Lemma saved_tarball_is_found_witness :
  exists q,
    getTarballPath Sample.STORAGE_DIR "left-pad" "left-pad-1.0.0.tgz"
      (snd (saveTarball Sample.STORAGE_DIR "left-pad" "left-pad-1.0.0.tgz" "bytes" Sample.disk))
    = (Return (Some q),
       snd (saveTarball Sample.STORAGE_DIR "left-pad" "left-pad-1.0.0.tgz" "bytes" Sample.disk))
    /\ FS.readFile
         (snd (saveTarball Sample.STORAGE_DIR "left-pad" "left-pad-1.0.0.tgz" "bytes"
                           Sample.disk)) q
       = Return "bytes".
Proof.
  apply (saved_tarball_is_found Sample.STORAGE_DIR "left-pad" "left-pad-1.0.0.tgz" "bytes"
           "/srv/storage/packages/left-pad/tarballs/left-pad-1.0.0.tgz" Sample.disk).
  vm_compute. reflexivity.
Defined.

Lemma below_blank (s : string) : Path.is_blank s = true -> Path.below [s] = [].
Proof.
  unfold Path.is_blank. intros H. apply orb_true_iff in H.
  destruct H as [H|H]; apply String.eqb_eq in H; subst; reflexivity.
Qed.

(** X5. A file name that is blank once sanitized ([..], [.], the empty
    name) names the [tarballs] directory itself: for a package whose
    directories exist [getTarballPath] gives a path, not [null], and
    what is at that path is a directory, which cannot be read as a
    file. *)
Theorem getTarballPath_of_blank_name (base pkg filename d : string) (fs fs' : filesystem) :
  ensurePackageDir base pkg fs = (Return d, fs') ->
  Path.is_blank (sanitizeFilename filename) = true ->
  exists p, getTarballPath base pkg filename fs' = (Return (Some p), fs')
            /\ FS.readFile fs' p = Throw EISDIR.
Proof.
  intros H B. destruct (ensurePackageDir_made _ _ _ _ _ H) as [C [_ [es E]]].
  exists (Path.join [pkgDir_of base pkg; "tarballs"; sanitizeFilename filename]).
  assert (A : FS.at_path fs' (Path.join [pkgDir_of base pkg; "tarballs";
                                          sanitizeFilename filename])
              = (Path.resolve (cwd fs) (pkgDir_of base pkg) ++ ["tarballs"])%list).
  { unfold FS.at_path. rewrite C, StorePaths.resolve_getTarballPath,
      StorePaths.resolve_tarballPath, (below_blank _ B). reflexivity. }
  split.
  - unfold getTarballPath, FS.access. fold (pkgDir_of base pkg). rewrite A, E. reflexivity.
  - unfold FS.readFile. rewrite A, E. reflexivity.
Qed.

Lemma getTarballPath_of_blank_name_witness :
  exists p,
    getTarballPath Sample.STORAGE_DIR "left-pad" ".."
      (snd (ensurePackageDir Sample.STORAGE_DIR "left-pad" Sample.disk))
    = (Return (Some p), snd (ensurePackageDir Sample.STORAGE_DIR "left-pad" Sample.disk))
    /\ FS.readFile (snd (ensurePackageDir Sample.STORAGE_DIR "left-pad" Sample.disk)) p
       = Throw EISDIR.
Proof.
  apply (getTarballPath_of_blank_name Sample.STORAGE_DIR "left-pad" ".."
           "/srv/storage/packages/left-pad" Sample.disk).
  - vm_compute. reflexivity.
  - reflexivity.
Defined.

(** ** What a write leaves behind *)

Lemma remove_at_gone (p : list string) :
  forall n n', FS.remove_at n p = Return n' -> FS.lookup n' p = Throw ENOENT.
Proof.
  induction p as [|name rest IH]; intros n n' H; [discriminate H|].
  cbn in H. destruct n as [|es]; [discriminate|].
  destruct (FS.entry_get name es) as [c|] eqn:G; [|discriminate].
  destruct rest as [|k rest'].
  - inversion H; subst. cbn. rewrite FSFacts.entry_get_remove, String.eqb_refl. reflexivity.
  - destruct (FS.remove_at c (k :: rest')) as [c'|] eqn:E; [|discriminate].
    inversion H; subst. cbn [FS.lookup]. rewrite FSFacts.entry_get_set, String.eqb_refl.
    exact (IH _ _ E).
Qed.

Lemma rename_at_gone (n n' : node) (old new : list string) :
  FS.rename_at n old new = Return n' -> old <> new -> FS.lookup n' old = Throw ENOENT.
Proof.
  unfold FS.rename_at. intros H Hne.
  destruct (FS.lookup n old) as [x|]; [|discriminate].
  destruct (FS.same_path old new) eqn:S.
  - unfold FS.same_path in S. apply andb_true_iff in S. destruct S as [S1 S2].
    destruct (Hne (FSFacts.is_prefix_antisym _ _ S1 S2)).
  - destruct (FS.is_prefix old new); [discriminate|].
    destruct (FS.place_at n new x) as [n1|]; [|discriminate].
    exact (remove_at_gone _ _ _ H).
Qed.

(** X9. A write that returns has left the text of the normalized
    descriptor at the path of the descriptor, and its temporary file
    is gone. *)
Theorem write_leaves_no_temporary {rt : Runtime} (base pkg p : string) (meta : value)
        (now : Z) (fs fs' : filesystem) :
  writePackageMeta base pkg meta now fs = (Return p, fs') ->
  FS.access fs' (tmp_name (metaPath_of base pkg) now) = Throw ENOENT
  /\ holds fs' (metaPath_of base pkg) (utf8_encode (JSON_stringify (Object_assign meta))).
Proof.
  intros H. split.
  2:{ apply writePackageMeta_returns in H. destruct H as [-> [H _]]. exact H. }
  unfold writePackageMeta in H.
  step H. apply ensurePackageDir_returns in Hstep. destruct Hstep as [-> _].
  step H. clear Hstep.
  step H. apply mutate_returns in Hstep.
  apply ret_returns in H. destruct H as [_ <-].
  apply with_root_returns in Hstep. destruct Hstep as [n [Rn ->]].
  fold (metaPath_of base pkg) in Rn.
  unfold FS.access, FS.at_path in *. cbn [cwd root].
  rewrite (rename_at_gone _ _ _ _ Rn); [reflexivity|].
  intros E. exact (meta_not_tmp _ _ _ _ (eq_sym E)).
Qed.

Lemma write_leaves_no_temporary_witness :
  FS.access (snd (writePackageMeta (rt:=MiniRuntime.runtime) Sample.STORAGE_DIR "left-pad"
                    (Sample.descriptor "left-pad") Sample.clock Sample.disk))
            (tmp_name (metaPath_of Sample.STORAGE_DIR "left-pad") Sample.clock)
  = Throw ENOENT
  /\ holds (snd (writePackageMeta (rt:=MiniRuntime.runtime) Sample.STORAGE_DIR "left-pad"
                   (Sample.descriptor "left-pad") Sample.clock Sample.disk))
           (metaPath_of Sample.STORAGE_DIR "left-pad")
           (MiniRuntime.encode (MiniRuntime.stringify
              (Object_assign (Sample.descriptor "left-pad")))).
Proof.
  apply (write_leaves_no_temporary (rt:=MiniRuntime.runtime) Sample.STORAGE_DIR "left-pad"
           "/srv/storage/packages/left-pad/meta.json" (Sample.descriptor "left-pad")
           Sample.clock Sample.disk).
  vm_compute. reflexivity.
Defined.

(** X8. A write that throws has changed no file but, at most, its
    temporary file: the descriptor of the package reads as before. *)
Theorem failed_write_keeps_descriptor {rt : Runtime} (base pkg : string) (meta : value)
        (now : Z) (fs fs' : filesystem) (e : error) :
  writePackageMeta base pkg meta now fs = (Throw e, fs') ->
  same_files_but [FS.at_path fs (tmp_name (metaPath_of base pkg) now)] fs fs'
  /\ descriptor_of base pkg fs' = descriptor_of base pkg fs.
Proof.
  intros H. pose proof (writePackageMeta_files base pkg meta now fs _ _ H) as S.
  cbn beta iota in S. split; [exact S|].
  apply descriptor_of_files. intros d.
  apply (same_files_holds _ _ _ _ d S).
  intros [E|[]]. exact (meta_not_tmp _ _ _ _ (eq_sym E)).
Qed.

(** X10. Writing the descriptor of one package changes the descriptor
    of no package that has another directory, whether the write
    returns or throws. *)
Theorem write_keeps_other_descriptors {rt : Runtime} (base pkg other : string)
        (meta : value) (now : Z) (fs : filesystem) :
  FS.at_path fs (pkgDir_of base other) <> FS.at_path fs (pkgDir_of base pkg) ->
  descriptor_of base other (snd (writePackageMeta base pkg meta now fs))
  = descriptor_of base other fs.
Proof.
  intros Hne.
  destruct (writePackageMeta base pkg meta now fs) as [o fs'] eqn:H. cbn [snd].
  pose proof (writePackageMeta_files base pkg meta now fs _ _ H) as S.
  assert (S' : same_files_but [FS.at_path fs (tmp_name (metaPath_of base pkg) now);
                               FS.at_path fs (metaPath_of base pkg)] fs fs').
  { destruct o; [exact S|]. apply (same_files_more _ _ _ _ S). intros x [<-|[]]. left. reflexivity. }
  apply descriptor_of_files. intros d.
  apply (same_files_holds _ _ _ _ d S').
  unfold FS.at_path in *.
  rewrite StorePaths.resolve_tmp, !StorePaths.resolve_metaPath.
  intros [E|[E|[]]].
  - apply app_inj_tail in E. destruct E as [_ E].
    pose proof (tmp_not_meta now) as T. rewrite E in T. discriminate T.
  - apply app_inj_tail in E. destruct E as [E _]. apply Hne. symmetry. exact E.
Qed.

Lemma failed_write_keeps_descriptor_witness :
  fst (writePackageMeta (rt:=MiniRuntime.runtime) Sample.STORAGE_DIR "left-pad"
         (Sample.descriptor "left-pad") Sample.clock Scenario.blocked) = Throw EISDIR
  /\ descriptor_of (rt:=MiniRuntime.runtime) Sample.STORAGE_DIR "left-pad"
       (snd (writePackageMeta (rt:=MiniRuntime.runtime) Sample.STORAGE_DIR "left-pad"
               (Sample.descriptor "left-pad") Sample.clock Scenario.blocked))
     = descriptor_of (rt:=MiniRuntime.runtime) Sample.STORAGE_DIR "left-pad" Scenario.blocked.
Proof.
  split; [vm_compute; reflexivity|].
  apply (failed_write_keeps_descriptor (rt:=MiniRuntime.runtime) Sample.STORAGE_DIR "left-pad"
           (Sample.descriptor "left-pad") Sample.clock Scenario.blocked _ EISDIR).
  vm_compute. reflexivity.
Defined.

Lemma write_keeps_other_descriptors_witness :
  let rt := MiniRuntime.runtime in
  let fs := Sample.published rt (Sample.descriptor "left-pad") in
  descriptor_of Sample.STORAGE_DIR "left-pad"
    (snd (writePackageMeta Sample.STORAGE_DIR "right-pad" (Sample.descriptor "right-pad")
            (Sample.clock + 1) fs))
  = descriptor_of Sample.STORAGE_DIR "left-pad" fs.
Proof.
  apply (write_keeps_other_descriptors (rt:=MiniRuntime.runtime)).
  vm_compute. discriminate.
Defined.

(** ** The normal form of a payload *)

Lemma setProp_mapping (acc : props) (k : string) (x : value) :
  own_get "__proto__" acc = None ->
  try_catch (setProp (VObj acc) k x) (VObj acc)
  = if String.eqb k "__proto__" then VObj acc else VObj (own_set k x acc).
Proof.
  intros H. cbn [setProp]. unfold own_has.
  destruct (String.eqb_spec k "__proto__") as [->|]; [rewrite H|]; reflexivity.
Qed.

Lemma own_get_app_some (k : string) (ps qs : props) (y : value) :
  own_get k ps = Some y -> own_get k (ps ++ qs)%list = Some y.
Proof.
  induction ps as [|[k' v'] r IH]; cbn; [discriminate|].
  destruct (String.eqb k k'); [intros H; exact H | exact IH].
Qed.

Lemma assign_fold (l : props) :
  forall acc,
    NoDup (List.map fst acc) -> own_get "__proto__" acc = None ->
    exists ps,
      fold_left (fun target kv => try_catch (setProp target (fst kv) (snd kv)) target)
                l (VObj acc) = VObj ps
      /\ NoDup (List.map fst ps)
      /\ own_get "__proto__" ps = None
      /\ forall k, k <> "__proto__" ->
           own_get k ps = match own_get k (rev l) with
                          | Some x => Some x
                          | None => own_get k acc
                          end.
Proof.
  induction l as [|[k x] r IH]; intros acc Hnd Hp.
  - exists acc. repeat split; assumption.
  - cbn [fold_left fst snd]. rewrite (setProp_mapping acc k x Hp).
    destruct (String.eqb_spec k "__proto__") as [->|Hk].
    + destruct (IH acc Hnd Hp) as [ps [E [N [P G]]]].
      exists ps. split; [exact E|]. split; [exact N|]. split; [exact P|].
      intros j Hj. rewrite (G j Hj). cbn [rev].
      destruct (own_get j (rev r)) as [y|] eqn:R.
      * rewrite (own_get_app_some j (rev r) _ y R). reflexivity.
      * rewrite (own_get_app_fresh j (rev r) _ R). cbn.
        destruct (String.eqb_spec j "__proto__"); [contradiction | reflexivity].
    + destruct (IH (own_set k x acc)) as [ps [E [N [P G]]]].
      * apply own_set_keys. exact Hnd.
      * rewrite own_get_set. destruct (String.eqb_spec "__proto__" k); [congruence | exact Hp].
      * exists ps. split; [exact E|]. split; [exact N|]. split; [exact P|].
        intros j Hj. rewrite (G j Hj). cbn [rev].
        destruct (own_get j (rev r)) as [y|] eqn:R.
        -- rewrite (own_get_app_some j (rev r) _ y R). reflexivity.
        -- rewrite (own_get_app_fresh j (rev r) _ R). cbn. rewrite own_get_set.
           destruct (String.eqb j k); reflexivity.
Qed.

Lemma Object_assign_normal (v : value) :
  exists ps,
    Object_assign v = VObj ps
    /\ NoDup (List.map fst ps)
    /\ own_get "__proto__" ps = None
    /\ forall k, k <> "__proto__" -> own_get k ps = last_own k v.
Proof.
  unfold Object_assign, last_own.
  destruct (assign_fold (own_props v) [] (NoDup_nil _) eq_refl) as [ps [E [N [P G]]]].
  exists ps. split; [exact E|]. split; [exact N|]. split; [exact P|].
  intros k Hk. rewrite (G k Hk). destruct (own_get k (rev (own_props v))); reflexivity.
Qed.

(** X6. Whatever the payload (a mapping, an array, a string), what a
    write stores is the text of a mapping with distinct keys, none of
    them [__proto__], which has the own properties of the payload under
    every other name. *)
Theorem write_stores_a_mapping {rt : Runtime} (base pkg p : string) (meta : value)
        (now : Z) (fs fs' : filesystem) :
  writePackageMeta base pkg meta now fs = (Return p, fs') ->
  exists ps,
    holds fs' p (utf8_encode (JSON_stringify (VObj ps)))
    /\ NoDup (List.map fst ps)
    /\ own_get "__proto__" ps = None
    /\ forall k, k <> "__proto__" -> own_get k ps = last_own k meta.
Proof.
  intros H. apply writePackageMeta_returns in H. destruct H as [-> [H _]].
  destruct (Object_assign_normal meta) as [ps [E R]].
  exists ps. rewrite <- E. split; [exact H | exact R].
Qed.

Lemma write_stores_a_mapping_witness :
  exists ps,
    holds (snd (writePackageMeta (rt:=MiniRuntime.runtime) Sample.STORAGE_DIR "left-pad"
                  (VArr [VStr "x"; VNull] []) Sample.clock Sample.disk))
          "/srv/storage/packages/left-pad/meta.json"
          (MiniRuntime.encode (MiniRuntime.stringify (VObj ps)))
    /\ NoDup (List.map fst ps)
    /\ own_get "__proto__" ps = None
    /\ forall k, k <> "__proto__" -> own_get k ps = last_own k (VArr [VStr "x"; VNull] []).
Proof.
  apply (write_stores_a_mapping (rt:=MiniRuntime.runtime) Sample.STORAGE_DIR "left-pad"
           "/srv/storage/packages/left-pad/meta.json" (VArr [VStr "x"; VNull] [])
           Sample.clock Sample.disk).
  vm_compute. reflexivity.
Defined.

(** ** The listing *)

Section Listing.

Context {rt : Runtime}.
Variable base : string.
Variable fs : filesystem.

Let entry_of (name : string) : value :=
  or_else (descriptor_of base name fs) (empty_descriptor name).

Lemma list_entry_mapping (acc : props) (dirent : string * bool) :
  own_get "__proto__" acc = None ->
  list_entry base fs (VObj acc) dirent
  = if snd dirent && negb (String.eqb (fst dirent) "__proto__")
    then VObj (own_set (fst dirent) (entry_of (fst dirent)) acc)
    else VObj acc.
Proof.
  intros H. unfold list_entry. destruct dirent as [name [|]]; cbn [fst snd negb andb]; [|reflexivity].
  rewrite readPackageMeta_descriptor. cbn [fst].
  fold (entry_of name). rewrite (setProp_mapping acc name _ H).
  destruct (String.eqb name "__proto__"); reflexivity.
Qed.

Lemma list_fold (dirents : list (string * bool)) :
  forall acc,
    own_get "__proto__" acc = None ->
    exists ps,
      fold_left (list_entry base fs) dirents (VObj acc) = VObj ps
      /\ own_get "__proto__" ps = None
      /\ forall name, name <> "__proto__" ->
           own_get name ps
           = if existsb (fun dirent => String.eqb (fst dirent) name && snd dirent) dirents
             then Some (entry_of name) else own_get name acc.
Proof.
  induction dirents as [|d r IH]; intros acc Hp.
  - exists acc. split; [reflexivity|]. split; [exact Hp|]. intros name _. reflexivity.
  - cbn [fold_left]. rewrite (list_entry_mapping acc d Hp).
    destruct d as [n isdir]. cbn [fst snd existsb].
    destruct (isdir && negb (String.eqb n "__proto__")) eqn:T.
    + apply andb_true_iff in T. destruct T as [-> T]. apply negb_true_iff in T.
      destruct (IH (own_set n (entry_of n) acc)) as [ps [E [P G]]].
      { rewrite own_get_set. rewrite String.eqb_sym, T. exact Hp. }
      exists ps. split; [exact E|]. split; [exact P|].
      intros name Hn. rewrite (G name Hn), own_get_set, andb_true_r.
      rewrite (String.eqb_sym n name).
      destruct (String.eqb_spec name n) as [->|]; cbn [orb]; [|reflexivity].
      destruct (existsb _ r); reflexivity.
    + destruct (IH acc Hp) as [ps [E [P G]]].
      exists ps. split; [exact E|]. split; [exact P|].
      intros name Hn. rewrite (G name Hn).
      destruct (String.eqb_spec n name) as [->|]; cbn [andb orb]; [|reflexivity].
      destruct isdir; cbn [andb orb]; [|reflexivity].
      cbn [andb] in T. apply negb_false_iff, String.eqb_eq in T. contradiction.
Qed.

End Listing.

(** The listing is the loop run over the entries of [packages/]. *)
Lemma listAllPackages_fold {rt : Runtime} (base : string) (fs : filesystem) :
  listAllPackages base fs
  = (Return (fold_left (list_entry base fs) (package_entries base fs) (VObj [])), fs).
Proof.
  unfold listAllPackages, package_entries.
  destruct (FS.readdir fs (Path.join [base; "packages"])); reflexivity.
Qed.

(** X12. The listing never throws and leaves the file system as it
    is. Its keys are the names of the directories in [packages/], the
    name [__proto__] left out; a name is listed with the descriptor that
    [readPackageMeta] finds for it, or with an empty descriptor of that
    name when it finds none. When [packages/] cannot be read the
    listing is empty. *)
Theorem listAllPackages_lists {rt : Runtime} (base : string) (fs : filesystem) :
  exists ps,
    listAllPackages base fs = (Return (VObj ps), fs)
    /\ own_get "__proto__" ps = None
    /\ forall name, name <> "__proto__" ->
         own_get name ps
         = if has_package_dir base fs name
           then Some (or_else (descriptor_of base name fs) (empty_descriptor name))
           else None.
Proof.
  rewrite listAllPackages_fold.
  destruct (list_fold base fs (package_entries base fs) [] eq_refl) as [ps [E [P G]]].
  exists ps. rewrite E. split; [reflexivity|]. split; [exact P|].
  intros name Hn. rewrite (G name Hn). reflexivity.
Qed.

(** ** Where descriptors and tarballs meet *)

Lemma remove_dotdot_app (s : string) (c : ascii) (t : string) :
  Str.is_dot c = false ->
  Str.remove_dotdot (s ++ String c t)
  = Str.remove_dotdot s ++ Str.remove_dotdot (String c t).
Proof.
  intros Hc. induction s as [|a| a d r IHr IHdr] using string_pair_ind.
  - reflexivity.
  - change (String a "" ++ String c t) with (String a (String c t)).
    rewrite remove_dotdot_cons, Hc, andb_false_r. reflexivity.
  - change (String a (String d r) ++ String c t)
      with (String a (String d (r ++ String c t))).
    rewrite !remove_dotdot_cons.
    destruct (Str.is_dot a && Str.is_dot d); [exact IHr|].
    change (String d (r ++ String c t)) with (String d r ++ String c t).
    rewrite IHdr. reflexivity.
Qed.

Lemma map_app (f : ascii -> ascii) (a b : string) :
  Str.map f (a ++ b) = Str.map f a ++ Str.map f b.
Proof. induction a as [|c a IH]; [reflexivity|]. cbn. rewrite IH. reflexivity. Qed.

Lemma sanitizePkgName_tarballs (pkg : string) :
  sanitizePkgName (pkg ++ "/tarballs") = sanitizePkgName pkg ++ "/tarballs".
Proof.
  unfold sanitizePkgName. rewrite remove_dotdot_app by reflexivity.
  rewrite map_app. reflexivity.
Qed.

Lemma below_tarballs (key : string) :
  Path.below [key ++ "/tarballs"] = (Path.below [key] ++ ["tarballs"])%list.
Proof.
  unfold Path.below. cbn [flat_map]. rewrite !app_nil_r.
  change (key ++ "/tarballs") with (key ++ String Path.slash "tarballs").
  rewrite PathFacts.split_glue, filter_app. reflexivity.
Qed.

Lemma resolve_pkgDir (c : list string) (base pkg : string) :
  Path.resolve c (pkgDir_of base pkg)
  = (Path.resolve c base ++ "packages" :: Path.below [sanitizePkgName pkg])%list.
Proof. apply PathFacts.resolve_packages, sanitizePkgName_clean. Qed.

Lemma tarballs_descriptor_path (c : list string) (base pkg : string) :
  Path.resolve c (metaPath_of base (pkg ++ "/tarballs"))
  = Path.resolve c (tarballPath_of base pkg "meta.json").
Proof.
  rewrite StorePaths.resolve_metaPath, StorePaths.resolve_tarballPath, !resolve_pkgDir.
  rewrite sanitizePkgName_tarballs, below_tarballs.
  rewrite <- !app_assoc. cbn [app]. rewrite <- app_assoc. reflexivity.
Qed.

(** X11. The key of a package keeps its slashes, so the descriptors
    and the tarballs share one tree: a tarball stored for [pkg] under
    the name [meta.json] is the descriptor file of the package
    [pkg/tarballs], whose descriptor then reads as the parsed upload
    (or as [null] when the bytes do not parse). *)
Theorem tarball_named_meta_is_a_descriptor {rt : Runtime} (base pkg buffer p : string)
        (fs fs' : filesystem) :
  saveTarball base pkg "meta.json" buffer fs = (Return p, fs') ->
  readPackageMeta base (pkg ++ "/tarballs") fs'
  = (Return (match JSON_parse (utf8_decode buffer) with
             | Some v => v
             | None => VNull
             end), fs').
Proof.
  intros H. apply saveTarball_returns in H. destruct H as [-> [W _]].
  apply readPackageMeta_holds. unfold holds, FS.at_path in *.
  rewrite tarballs_descriptor_path. exact W.
Qed.

Lemma tarball_named_meta_is_a_descriptor_witness :
  readPackageMeta (rt:=MiniRuntime.runtime) Sample.STORAGE_DIR "left-pad/tarballs"
    (snd (saveTarball Sample.STORAGE_DIR "left-pad" "meta.json" "[7]" Sample.disk))
  = (Return (VArr [VNum 7] []),
     snd (saveTarball Sample.STORAGE_DIR "left-pad" "meta.json" "[7]" Sample.disk)).
Proof.
  apply (tarball_named_meta_is_a_descriptor (rt:=MiniRuntime.runtime) Sample.STORAGE_DIR
           "left-pad" "[7]" "/srv/storage/packages/left-pad/tarballs/meta.json" Sample.disk).
  vm_compute. reflexivity.
Defined.

(** ** Publishing, then reading *)

Lemma truthy_Object_assign (v : value) : truthy (Object_assign v) = true.
Proof. destruct (Object_assign_normal v) as [ps [E _]]. rewrite E. reflexivity. Qed.

Section Published.

Context {rt : Runtime}.
Variables STORAGE_DIR pkg : string.
Variable body : value.
Variable now : Z.
Variable uuid : string.
Variables fs fs' : filesystem.
Variable r : response.

Hypothesis publish : put_pkg STORAGE_DIR pkg body now uuid fs = (r, fs').
Hypothesis created : status r = 201.

(** A publish that is answered with status 201 has written the
    descriptor. *)
Lemma put_pkg_created :
  holds fs' (metaPath_of STORAGE_DIR pkg)
        (utf8_encode (JSON_stringify (Object_assign body)))
  /\ readPackageMeta STORAGE_DIR pkg fs'
     = (Return (match JSON_parse (utf8_decode (utf8_encode
                         (JSON_stringify (Object_assign body)))) with
                | Some v => v
                | None => VNull
                end), fs').
Proof.
  unfold put_pkg in publish.
  destruct (negb (truthy body) || negb (typeof_object body)).
  { inversion publish; subst. discriminate created. }
  unfold respond in publish.
  match type of publish with
  | (match ?m fs with _ => _ end) = _ => destruct (m fs) as [[r0|e] fs0] eqn:E
  end.
  2:{ inversion publish; subst. discriminate created. }
  inversion publish; subst; clear publish.
  step E. clear Hstep.
  step E. apply ret_returns in E. destruct E as [_ <-].
  split.
  - apply writePackageMeta_returns in Hstep. destruct Hstep as [-> [H _]]. exact H.
  - exact (write_then_read _ _ _ _ _ _ _ Hstep).
Qed.

End Published.

(** X14. A descriptor that was published is served: after a publish
    that was answered with status 201, [GET /:pkg] answers with status
    200, the JSON content type and the normalized payload, for every
    payload whose JSON text the runtime reads back as written. *)
Theorem published_descriptor_is_served {rt : Runtime} (STORAGE_DIR pkg : string)
        (body : value) (now : Z) (uuid : string) (fs fs' : filesystem) (r : response) :
  put_pkg STORAGE_DIR pkg body now uuid fs = (r, fs') ->
  status r = 201 ->
  JSON_parse (utf8_decode (utf8_encode (JSON_stringify (Object_assign body))))
  = Some (Object_assign body) ->
  get_pkg STORAGE_DIR pkg fs'
  = ({| headers := [("content-type", "application/json; charset=utf-8")];
        answer := {| status := 200; json := Object_assign body |} |}, fs').
Proof.
  intros P C J.
  destruct (put_pkg_created _ _ _ _ _ _ _ _ P C) as [_ R].
  unfold get_pkg. rewrite R, J, truthy_Object_assign. reflexivity.
Qed.

Lemma published_descriptor_is_served_witness :
  get_pkg (rt:=MiniRuntime.runtime) Sample.STORAGE_DIR "left-pad"
    (Sample.published MiniRuntime.runtime (VArr [VStr "x"] []))
  = ({| headers := [("content-type", "application/json; charset=utf-8")];
        answer := {| status := 200; json := VObj [("0", VStr "x")] |} |},
     Sample.published MiniRuntime.runtime (VArr [VStr "x"] [])).
Proof.
  apply (published_descriptor_is_served (rt:=MiniRuntime.runtime) Sample.STORAGE_DIR
           "left-pad" (VArr [VStr "x"] []) Sample.clock "id" Sample.disk
           (Sample.published MiniRuntime.runtime (VArr [VStr "x"] []))
           (fst (put_pkg (rt:=MiniRuntime.runtime) Sample.STORAGE_DIR "left-pad"
                         (VArr [VStr "x"] []) Sample.clock "id" Sample.disk))).
  - apply surjective_pairing.
  - vm_compute. reflexivity.
  - vm_compute. reflexivity.
Defined.

Lemma entry_get_in (k : string) (es : entries) (x : node) :
  FS.entry_get k es = Some x -> In (k, x) es.
Proof.
  induction es as [|[n y] r IH]; cbn; [discriminate|].
  destruct (String.eqb_spec k n) as [->|]; intros H.
  - inversion H; subst. left. reflexivity.
  - right. exact (IH H).
Qed.

Lemma resolve_packages_dir (c : list string) (base : string) :
  Path.resolve c (Path.join [base; "packages"])
  = (Path.resolve c base ++ ["packages"])%list.
Proof.
  change (Path.join [base; "packages"]) with (Path.join [base; "packages"; ""]).
  rewrite PathFacts.resolve_packages by reflexivity. reflexivity.
Qed.

(** A package whose directory is an entry of [packages/] is seen by
    the listing. *)
Lemma has_package_dir_made (base pkg : string) (fs : filesystem) (es : entries) :
  Path.plain (sanitizePkgName pkg) ->
  FS.lookup (root fs) (FS.at_path fs (pkgDir_of base pkg)) = Return (Dir es) ->
  has_package_dir base fs (sanitizePkgName pkg) = true.
Proof.
  intros Hp L. unfold FS.at_path in L.
  rewrite resolve_pkgDir, (StorePaths.below_plain _ Hp) in L.
  change ("packages" :: [sanitizePkgName pkg])
    with (["packages"] ++ [sanitizePkgName pkg])%list in L.
  rewrite app_assoc, FSFacts.lookup_app in L.
  unfold has_package_dir, package_entries, FS.readdir, FS.at_path.
  rewrite resolve_packages_dir.
  destruct (FS.lookup (root fs) (Path.resolve (cwd fs) base ++ ["packages"]))
    as [[d|es0]|e]; cbn [bind FS.lookup] in L; try discriminate L.
  destruct (FS.entry_get (sanitizePkgName pkg) es0) as [x|] eqn:G; [|discriminate L].
  inversion L; subst.
  apply existsb_exists. exists (sanitizePkgName pkg, true). split.
  - apply in_map_iff. exists (sanitizePkgName pkg, Dir es). split; [reflexivity|].
    apply entry_get_in. exact G.
  - cbn. rewrite String.eqb_refl. reflexivity.
Qed.

Lemma descriptor_of_key {rt : Runtime} (base pkg : string) (fs : filesystem) :
  descriptor_of base (sanitizePkgName pkg) fs = descriptor_of base pkg fs.
Proof.
  unfold descriptor_of, readPackageMeta.
  replace (sanitizePkgName (sanitizePkgName pkg)) with (sanitizePkgName pkg); [reflexivity|].
  symmetry. unfold sanitizePkgName.
  apply sanitize_idem; [exact pkg_filter_dot | exact pkg_filter_idem].
Qed.

(** X13. A package that was published is listed under its key, not
    under its raw name: after a publish that was answered with status
    201, for a package whose key is one directory name other than
    [__proto__], [GET /-/all] answers with status 200 and a listing that
    maps the sanitized name to the normalized payload. *)
Theorem published_package_is_listed {rt : Runtime} (STORAGE_DIR pkg : string)
        (body : value) (now : Z) (uuid : string) (fs fs' : filesystem) (r : response) :
  put_pkg STORAGE_DIR pkg body now uuid fs = (r, fs') ->
  status r = 201 ->
  Path.plain (sanitizePkgName pkg) ->
  sanitizePkgName pkg <> "__proto__" ->
  JSON_parse (utf8_decode (utf8_encode (JSON_stringify (Object_assign body))))
  = Some (Object_assign body) ->
  exists listing,
    get_all STORAGE_DIR fs' = ({| status := 200; json := VObj listing |}, fs')
    /\ own_get (sanitizePkgName pkg) listing = Some (Object_assign body).
Proof.
  intros P C Hp Hk J.
  destruct (put_pkg_created _ _ _ _ _ _ _ _ P C) as [W R].
  destruct (list_fold STORAGE_DIR fs' (package_entries STORAGE_DIR fs') [] eq_refl)
    as [listing [L [_ G]]].
  exists listing. unfold get_all. rewrite listAllPackages_fold, L. split; [reflexivity|].
  rewrite (G _ Hk), descriptor_of_key.
  assert (D : descriptor_of STORAGE_DIR pkg fs' = Object_assign body).
  { unfold descriptor_of. rewrite R, J. reflexivity. }
  rewrite D. unfold or_else. rewrite truthy_Object_assign.
  unfold holds, FS.file_at, FS.at_path in W.
  rewrite StorePaths.resolve_metaPath in W.
  destruct (lookup_parent _ _ _ _ W) as [es E].
  pose proof (has_package_dir_made STORAGE_DIR pkg fs' es Hp E) as Hd.
  unfold has_package_dir in Hd. rewrite Hd. reflexivity.
Qed.

Lemma published_package_is_listed_witness :
  exists listing,
    get_all (rt:=MiniRuntime.runtime) Sample.STORAGE_DIR
      (snd (put_pkg (rt:=MiniRuntime.runtime) Sample.STORAGE_DIR "left pad"
                    (Sample.descriptor "left pad") Sample.clock "id" Sample.disk))
    = ({| status := 200; json := VObj listing |},
       snd (put_pkg (rt:=MiniRuntime.runtime) Sample.STORAGE_DIR "left pad"
                    (Sample.descriptor "left pad") Sample.clock "id" Sample.disk))
    /\ own_get "left_pad" listing = Some (Sample.descriptor "left pad").
Proof.
  apply (published_package_is_listed (rt:=MiniRuntime.runtime) Sample.STORAGE_DIR
           "left pad" (Sample.descriptor "left pad") Sample.clock "id" Sample.disk
           (snd (put_pkg (rt:=MiniRuntime.runtime) Sample.STORAGE_DIR "left pad"
                         (Sample.descriptor "left pad") Sample.clock "id" Sample.disk))
           (fst (put_pkg (rt:=MiniRuntime.runtime) Sample.STORAGE_DIR "left pad"
                         (Sample.descriptor "left pad") Sample.clock "id" Sample.disk))).
  - apply surjective_pairing.
  - vm_compute. reflexivity.
  - repeat split.
  - discriminate.
  - vm_compute. reflexivity.
Defined.

(** ** Uploading, then downloading *)

Lemma header_value_app (a b : string) :
  header_value (a ++ b) = header_value a && header_value b.
Proof.
  induction a as [|c a IH]; [reflexivity|].
  cbn. rewrite IH, andb_assoc. reflexivity.
Qed.

Lemma disposition_value (name : string) :
  header_value ("attachment; filename=" ++ String quotation_mark
                  (name ++ String quotation_mark EmptyString))
  = header_value name.
Proof.
  rewrite header_value_app.
  replace (header_value "attachment; filename=") with true by (vm_compute; reflexivity).
  cbn [andb header_value].
  replace (header_char quotation_mark) with true by (vm_compute; reflexivity).
  cbn [andb]. rewrite header_value_app. cbn [header_value].
  replace (header_char quotation_mark) with true by (vm_compute; reflexivity).
  rewrite andb_true_r. reflexivity.
Qed.

(** What [GET /:pkg/-/:filename] sends for a tarball that the store
    holds. *)
Lemma get_tarball_holds (STORAGE_DIR pkg filename data : string) (fs : filesystem) :
  holds fs (tarballPath_of STORAGE_DIR pkg filename) data ->
  get_tarball STORAGE_DIR pkg filename fs
  = (if header_value (basename filename)
     then Piped [("content-type", "application/octet-stream");
                 ("content-disposition",
                  "attachment; filename=" ++ String quotation_mark
                     (basename filename ++ String quotation_mark EmptyString))]
                (Return data)
     else Refused (server_error TypeError), fs).
Proof.
  intros H. destruct (getTarballPath_holds _ _ _ _ _ H) as [p [G Rd]].
  unfold get_tarball. rewrite G.
  assert (N : String.eqb p "" = false).
  { unfold getTarballPath in G. destruct (FS.access fs _); inversion G; subst.
    destruct (String.eqb_spec (Path.join [Path.join [STORAGE_DIR; "packages"; sanitizePkgName pkg];
                                          "tarballs"; sanitizeFilename filename]) "") as [E|];
      [|reflexivity].
    destruct (PathFacts.join_nonempty _ E). }
  rewrite N. unfold setHeader. rewrite disposition_value.
  destruct (header_value (basename filename)); [rewrite Rd|]; reflexivity.
Qed.

(** X15. A tarball that was uploaded is downloaded: after an upload
    that was answered with status 201, [GET /:pkg/-/:filename] for the
    same package and file name pipes the uploaded bytes, with the
    content type [application/octet-stream] and a [content-disposition]
    that names the basename of the file. The one exception is a name
    with a character that Node refuses in a header (a control character
    other than the tab): the download is answered with status 500
    although the tarball is stored. *)
Theorem uploaded_tarball_is_downloaded {rt : Runtime} (STORAGE_DIR pkg filename : string)
        (file : option string) (chunks : outcome (list string))
        (protocol : string) (host : option string) (now : Z)
        (fs fs' : filesystem) (r : response) :
  put_tarball STORAGE_DIR pkg filename file chunks protocol host now fs = (r, fs') ->
  status r = 201 ->
  exists dataBuffer,
    request_tarball file chunks = Some dataBuffer
    /\ get_tarball STORAGE_DIR pkg filename fs'
       = (if header_value (basename filename)
          then Piped [("content-type", "application/octet-stream");
                      ("content-disposition",
                       "attachment; filename=" ++ String quotation_mark
                          (basename filename ++ String quotation_mark EmptyString))]
                     (Return dataBuffer)
          else Refused (server_error TypeError), fs').
Proof.
  intros U C.
  destruct (put_tarball_created _ _ _ _ _ _ _ _ _ _ _ U C) as [dataBuffer [meta [B [_ [_ T]]]]].
  exists dataBuffer. split; [exact B|]. apply get_tarball_holds. exact T.
Qed.

Lemma uploaded_tarball_is_downloaded_witness :
  exists dataBuffer,
    request_tarball (Some "tarball bytes") (Return []) = Some dataBuffer
    /\ get_tarball Sample.STORAGE_DIR "left-pad" "left-pad-1.0.0.tgz"
         (snd (Sample.upload MiniRuntime.runtime Sample.disk))
       = (if header_value (basename "left-pad-1.0.0.tgz")
          then Piped [("content-type", "application/octet-stream");
                      ("content-disposition",
                       "attachment; filename=" ++ String quotation_mark
                          (basename "left-pad-1.0.0.tgz" ++ String quotation_mark EmptyString))]
                     (Return dataBuffer)
          else Refused (server_error TypeError),
          snd (Sample.upload MiniRuntime.runtime Sample.disk)).
Proof.
  apply (uploaded_tarball_is_downloaded (rt:=MiniRuntime.runtime) Sample.STORAGE_DIR
           "left-pad" "left-pad-1.0.0.tgz" (Some "tarball bytes") (Return [])
           "http" (Some "localhost:4873") (Sample.clock + 1) Sample.disk
           (snd (Sample.upload MiniRuntime.runtime Sample.disk))
           (fst (Sample.upload MiniRuntime.runtime Sample.disk))).
  - apply surjective_pairing.
  - vm_compute. reflexivity.
Defined.

(** A name with a line feed: the upload is answered with status 201
    and the download with status 500. *)
Example download_refused :
  let name := String "a" (String (ascii_of_nat 10) "b") in
  get_tarball Sample.STORAGE_DIR "left-pad" name
    (snd (put_tarball (rt:=MiniRuntime.runtime) Sample.STORAGE_DIR "left-pad" name
            (Some "tarball bytes") (Return []) "http" (Some "localhost:4873")
            (Sample.clock + 1) Sample.disk))
  = (Refused (server_error TypeError),
     snd (put_tarball (rt:=MiniRuntime.runtime) Sample.STORAGE_DIR "left-pad" name
            (Some "tarball bytes") (Return []) "http" (Some "localhost:4873")
            (Sample.clock + 1) Sample.disk))
  /\ status (fst (put_tarball (rt:=MiniRuntime.runtime) Sample.STORAGE_DIR "left-pad" name
            (Some "tarball bytes") (Return []) "http" (Some "localhost:4873")
            (Sample.clock + 1) Sample.disk)) = 201.
Proof. vm_compute. split; reflexivity. Qed.

(** ** Uploads that fail *)

Lemma write_at_dir (p : list string) :
  forall n es data, FS.lookup n p = Return (Dir es) -> FS.write_at n p data = Throw EISDIR.
Proof.
  induction p as [|name rest IH]; intros n es data L.
  - cbn in L. inversion L; subst. reflexivity.
  - cbn in L |- *. destruct n as [|es0]; [discriminate|].
    destruct (FS.entry_get name es0) as [c|]; [|discriminate].
    rewrite (IH c es data L). reflexivity.
Qed.

Lemma saveTarball_blank (base pkg filename buffer : string) (c : list string) (n : node) :
  has_directories base pkg c n ->
  Path.is_blank (sanitizeFilename filename) = true ->
  saveTarball base pkg filename buffer {| cwd := c; root := n |}
  = (Throw EISDIR, {| cwd := c; root := n |}).
Proof.
  intros S B. unfold saveTarball.
  rewrite (io_bind_run _ _ _ _ _ (ensure_again base pkg c n S)).
  fold (tarballPath_of base pkg filename).
  unfold io_bind, mutate, FS.writeFile, FS.at_path. cbn [cwd root].
  rewrite StorePaths.resolve_tarballPath, (below_blank _ B).
  destruct S as [_ [es E]]. rewrite (write_at_dir _ _ es buffer E). reflexivity.
Qed.

(** X17. An upload whose file name is blank once sanitized ([..], [.])
    is answered with status 500, and it neither writes nor changes any
    file, whatever the store (the directories of the package may have
    been made). *)
Theorem upload_of_blank_name_fails {rt : Runtime} (STORAGE_DIR pkg filename : string)
        (file : option string) (chunks : outcome (list string))
        (protocol : string) (host : option string) (now : Z)
        (fs : filesystem) (dataBuffer : string) :
  request_tarball file chunks = Some dataBuffer ->
  Path.is_blank (sanitizeFilename filename) = true ->
  status (fst (put_tarball STORAGE_DIR pkg filename file chunks protocol host now fs)) = 500
  /\ same_files_but [] fs
       (snd (put_tarball STORAGE_DIR pkg filename file chunks protocol host now fs)).
Proof.
  intros B Bl.
  destruct (put_tarball STORAGE_DIR pkg filename file chunks protocol host now fs)
    as [r fs'] eqn:U. cbn [fst snd].
  unfold put_tarball in U. rewrite B in U. unfold respond in U.
  match type of U with
  | (match ?m fs with _ => _ end) = _ => destruct (m fs) as [o fs0] eqn:E
  end.
  pose proof (ensurePackageDir_files STORAGE_DIR pkg fs) as S0.
  apply io_bind_cases in E. destruct E as [[e [E ->]]|[d [fs1 [E1 E]]]].
  - rewrite E in S0. inversion U; subst. split; [reflexivity | exact S0].
  - rewrite E1 in S0. cbn [snd] in S0.
    destruct (ensurePackageDir_made _ _ _ _ _ E1) as [C M].
    destruct fs1 as [c1 n1]. cbn [cwd root] in C, M. subst c1.
    unfold io_bind in E.
    rewrite (saveTarball_blank STORAGE_DIR pkg filename dataBuffer (cwd fs) n1 M Bl) in E.
    inversion E; subst. inversion U; subst. split; [reflexivity | exact S0].
Qed.

Lemma upload_of_blank_name_fails_witness :
  status (fst (put_tarball (rt:=MiniRuntime.runtime) Sample.STORAGE_DIR "left-pad" ".."
                 (Some "tarball bytes") (Return []) "http" (Some "localhost:4873")
                 (Sample.clock + 1) Sample.disk)) = 500
  /\ same_files_but [] Sample.disk
       (snd (put_tarball (rt:=MiniRuntime.runtime) Sample.STORAGE_DIR "left-pad" ".."
               (Some "tarball bytes") (Return []) "http" (Some "localhost:4873")
               (Sample.clock + 1) Sample.disk)).
Proof.
  apply (upload_of_blank_name_fails (rt:=MiniRuntime.runtime) Sample.STORAGE_DIR "left-pad"
           ".." (Some "tarball bytes") (Return []) "http" (Some "localhost:4873")
           (Sample.clock + 1) Sample.disk "tarball bytes"); reflexivity.
Defined.

(** X18. An upload is not all or nothing. When the directories of the
    package are made and the tarball is saved, and the statements that
    record the tarball then throw (the [versions] of the descriptor
    are a number, say), the upload is answered with status 500 and the
    error, nothing is undone: the tarball stays in the store, and the
    descriptor reads as it did before the upload. *)
Theorem failed_upload_keeps_tarball {rt : Runtime} (STORAGE_DIR pkg filename : string)
        (file : option string) (chunks : outcome (list string))
        (protocol : string) (host : option string) (now : Z)
        (fs fs1 fs2 : filesystem) (dataBuffer d p : string) (e : error) :
  request_tarball file chunks = Some dataBuffer ->
  ensurePackageDir STORAGE_DIR pkg fs = (Return d, fs1) ->
  saveTarball STORAGE_DIR pkg filename dataBuffer fs1 = (Return p, fs2) ->
  record_tarball (or_else (descriptor_of STORAGE_DIR pkg fs) (empty_descriptor pkg))
                 (tarball_url protocol host pkg filename) = Throw e ->
  put_tarball STORAGE_DIR pkg filename file chunks protocol host now fs
  = (server_error e, fs2)
  /\ holds fs2 (tarballPath_of STORAGE_DIR pkg filename) dataBuffer
  /\ descriptor_of STORAGE_DIR pkg fs2 = descriptor_of STORAGE_DIR pkg fs.
Proof.
  intros B E Sv Rec.
  destruct (ensurePackageDir_returns _ _ _ _ _ E) as [_ S0].
  destruct (saveTarball_returns _ _ _ _ _ _ _ Sv) as [Hp [T S1]]. subst p.
  assert (D : descriptor_of STORAGE_DIR pkg fs2 = descriptor_of STORAGE_DIR pkg fs).
  { apply descriptor_of_files. intros x.
    rewrite (same_files_holds _ _ _ _ x S1).
    - apply (same_files_holds _ _ _ _ x S0). intros [].
    - rewrite !(at_path_cwd fs fs1) by apply S0.
      intros [H|[]].
      exact (StorePaths.tarball_not_meta (cwd fs) STORAGE_DIR pkg filename H). }
  split; [|split; [exact T | exact D]].
  unfold put_tarball. rewrite B. unfold respond.
  rewrite (io_bind_run _ _ _ _ _ E).
  rewrite (io_bind_run _ _ _ _ _ Sv).
  rewrite (io_bind_run _ _ _ _ _ (readPackageMeta_descriptor STORAGE_DIR pkg _)).
  rewrite D. unfold lift at 1.
  unfold io_bind at 1. rewrite Rec. reflexivity.
Qed.

Lemma failed_upload_keeps_tarball_witness :
  let rt := MiniRuntime.runtime in
  let fs := Sample.published rt (VObj [("versions", VNum 5)]) in
  let fs1 := snd (ensurePackageDir Sample.STORAGE_DIR "left-pad" fs) in
  let fs2 := snd (saveTarball Sample.STORAGE_DIR "left-pad" "left-pad-1.0.0.tgz"
                              "tarball bytes" fs1) in
  Sample.upload rt fs = (server_error TypeError, fs2)
  /\ holds fs2 (tarballPath_of Sample.STORAGE_DIR "left-pad" "left-pad-1.0.0.tgz")
           "tarball bytes"
  /\ descriptor_of Sample.STORAGE_DIR "left-pad" fs2
     = descriptor_of Sample.STORAGE_DIR "left-pad" fs.
Proof.
  apply (failed_upload_keeps_tarball (rt:=MiniRuntime.runtime) Sample.STORAGE_DIR "left-pad"
           "left-pad-1.0.0.tgz" (Some "tarball bytes") (Return []) "http"
           (Some "localhost:4873") (Sample.clock + 1)
           (Sample.published MiniRuntime.runtime (VObj [("versions", VNum 5)]))
           (snd (ensurePackageDir Sample.STORAGE_DIR "left-pad"
                   (Sample.published MiniRuntime.runtime (VObj [("versions", VNum 5)]))))
           (snd (saveTarball Sample.STORAGE_DIR "left-pad"
                   "left-pad-1.0.0.tgz" "tarball bytes"
                   (snd (ensurePackageDir Sample.STORAGE_DIR
                           "left-pad"
                           (Sample.published MiniRuntime.runtime
                              (VObj [("versions", VNum 5)]))))))
           "tarball bytes" "/srv/storage/packages/left-pad"
           "/srv/storage/packages/left-pad/tarballs/left-pad-1.0.0.tgz" TypeError).
  - reflexivity.
  - vm_compute. reflexivity.
  - vm_compute. reflexivity.
  - vm_compute. reflexivity.
Defined.

(** ** What the publishing handlers change *)

Lemma bind_files {A B : Type} (m : io A) (f : A -> io B)
      (c1 c2 : list (list string)) (fs : filesystem) :
  same_files_but c1 fs (snd (m fs)) ->
  (forall a fs1, m fs = (Return a, fs1) -> same_files_but c2 fs1 (snd (f a fs1))) ->
  same_files_but (c1 ++ c2) fs (snd (io_bind m f fs)).
Proof.
  intros S1 S2. unfold io_bind.
  destruct (m fs) as [[a|e] fs1] eqn:E; cbn [snd] in S1 |- *.
  - exact (same_files_trans S1 (S2 a fs1 eq_refl)).
  - apply (same_files_more _ _ _ _ S1). intros x Hx. apply in_or_app. left. exact Hx.
Qed.

Lemma snd_respond (m : io response) (fs : filesystem) : snd (respond m fs) = snd (m fs).
Proof. unfold respond. destruct (m fs) as [[r|e] fs1]; reflexivity. Qed.

Lemma writePackageMeta_touches {rt : Runtime} (base pkg : string) (meta : value) (now : Z)
      (fs0 fs : filesystem) :
  cwd fs = cwd fs0 ->
  same_files_but [FS.at_path fs0 (tmp_name (metaPath_of base pkg) now);
                  FS.at_path fs0 (metaPath_of base pkg)] fs
                 (snd (writePackageMeta base pkg meta now fs)).
Proof.
  intros C. rewrite <- !(at_path_cwd fs0 fs) by exact C.
  destruct (writePackageMeta base pkg meta now fs) as [o fs'] eqn:H. cbn [snd].
  pose proof (writePackageMeta_files base pkg meta now fs _ _ H) as S.
  destruct o; [exact S|]. apply (same_files_more _ _ _ _ S). intros x [<-|[]]. left. reflexivity.
Qed.

(** X19. What the publishing handlers leave alone, whatever their
    answer: a publish changes no file but the descriptor of the package
    and the temporary file of the write; an upload changes no file but
    the tarball, that descriptor and that temporary file. *)
Theorem handlers_touch_own_files {rt : Runtime} (STORAGE_DIR pkg filename : string)
        (body : value) (uuid : string)
        (file : option string) (chunks : outcome (list string))
        (protocol : string) (host : option string) (now : Z) (fs : filesystem) :
  same_files_but [FS.at_path fs (tmp_name (metaPath_of STORAGE_DIR pkg) now);
                  FS.at_path fs (metaPath_of STORAGE_DIR pkg)] fs
                 (snd (put_pkg STORAGE_DIR pkg body now uuid fs))
  /\ same_files_but [FS.at_path fs (tarballPath_of STORAGE_DIR pkg filename);
                     FS.at_path fs (tmp_name (metaPath_of STORAGE_DIR pkg) now);
                     FS.at_path fs (metaPath_of STORAGE_DIR pkg)] fs
                    (snd (put_tarball STORAGE_DIR pkg filename file chunks protocol host
                                      now fs)).
Proof.
  split.
  - unfold put_pkg. destruct (negb (truthy body) || negb (typeof_object body)).
    { cbn [snd]. apply (same_files_more []); [apply same_files_refl | intros x []]. }
    rewrite snd_respond.
    apply (bind_files _ _ [] _ fs (ensurePackageDir_files STORAGE_DIR pkg fs)).
    intros d fs1 E.
    pose proof (ensurePackageDir_cwd STORAGE_DIR pkg fs) as C. rewrite E in C. cbn [snd] in C.
    rewrite <- (app_nil_r [_; _]).
    apply bind_files; [apply writePackageMeta_touches; exact C|].
    intros p fs2 _. apply same_files_refl.
  - unfold put_tarball. destruct (request_tarball file chunks) as [dataBuffer|].
    2:{ cbn [snd]. apply (same_files_more []); [apply same_files_refl | intros x []]. }
    rewrite snd_respond.
    apply (bind_files _ _ [] _ fs (ensurePackageDir_files STORAGE_DIR pkg fs)).
    intros d fs1 E.
    pose proof (ensurePackageDir_cwd STORAGE_DIR pkg fs) as C. rewrite E in C. cbn [snd] in C.
    apply (bind_files _ _ [_] [_; _] fs1).
    { rewrite <- (at_path_cwd fs fs1) by exact C. apply saveTarball_files. }
    intros saved fs2 Sv.
    assert (C2 : cwd fs2 = cwd fs).
    { pose proof (saveTarball_files STORAGE_DIR pkg filename dataBuffer fs1) as S.
      rewrite Sv in S. destruct S as [S _]. cbn [snd] in S. congruence. }
    apply (bind_files _ _ [] [_; _] fs2).
    { rewrite readPackageMeta_descriptor. apply same_files_refl. }
    intros found fs3 Rd. rewrite readPackageMeta_descriptor in Rd. inversion Rd; subst fs3.
    apply (bind_files _ _ [] [_; _] fs2).
    { unfold lift. apply same_files_refl. }
    intros meta fs4 Lf. unfold lift in Lf. inversion Lf; subst fs4.
    rewrite <- (app_nil_r [_; _]).
    apply bind_files; [apply writePackageMeta_touches; exact C2|].
    intros p fs5 _. apply same_files_refl.
Qed.

(** * Properties of the authentication *)

(** ** Trimming *)

Lemma trimStart_head (s : string) : head_black (trimStart s) = true.
Proof.
  induction s as [|c r IH]; [reflexivity|].
  cbn [trimStart]. destruct (is_white c) eqn:W; [exact IH|].
  cbn. rewrite W. reflexivity.
Qed.

Lemma trimStart_fixed (s : string) : head_black s = true -> trimStart s = s.
Proof.
  destruct s as [|c r]; [reflexivity|]. cbn. intros H.
  apply negb_true_iff in H. rewrite H. reflexivity.
Qed.

Lemma trimEnd_head (s : string) : head_black s = true -> head_black (trimEnd s) = true.
Proof.
  destruct s as [|c r]; [reflexivity|]. cbn [head_black trimEnd]. intros H.
  destruct (trimEnd r); [|exact H].
  apply negb_true_iff in H. rewrite H. cbn. rewrite H. reflexivity.
Qed.

Lemma trimEnd_idem (s : string) : trimEnd (trimEnd s) = trimEnd s.
Proof.
  induction s as [|c r IH]; [reflexivity|].
  cbn [trimEnd]. destruct (trimEnd r) as [|d u] eqn:E.
  - destruct (is_white c) eqn:W; [reflexivity|]. cbn. rewrite W. reflexivity.
  - cbn [trimEnd] in IH |- *. rewrite IH. reflexivity.
Qed.

Lemma trim_idem (s : string) : trim (trim s) = trim s.
Proof.
  unfold trim.
  rewrite (trimStart_fixed (trimEnd (trimStart s))).
  - apply trimEnd_idem.
  - apply trimEnd_head, trimStart_head.
Qed.

Lemma trimEnd_black (s : string) :
  every (fun c => negb (is_white c)) s = true -> trimEnd s = s.
Proof.
  induction s as [|c r IH]; [reflexivity|].
  cbn [every trimEnd]. intros H. apply andb_true_iff in H. destruct H as [H1 H2].
  rewrite (IH H2). destruct r; [|reflexivity].
  apply negb_true_iff in H1. rewrite H1. reflexivity.
Qed.

Lemma every_app (f : ascii -> bool) (a b : string) :
  every f (a ++ b) = every f a && every f b.
Proof.
  induction a as [|c a IH]; [reflexivity|].
  cbn. rewrite IH, andb_assoc. reflexivity.
Qed.

Lemma trim_black (s : string) :
  every (fun c => negb (is_white c)) s = true -> trim s = s.
Proof.
  intros H. unfold trim. rewrite trimStart_fixed.
  - apply trimEnd_black. exact H.
  - destruct s as [|c r]; [reflexivity|]. cbn in H |- *.
    apply andb_true_iff in H. apply H.
Qed.

(** ** The middleware *)

Lemma startsWith_slice (t s : string) :
  Str.startsWith t s = true -> s = t ++ slice (String.length t) s.
Proof.
  revert s. induction t as [|a t IH]; intros s H; [reflexivity|].
  destruct s as [|b s]; [discriminate H|].
  cbn in H. apply andb_true_iff in H. destruct H as [H1 H2].
  apply Ascii.eqb_eq in H1. subst b. cbn. rewrite <- (IH s H2). reflexivity.
Qed.

(** A request that the middleware lets through carries the token. *)
Lemma authMiddleware_passed (token : string) (authorization : option string) :
  token <> "" ->
  authMiddleware token authorization = None ->
  exists supplied,
    authorization = Some ("Bearer " ++ supplied) /\ trim supplied = token.
Proof.
  intros Ht. unfold authMiddleware.
  destruct (String.eqb_spec token "") as [|_]; [contradiction|].
  set (auth := match authorization with Some (String c a) => String c a | _ => "" end).
  destruct (Str.startsWith "Bearer " auth) eqn:S; cbn [negb]; [|discriminate].
  pose proof (startsWith_slice _ _ S) as E.
  destruct (String.eqb_spec (trim (slice (String.length "Bearer ") auth)) "") as [|_];
    cbn [orb]; [discriminate|].
  destruct (String.eqb_spec (trim (slice (String.length "Bearer ") auth)) token) as [T|];
    cbn [negb]; [|discriminate].
  intros _. exists (slice (String.length "Bearer ") auth). split; [|exact T].
  rewrite <- E. subst auth.
  destruct authorization as [[|c a]|]; [discriminate S | reflexivity | discriminate S].
Qed.

(** A request that carries the token is let through. *)
Lemma authMiddleware_passes (token supplied : string) :
  token <> "" -> trim supplied = token ->
  authMiddleware token (Some ("Bearer " ++ supplied)) = None.
Proof.
  intros Ht T. unfold authMiddleware.
  destruct (String.eqb_spec token "") as [|_]; [contradiction|].
  assert (A : match "Bearer " ++ supplied with
              | "" => ""
              | String c a => String c a
              end = "Bearer " ++ supplied) by reflexivity.
  rewrite A.
  change (Str.startsWith "Bearer " ("Bearer " ++ supplied)) with true.
  change (slice (String.length "Bearer ") ("Bearer " ++ supplied)) with supplied.
  rewrite T. cbn [negb].
  destruct (String.eqb_spec token "") as [|_]; [contradiction|].
  rewrite String.eqb_refl. reflexivity.
Qed.

(** X21. With a token configured, the middleware lets a request
    through exactly when its [Authorization] header is [Bearer ],
    followed by text that is the token once trimmed. *)
Theorem authMiddleware_accepts (token : string) (authorization : option string) :
  token <> "" ->
  (authMiddleware token authorization = None
   <-> exists supplied,
         authorization = Some ("Bearer " ++ supplied) /\ trim supplied = token).
Proof.
  intros Ht. split.
  - apply authMiddleware_passed. exact Ht.
  - intros [supplied [-> T]]. apply authMiddleware_passes; assumption.
Qed.

Lemma authMiddleware_accepts_witness :
  authMiddleware "s3cret" (Some "Bearer  s3cret ") = None.
Proof.
  apply (authMiddleware_accepts "s3cret" (Some "Bearer  s3cret ")); [discriminate|].
  exists " s3cret ". split; reflexivity.
Defined.

Lemma authMiddleware_refuses (token : string) (authorization : option string) :
  token <> "" ->
  authMiddleware token authorization = None
  \/ authMiddleware token authorization = Some unauthorized
  \/ authMiddleware token authorization = Some forbidden.
Proof.
  intros Ht. unfold authMiddleware.
  destruct (String.eqb_spec token "") as [|_]; [contradiction|].
  destruct (Str.startsWith "Bearer " _); cbn [negb]; [|right; left; reflexivity].
  destruct (_ || _); [right; right; reflexivity | left; reflexivity].
Qed.

(** X25. With a token configured, a request that does not carry it
    reaches no handler and changes nothing: it is answered with status
    403 when its [Authorization] header begins with [Bearer ], and with
    status 401 otherwise. *)
Theorem refused_request_changes_nothing (AUTH_TOKEN : string) (authorization : option string)
        (handler : filesystem -> response * filesystem) (fs : filesystem) :
  AUTH_TOKEN <> "" ->
  (forall supplied, authorization = Some ("Bearer " ++ supplied) ->
                    trim supplied <> AUTH_TOKEN) ->
  behind_auth AUTH_TOKEN authorization handler fs
  = (if Str.startsWith "Bearer " (match authorization with Some a => a | None => "" end)
     then forbidden else unauthorized, fs).
Proof.
  intros Ht Hno. unfold behind_auth.
  destruct (authMiddleware AUTH_TOKEN authorization) as [refusal|] eqn:A.
  - f_equal. unfold authMiddleware in A.
    destruct (String.eqb_spec AUTH_TOKEN "") as [|_]; [contradiction|].
    assert (E : match authorization with Some (String c a) => String c a | _ => "" end
                = match authorization with Some a => a | None => "" end)
      by (destruct authorization as [[|c a]|]; reflexivity).
    rewrite E in A.
    destruct (Str.startsWith "Bearer " _); cbn [negb] in A.
    + destruct (_ || _); inversion A; reflexivity.
    + inversion A; reflexivity.
  - destruct (authMiddleware_passed AUTH_TOKEN authorization Ht A) as [supplied [E T]].
    destruct (Hno supplied E T).
Qed.

Lemma refused_request_changes_nothing_witness :
  behind_auth "s3cret" (Some "Bearer guess")
    (put_pkg (rt:=MiniRuntime.runtime) Sample.STORAGE_DIR "left-pad"
             (Sample.descriptor "left-pad") Sample.clock "id") Sample.disk
  = (forbidden, Sample.disk).
Proof.
  apply (refused_request_changes_nothing "s3cret" (Some "Bearer guess")).
  - discriminate.
  - intros supplied E. inversion E; subst. discriminate.
Defined.

(** ** The token *)

Lemma trim_empty (t : string) : trim t <> t -> t <> "".
Proof. intros H ->. apply H. reflexivity. Qed.

(** X22. The token of the environment is taken as it is, while the
    token of a request is trimmed: with a [REGISTRY_TOKEN] that begins
    or ends with white space, every request is refused, whatever its
    [Authorization] header. *)
Theorem untrimmed_token_locks_out {rt : Runtime} (token random : string) (fs : filesystem)
        (authorization : option string) :
  trim token <> token ->
  readTokenFromEnvOrFile (Some token) random fs = (Return token, fs)
  /\ (authMiddleware token authorization = Some unauthorized
      \/ authMiddleware token authorization = Some forbidden).
Proof.
  intros H. pose proof (trim_empty token H) as Ht. split.
  - unfold readTokenFromEnvOrFile. destruct token; [contradiction | reflexivity].
  - destruct (authMiddleware_refuses token authorization Ht) as [A|A]; [|exact A].
    destruct (authMiddleware_passed token authorization Ht A) as [supplied [_ T]].
    exfalso. apply H.
    rewrite <- T. apply trim_idem.
Qed.

Lemma untrimmed_token_locks_out_witness :
  readTokenFromEnvOrFile (rt:=MiniRuntime.runtime) (Some "s3cret ") "k3y" Sample.disk
  = (Return "s3cret ", Sample.disk)
  /\ (authMiddleware "s3cret " (Some "Bearer s3cret ") = Some unauthorized
      \/ authMiddleware "s3cret " (Some "Bearer s3cret ") = Some forbidden).
Proof.
  apply (untrimmed_token_locks_out (rt:=MiniRuntime.runtime) "s3cret " "k3y" Sample.disk
           (Some "Bearer s3cret ")).
  discriminate.
Defined.

Section Token.

Context {rt : Runtime}.
Variable REGISTRY_TOKEN : option string.
Variable random : string.
Variable fs : filesystem.

Let tokenFile : string := path_resolve (process_cwd fs) "token".

Lemma token_of_file_nonempty (t : string) :
  token_of_file fs tokenFile = Some t -> t <> "".
Proof.
  unfold token_of_file. destruct (FS.readFile fs tokenFile) as [raw|]; [|discriminate].
  cbv zeta. destruct (String.eqb_spec (trim (utf8_decode raw)) "") as [|N]; cbn [negb];
    [discriminate|].
  intros H. inversion H; subst. exact N.
Qed.

(** The ways in which the token is found. *)
Lemma readToken_cases :
  (exists t, readTokenFromEnvOrFile REGISTRY_TOKEN random fs = (Return t, fs) /\ t <> "")
  \/ (token_of_file fs tokenFile = None
      /\ exists fs',
           readTokenFromEnvOrFile REGISTRY_TOKEN random fs
           = (Return ("dev-token-" ++ random), fs')
           /\ (FS.writeFile fs tokenFile (utf8_encode ("dev-token-" ++ random)) = Return fs'
               \/ (fs' = fs /\ returns (FS.writeFile fs tokenFile
                                          (utf8_encode ("dev-token-" ++ random))) = false))).
Proof.
  unfold readTokenFromEnvOrFile. fold tokenFile.
  assert (G : (exists t, match token_of_file fs tokenFile with
                    | Some t => (Return t, fs)
                    | None =>
                        match FS.writeFile fs tokenFile (utf8_encode ("dev-token-" ++ random)) with
                        | Return fs' => (Return ("dev-token-" ++ random), fs')
                        | Throw _ => (Return ("dev-token-" ++ random), fs)
                        end
                    end = (Return t, fs) /\ t <> "")
              \/ (token_of_file fs tokenFile = None
                  /\ exists fs',
                       match token_of_file fs tokenFile with
                       | Some t => (Return t, fs)
                       | None =>
                           match FS.writeFile fs tokenFile
                                   (utf8_encode ("dev-token-" ++ random)) with
                           | Return fs' => (Return ("dev-token-" ++ random), fs')
                           | Throw _ => (Return ("dev-token-" ++ random), fs)
                           end
                       end = (Return ("dev-token-" ++ random), fs')
                       /\ (FS.writeFile fs tokenFile (utf8_encode ("dev-token-" ++ random))
                           = Return fs'
                           \/ (fs' = fs
                               /\ returns (FS.writeFile fs tokenFile
                                             (utf8_encode ("dev-token-" ++ random)))
                                  = false)))).
  { destruct (token_of_file fs tokenFile) as [t|] eqn:F.
    - left. exists t. split; [reflexivity | exact (token_of_file_nonempty t F)].
    - right. split; [reflexivity|].
      destruct (FS.writeFile fs tokenFile _) as [fs'|e] eqn:W.
      + exists fs'. split; [reflexivity | left; reflexivity].
      + exists fs. split; [reflexivity | right; split; reflexivity]. }
  destruct REGISTRY_TOKEN as [[|c t]|]; [exact G | | exact G].
  left. exists (String c t). split; [reflexivity | discriminate].
Qed.

End Token.

(** X23. [readTokenFromEnvOrFile] never throws and never gives an empty
    token, and it changes no file but the token file; so the branch of
    the middleware that lets everything through is never taken with
    the token of the server, and a request without an [Authorization]
    header is answered with status 401. *)
Theorem token_is_never_empty {rt : Runtime} (REGISTRY_TOKEN : option string)
        (random : string) (fs : filesystem) :
  exists token fs',
    readTokenFromEnvOrFile REGISTRY_TOKEN random fs = (Return token, fs')
    /\ token <> ""
    /\ same_files_but [FS.at_path fs (path_resolve (process_cwd fs) "token")] fs fs'
    /\ forall handler fs0,
         behind_auth token None handler fs0 = (unauthorized, fs0).
Proof.
  assert (A : forall token, token <> "" ->
                forall handler fs0, behind_auth token None handler fs0 = (unauthorized, fs0)).
  { intros token Ht handler fs0. unfold behind_auth, authMiddleware.
    destruct (String.eqb_spec token "") as [|_]; [contradiction | reflexivity]. }
  destruct (readToken_cases REGISTRY_TOKEN random fs) as [[t [R N]]|[_ [fs' [R W]]]].
  - exists t, fs. split; [exact R|]. split; [exact N|]. split; [|exact (A t N)].
    apply (same_files_more []); [apply same_files_refl | intros x []].
  - exists ("dev-token-" ++ random), fs'. split; [exact R|].
    split; [discriminate|]. split; [|apply A; discriminate].
    destruct W as [W|[-> _]].
    + apply writeFile_files in W. apply W.
    + apply (same_files_more []); [apply same_files_refl | intros x []].
Qed.

(** X24. The token survives a restart. When no [REGISTRY_TOKEN] is set
    and the token file can be written, the token that one start gives
    (read from the file, or generated and written to it) is the token
    that the next start gives, whatever it draws at random. *)
Theorem generated_token_is_kept {rt : Runtime} (random random' token : string)
        (fs fs' : filesystem) :
  readTokenFromEnvOrFile None random fs = (Return token, fs') ->
  returns (FS.writeFile fs (path_resolve (process_cwd fs) "token")
                        (utf8_encode ("dev-token-" ++ random))) = true ->
  utf8_decode (utf8_encode ("dev-token-" ++ random)) = "dev-token-" ++ random ->
  every (fun c => negb (is_white c)) random = true ->
  readTokenFromEnvOrFile None random' fs' = (Return token, fs').
Proof.
  intros R W U B. unfold readTokenFromEnvOrFile in R.
  destruct (token_of_file fs (path_resolve (process_cwd fs) "token")) as [t|] eqn:F.
  - inversion R; subst. unfold readTokenFromEnvOrFile. rewrite F. reflexivity.
  - destruct (FS.writeFile fs _ _) as [fs1|e] eqn:W1; [|discriminate W].
    inversion R; subst; clear R.
    assert (C : cwd fs' = cwd fs).
    { apply writeFile_files in W1. destruct W1 as [_ [C _]]. exact C. }
    assert (P : process_cwd fs' = process_cwd fs) by (unfold process_cwd; rewrite C; reflexivity).
    unfold readTokenFromEnvOrFile, token_of_file. rewrite P.
    apply writeFile_files in W1. destruct W1 as [H _].
    apply readFile_holds in H. rewrite H, U. cbv zeta.
    rewrite trim_black.
    + reflexivity.
    + rewrite every_app, B. reflexivity.
Qed.

Lemma generated_token_is_kept_witness :
  readTokenFromEnvOrFile (rt:=MiniRuntime.runtime) None "zzzz"
    (snd (readTokenFromEnvOrFile (rt:=MiniRuntime.runtime) None "k3y" Sample.disk))
  = (Return "dev-token-k3y",
     snd (readTokenFromEnvOrFile (rt:=MiniRuntime.runtime) None "k3y" Sample.disk)).
Proof.
  apply (generated_token_is_kept (rt:=MiniRuntime.runtime) "k3y" "zzzz" "dev-token-k3y"
           Sample.disk).
  - vm_compute. reflexivity.
  - vm_compute. reflexivity.
  - vm_compute. reflexivity.
  - reflexivity.
Defined.

(** ** One locator for a version *)

Lemma with_tarball_again (m : props) (key url url' : string) :
  with_tarball (props_of (with_tarball m key url)) key url' = with_tarball m key url'.
Proof.
  unfold with_tarball. cbn [props_of].
  rewrite !field_set. cbn [String.eqb Ascii.eqb Bool.eqb].
  rewrite !field_set, String.eqb_refl.
  rewrite !field_set. cbn [String.eqb Ascii.eqb Bool.eqb props_of].
  rewrite !own_set_set. reflexivity.
Qed.

Lemma with_tarball_walks (m : props) (key url : string) :
  mapping_or_nothing (field (VObj m) "dist-tags") = true ->
  walks_mappings (props_of (with_tarball m key url)) key.
Proof.
  intros H. unfold walks_mappings, with_tarball. cbn [props_of].
  rewrite !field_set. cbn [String.eqb Ascii.eqb Bool.eqb].
  rewrite !field_set, String.eqb_refl.
  rewrite !field_set. cbn [String.eqb Ascii.eqb Bool.eqb].
  repeat split; try reflexivity. exact H.
Qed.

(** X20. A version has one locator, and the last upload sets it. For a
    descriptor made of mappings, recording a second tarball after a
    first gives the descriptor that recording the second alone gives,
    and recording the same tarball again changes nothing. *)
Theorem last_upload_wins (m : props) (url url' key : string) (latest : value) :
  field (field (VObj m) "dist-tags") "latest" = latest ->
  toString (if truthy latest then latest else VStr "0.0.0") = Return key ->
  walks_mappings m key ->
  inherited key = false ->
  exists meta,
    record_tarball (VObj m) url = Return meta
    /\ record_tarball meta url' = record_tarball (VObj m) url'
    /\ record_tarball meta url = Return meta.
Proof.
  intros L K W I.
  pose proof (record_tarball_walks m url key latest L K W I) as R1.
  pose proof (record_tarball_walks m url' key latest L K W I) as R2.
  exists (with_tarball m key url). split; [exact R1|].
  assert (G : forall u, record_tarball (with_tarball m key url) u
                        = Return (with_tarball m key u)).
  { intros u.
    assert (E : with_tarball m key url = VObj (props_of (with_tarball m key url)))
      by reflexivity.
    rewrite E at 1. rewrite (record_tarball_walks _ u key latest).
    - rewrite with_tarball_again. reflexivity.
    - rewrite <- E. rewrite with_tarball_fields by discriminate. exact L.
    - exact K.
    - apply with_tarball_walks. apply W.
    - exact I. }
  split; [rewrite G, R2; reflexivity | apply G].
Qed.

Lemma last_upload_wins_witness :
  exists meta,
    record_tarball Sample.tagged_descriptor "http://localhost:4873/left-pad/-/a.tgz"
    = Return meta
    /\ record_tarball meta "http://localhost:4873/left-pad/-/b.tgz"
       = record_tarball Sample.tagged_descriptor "http://localhost:4873/left-pad/-/b.tgz"
    /\ record_tarball meta "http://localhost:4873/left-pad/-/a.tgz" = Return meta.
Proof.
  apply (last_upload_wins
           [("name", VStr "left-pad");
            ("dist-tags", VObj [("latest", VStr "2.1.0")]);
            ("versions", VObj [("2.1.0", VObj [("description", VStr "pads")])])]
           "http://localhost:4873/left-pad/-/a.tgz" "http://localhost:4873/left-pad/-/b.tgz"
           "2.1.0" (VStr "2.1.0")).
  - reflexivity.
  - reflexivity.
  - repeat split.
  - reflexivity.
Defined.

(** ** The layout of the store *)

(** X16. The layout of the store, as the head of [lib/storage.js]
    draws it: the directory of a package is [packages/] under the
    storage root followed by the directory names in the key of the
    package, none of them blank, [..] or with a slash; its descriptor
    is the entry [meta.json] of that directory; its tarballs are the
    entries of its directory [tarballs] that the sanitized file names
    name, a blank name naming that directory itself. *)
Theorem store_layout (base pkg filename : string) (fs : filesystem) :
  let packages := (FS.at_path fs base ++ ["packages"])%list in
  let dir := (packages ++ Path.below [sanitizePkgName pkg])%list in
  FS.at_path fs (Path.join [base; "packages"]) = packages
  /\ FS.at_path fs (pkgDir_of base pkg) = dir
  /\ FS.at_path fs (metaPath_of base pkg) = (dir ++ ["meta.json"])%list
  /\ FS.at_path fs (Path.join [pkgDir_of base pkg; "tarballs"]) = (dir ++ ["tarballs"])%list
  /\ FS.at_path fs (tarballPath_of base pkg filename)
     = (dir ++ "tarballs" :: (if Path.is_blank (sanitizeFilename filename) then []
                              else [sanitizeFilename filename]))%list
  /\ Forall Path.plain (Path.below [sanitizePkgName pkg]).
Proof.
  cbv zeta. unfold FS.at_path.
  assert (D : Path.resolve (cwd fs) (pkgDir_of base pkg)
              = ((Path.resolve (cwd fs) base ++ ["packages"])
                 ++ Path.below [sanitizePkgName pkg])%list).
  { rewrite resolve_pkgDir, <- app_assoc. reflexivity. }
  split; [apply resolve_packages_dir|]. split; [exact D|].
  split; [rewrite StorePaths.resolve_metaPath, D; reflexivity|].
  split; [rewrite StorePaths.resolve_tarballs, D; reflexivity|].
  split.
  - rewrite StorePaths.resolve_tarballPath, D.
    destruct (Path.is_blank (sanitizeFilename filename)) eqn:B.
    + rewrite (below_blank _ B). reflexivity.
    + rewrite (StorePaths.below_plain _ (sanitizeFilename_plain filename B)). reflexivity.
  - unfold Path.below. cbn [flat_map]. rewrite app_nil_r.
    pose proof (PathFacts.split_segments (sanitizePkgName pkg)) as S.
    pose proof (PathFacts.split_no_parent _ (sanitizePkgName_clean pkg)) as P.
    induction (Path.split (sanitizePkgName pkg)) as [|seg segs IH]; [constructor|].
    inversion S; subst. inversion P; subst. cbn [filter].
    destruct (Path.is_blank seg) eqn:B; cbn [negb]; [apply IH; assumption|].
    constructor; [|apply IH; assumption].
    repeat split; assumption.
Qed.

(** ** The handlers that read *)

(** X26. The handlers that read leave the file system as it is and
    never answer with status 500 for the store's sake: the listing is
    always answered with status 200; [GET /:pkg] is answered with
    status 200 when the descriptor that is read counts as true and
    with status 404 when it does not (a file that holds [null], [0],
    [false] or an empty string is a package that is not found); a
    download of what [fs.access] does not find is answered with
    status 404. *)
Theorem reading_handlers_only_read {rt : Runtime} (STORAGE_DIR pkg filename : string)
        (fs : filesystem) :
  (exists listing, get_all STORAGE_DIR fs = ({| status := 200; json := VObj listing |}, fs))
  /\ snd (get_pkg STORAGE_DIR pkg fs) = fs
  /\ status (answer (fst (get_pkg STORAGE_DIR pkg fs)))
     = (if truthy (descriptor_of STORAGE_DIR pkg fs) then 200 else 404)
  /\ snd (get_tarball STORAGE_DIR pkg filename fs) = fs
  /\ (returns (FS.access fs (Path.join [pkgDir_of STORAGE_DIR pkg; "tarballs";
                                         sanitizeFilename filename])) = false ->
      exists r, fst (get_tarball STORAGE_DIR pkg filename fs) = Refused r /\ status r = 404).
Proof.
  split; [|split; [|split; [|split]]].
  - destruct (list_fold STORAGE_DIR fs (package_entries STORAGE_DIR fs) [] eq_refl)
      as [listing [L _]].
    exists listing. unfold get_all. rewrite listAllPackages_fold, L. reflexivity.
  - unfold get_pkg. rewrite readPackageMeta_descriptor.
    destruct (truthy _); reflexivity.
  - unfold get_pkg. rewrite readPackageMeta_descriptor.
    destruct (truthy _); reflexivity.
  - unfold get_tarball, getTarballPath. destruct (FS.access fs _); [|reflexivity].
    destruct (String.eqb _ ""); [reflexivity|].
    destruct (setHeader _ _); reflexivity.
  - intros A. unfold get_tarball, getTarballPath. fold (pkgDir_of STORAGE_DIR pkg).
    destruct (FS.access fs _); [discriminate A|].
    eexists. split; reflexivity.
Qed.

(** ** When the handlers succeed *)




